(* ===== verification/_CoqProject ===== *)
-Q . S2P
Prelude.v
Wire.v
Likes.v
Persister.v
Registry.v
Broadcaster.v
Router.v
Chats.v
Lifecycle.v
LifecycleFacts.v
Harness.v
HarnessFacts.v
Delivery.v
Scenarios.v
Pages.v
ScenarioFacts.v
WsScenarioFacts.v
Suite.v
