(* ===== verification/Prelude.v ===== *)
(** * A verification development of insta_chat's real-time relay and its tests

    The repository (tusharsadhwani/insta_chat) is a chat server: a client
    opens a websocket scoped to one chat room and one user, sends frames
    (a new text message, or a like toggle), and the server stores each
    event and fans it out to every connection currently joined to the room.
    Only two Go files of the repository are under [src/]:
    - [src/server/models/like.go]: the [DBLike] row and its [TableName];
    - [src/server/tests/api_test.go]: the end-to-end tests [TestChats],
      [TestUsers] and [TestWebsockets] run by [TestMain].
    The server itself is not under [src/]: its connection registry, event
    router, broadcaster, connection lifecycle, chat endpoints and
    persistence layer, and the [testutils] client helpers, are modelled
    from the specification.  The manifest marks every such definition as
    spec-modelled.  The tests are modelled line by line and proved to pass
    on that model.

    ** Files, in dependency order
    - [Prelude] (this file): the [result] error monad with stdpp's
      [MRet]/[MBind] (so [x ← m; k] reads as Go's [if err != nil] chain),
      hint databases, the tactics [invc], [simpl_result], [decide_closed],
      and generic lemmas on lists.
    - [Wire]: [api.WebsocketParams] and [api.Message] as records (Go
      pointers as [option]), [decode_frame] to the tagged union [Event]
      (exactly one variant per frame), the error taxonomy [ChatError], the
      frames the tests build ([message_frame], [like_frame]), and
      [strconv.Itoa] ([Itoa]) for the message id the like test sends.
    - [Likes]: [DBLike] and [TableName] from [like.go]; the table as a list
      of rows with the specification's toggle (insert if absent, delete if
      present), its uniqueness invariant, its involution and like counts,
      and its refinement of the specification's set of (message, user)
      pairs ([like_set], [abs_toggle]).
    - [Persister]: the persistence interface as type classes ([Persister]
      and its laws [PersisterLaws]) and the in-memory store [MemDB]
      (sequential positive ids, unique uuids, the likes table), which
      discharges the laws.
    - [Registry]: the registry contract ([RegistryOps]/[RegistryLaws]: Join,
      Leave, Members snapshot) and its [gmap Z (gset ConnId)]
      implementation.  A refinement theorem relates any lawful registry
      to a set of (room, connection) pairs.
    - [Broadcaster]: per-connection FIFO queues ([b_out]), broken transports
      ([b_dead]), and [send]: fan-out over a snapshot, with failure
      isolation and removal of failed members.  It is proved against the
      registry interface only.
    - [Router]: [handle] (EventRouter.Handle): decode, check room and user,
      persist, enrich with the assigned id or echo the like, broadcast;
      [read_frame] keeps the state on an error.  It is proved against the
      two interfaces.
    - [Chats]: the chat endpoints the handshake and the tests use
      ([CreateChat], [LookupChat], [LookupChatByAddress], [DeleteChat],
      [ListChats]), with unique addresses, positive sequential ids,
      creator-only delete and the error texts the tests compare.
    - [Lifecycle]: the connection state machine ([conn_step]) and the relay
      as one step function [sys_step] over interleaved events (accept,
      handshake, start reading, frame, close, teardown, broken transport,
      chat requests).  [reachable] is the set of states of all runs.
    - [LifecycleFacts]: the invariant [sys_inv] of reachable states, proved
      by induction on [reachable].  It covers registry membership, the
      log of Join/Leave per connection, fresh ids, queues and stores.  It
      yields membership safety, Join and Leave exactly once, no delivery
      after close, and the state machine discipline.
    - [Harness]: the [testutils] client over a [World] (the relay state
      with the client's read cursor per connection), and the [Test]
      state-error monad with the control flow of Go's [testing] package:
      [t.Fatal] ([TFatal], carrying the world its deferred calls leave),
      a panic ([TPanic]), a read that never returns ([TBlocked]),
      [defer], and [t.Run] ([t_Run], [t_runs], [t_Runs]: a failing
      subtest does not stop its siblings).  [ends] says a computation
      neither panics nor blocks.
    - [HarnessFacts]: what [Dial] (admitted or refused), [WriteJSON],
      [ReadJSON], [CloseConn] and [WSSendAndVerify] do on a world that
      satisfies [sys_inv].
    - [Delivery]: several clients' message frames in one interleaving
      ([WriteAll] of [Post]s) reach every open member of the room in the
      order the server handled them; a closed connection and a broken one
      ([BreakTransport]) receive nothing; liking twice; the likes table
      and the like keys of every reachable state.
    - [Scenarios]: each test and [t.Run] subtest of [api_test.go] as a
      [Test] computation, written statement by statement.
    - [Pages]: [TestHelloWorld] and [TestLogin], against a parameter
      [get] for what the server answers on its greeting and login pages.
    - [ScenarioFacts], [WsScenarioFacts]: when each test passes and when it
      fails; [WsScenarioFacts] also defines [TestWebsockets] and its
      subtest [connect to websocket] from the four subtests of [Scenarios].
    - [Suite]: [TestMain] from a fresh server: the five tests in file order.

    ** What the claims show (C1 to C33 of the manifest)
    - The whole suite passes on a fresh server for any two distinct users
      and four distinct uuids, when the greeting and login pages answer as
      expected.  It leaves three chats, the four messages with ids 1 to 4
      in send order, one like row, and no open connection (C1, C6, C7,
      C8); and it passes only if those pages answer so (C23).
    - [TestWebsockets] passes from every reachable server state, whatever
      other clients did before (C2).  [TestChats] and [TestUsers] pass
      under their stated conditions (C9, C10).
    - The tests fail in specific situations: a rerun on the same database
      (C11), a server that already holds a chat (C12), identical users
      (C13), and a room policy that refuses [TestUser2] the room
      [TestUser] created: the group check the file leaves as a TODO.
      There every later subtest fails at the dial, the deferred closes
      still run, and no connection is left open (C27).  A refusal of
      both users makes the like subtest index an empty page and panic
      (C31).  A failing test does not stop the suite: with a wrong
      greeting every other test still runs and passes (C32).
    - Termination: under every room policy [TestWebsockets] ends, passing,
      failing at the handshake or panicking, and never waits in
      [ReadJSON] (C28), and the tests that only make HTTP requests always
      end (C33); but when two of its random uuids collide it waits
      for ever for an echo the server never sends (C29).
    - The router on the frames the tests build: messages are delivered
      with their id (C3), likes are echoed verbatim (C4), forged frames are
      rejected without effect (C5).
    - Likes: toggle involution and count (C14, C15); the like key round
      trip (C16); two spellings of one id give two rows (C17).  The table
      refines the specification's set of pairs under any run of toggles
      (C18), and every reachable relay state keeps one row per pair
      (C22).
    - The like key [strconv.Itoa(ID)] of every Go [int] id in (0, 2^63)
      has 1 to 19 characters, its number of decimal digits (C19).
    - Delivery (specification sections 5 and 8): interleaved message
      frames of several clients reach every open member, senders
      included, in one order (C20); a closed connection receives nothing
      more while the others still do (C21); a member whose transport
      breaks gets nothing and is removed from the room while the others
      still receive (C26).  Liking twice restores the table and echoes
      both frames (C24).  Message and like frames interleaved: every
      member receives them in handling order, messages with consecutive
      ids and likes verbatim, and the likes table refines the abstract
      toggles of the run (C30).  Every stored message of a reachable state has a
      positive id whose like key names it alone (C25).
    The library lemmas behind them are kept as lemmas:
    - broadcaster FIFO and failure isolation;
    - registry refinement;
    - lifecycle safety;
    - chat store round trips.

    ** Bounds and modelling choices
    - No fuel is needed: every definition is structurally recursive or a
      fold over a list.  Ids are Go [int]s, 64 bits on the server: the
      length bound on [Itoa] is stated for ids below [2^63].  The suite is a closed computation; at concrete
      inputs it evaluates by [vm_compute] in milliseconds.
    - Concurrency is interleaving: a run is any sequence of [sys_step]
      events, and invariants hold on all of them.
    - [conn.ReadJSON] blocks: on a connection with no unread frame the run
      ends in [TBlocked c], distinct from a [t.Fatal] ([TFatal]), since
      nothing else could make the server write to [c] while the test
      waits.  Termination of a test is therefore a theorem (C28), not a
      consequence of fuel.
    - Frames are compared as values, where the tests compare their JSON
      encodings.  Equal frames have equal encodings, so a passing check
      in the model also passes in Go.
    - The random uuids ([rand.Uint64]), the test users' ids and names, and
      the server's greeting and login pages are parameters.
    - A test's verdict is its first failure message: Go prints every
      failing subtest, the model keeps the first ([t_Runs]).  A panic
      ends the run at once, as it ends the test binary.
    - The room policy is a parameter of the client ([RoomPolicy]): the
      lemmas on the websocket tests hold for any policy that admits the two
      test users, and [TestMain] runs against the server's policy
      [server_may_join], which admits every user (see the TODO at the end
      of [api_test.go]).

    ** Not modelled
    - nothing more of [like.go]: its remaining lines are the package
      clause and comments; [DBLike] and [TableName] are modelled whole;
    - HTTP routing and TLS;
    - JSON byte-level encoding;
    - the database engine (rows are values);
    - sessions and login beyond the user id a session names;
    - the handlers of the greeting and login pages (outside [src/] and
      the specification): [TestHelloWorld] and [TestLogin] are modelled
      against what they answer;
    - timeouts and backpressure;
    - [app.Shutdown()] at the end of [TestMain]: what the framework does
      to hijacked websocket connections is outside the specification, and
      the tests have closed every connection before it (C8). *)

From stdpp Require Export base gmap sets list strings.
From Stdlib Require Export ZArith Lia.

Declare Scope chat_scope.
Delimit Scope chat_scope with chat.
Open Scope chat_scope.

Ltac invc H := inversion H; subst; clear H.

(** ** The error monad *)

(** The result of a fallible operation: the Go pair [(v, err)] with
    [err == nil] as [Ok v] and [err != nil] as [Err err]. *)
Inductive result (E A : Type) : Type :=
| Ok (a : A)
| Err (e : E).
Arguments Ok {E A} a.
Arguments Err {E A} e.

#[export] Instance result_ret E : MRet (result E) := λ A a, Ok a.
#[export] Instance result_bind E : MBind (result E) :=
  λ A B f m, match m with Ok a => f a | Err e => Err e end.

(** Lift a failure of a collaborator, given as [None], into an error. *)
Definition of_option {E A} (e : E) (o : option A) : result E A :=
  match o with Some a => Ok a | None => Err e end.

Notation "o 'or_fail' e" := (of_option e o) (at level 60) : chat_scope.

Section ResultLemmas.
Context {E A B : Type}.

Lemma bind_Ok_l (a : A) (f : A → result E B) : (Ok a ≫= f) = f a.
Proof. reflexivity. Qed.

Lemma bind_Err_l (e : E) (f : A → result E B) : (Err e ≫= f) = Err e.
Proof. reflexivity. Qed.

Lemma bind_Ok_inv (m : result E A) (f : A → result E B) b :
  (m ≫= f) = Ok b → ∃ a, m = Ok a ∧ f a = Ok b.
Proof. destruct m; simpl; [eauto|discriminate]. Qed.

Lemma of_option_Ok (e : E) (o : option A) a : (o or_fail e) = Ok a ↔ o = Some a.
Proof. destruct o; simpl; split; congruence. Qed.

Lemma of_option_Err (e e' : E) (o : option A) : (o or_fail e) = Err e' → o = None ∧ e = e'.
Proof. destruct o; simpl; intros Hr; invc Hr; auto. Qed.
End ResultLemmas.

Create HintDb chat discriminated.
Create Rewrite HintDb chat_rw.
#[export] Hint Rewrite @bind_Ok_l @bind_Err_l : chat_rw.

(** ** Tactics *)

(** Split a hypothesis [m ≫= f = Ok b] or [o or_fail e = Ok a] into its
    parts, repeatedly. *)
Ltac simpl_result :=
  repeat match goal with
  | H : (_ ≫= _) = Ok _ |- _ =>
      let a := fresh "a" in let Ha := fresh "Ha" in
      apply bind_Ok_inv in H as (a & Ha & H)
  | H : (_ or_fail _) = Ok _ |- _ => apply of_option_Ok in H
  | H : Ok _ = Ok _ |- _ => injection H as H
  | H : Some _ = Some _ |- _ => injection H as H
  end; subst.

(** Prove a decidable proposition about closed data by evaluating its
    decision procedure. *)
Ltac decide_closed :=
  lazymatch goal with |- ?P => apply (bool_decide_unpack P); vm_compute; exact I end.

(** ** Generic lemmas on lists and maps shared by the components *)

Lemma NoDup_cons_not_elem {A} (x : A) (l : list A) : NoDup (x :: l) → x ∉ l.
Proof. by intros [??]%NoDup_cons. Qed.

#[export] Hint Resolve NoDup_cons_not_elem : chat.

Lemma Forall_filter_sub {A} (P : A → Prop) (Q : A → Prop) `{∀ x, Decision (Q x)} (l : list A) :
  Forall P l → Forall P (filter Q l).
Proof. rewrite !Forall_forall. intros HP x [_ Hx]%list_elem_of_filter. by apply HP. Qed.

Lemma NoDup_fmap_filter {A B} (f : A → B) (Q : A → Prop) `{∀ x, Decision (Q x)} (l : list A) :
  NoDup (f <$> l) → NoDup (f <$> filter Q l).
Proof. intros Hnd. eapply sublist_NoDup; [exact Hnd|]. apply fmap_sublist, sublist_filter. Qed.

#[export] Hint Resolve Forall_filter_sub NoDup_fmap_filter : chat.

(** A duplicate-free list holds each value at most once. *)
Lemma NoDup_filter_eq_le1 {A} `{EqDecision A} (x : A) (l : list A) :
  NoDup l → length (filter (λ y, y = x) l) ≤ 1.
Proof.
  intros Hnd. pose proof (NoDup_filter (λ y, y = x) l Hnd) as Hf.
  pose proof (Forall_filter_sub (λ _, True) (λ y, y = x) l) as _.
  destruct (filter (λ y, y = x) l) as [|a [|b t]] eqn:E; simpl; [lia|lia|exfalso].
  assert (a = x ∧ b = x) as [-> ->].
  { split; eapply (list_elem_of_filter (λ y, y = x) l); rewrite E; set_solver. }
  apply NoDup_cons in Hf as [Hx _]. set_solver.
Qed.
