(* ===== verification/Wire.v ===== *)
(** * Wire: the websocket frame, its decoding, errors and message ids

    [Message] and [WebsocketParams] are the JSON structures that the tests
    of [src/server/tests/api_test.go] build ([api.Message],
    [api.WebsocketParams]); Go pointer fields ([*int], [*string]) are
    [option]s, the plain [int] field [ID] is a [Z] whose Go zero value [0]
    means "not assigned yet".  [decode_frame] turns a frame into the tagged
    union [Event] of the specification (section 3: exactly one variant is
    populated), [event_frame] is its inverse.  [Itoa] is Go's
    [strconv.Itoa] on 64-bit ints, used by the like test to name a message. *)

From S2P Require Import Prelude.
From Stdlib Require Import Ascii DecimalString DecimalPos DecimalZ DecimalFacts.
Local Open Scope string_scope.

(** ** Data *)

(** [api.Message]: [UUID string], [Chatid *int], [Userid *int],
    [Text *string], [ID int]. *)
Record Message := mkMessage {
  UUID : string;
  Chatid : option Z;
  Userid : option Z;
  Text : option string;
  ID : Z
}.

(** [api.WebsocketParams]: [Type string], [Message *Message],
    [MessageID *string]; the JSON keys are [type], [message], [messageid]. *)
Record WebsocketParams := mkParams {
  wp_Type : string;
  wp_Message : option Message;
  wp_MessageID : option string
}.

#[export] Instance Message_eq_dec : EqDecision Message.
Proof. solve_decision. Defined.
#[export] Instance WebsocketParams_eq_dec : EqDecision WebsocketParams.
Proof. solve_decision. Defined.

(** The two frame kinds, spelled as the tests spell them. *)
Definition TypeMessage : string := "MESSAGE".
Definition TypeLike : string := "Like".

(** The decoded event: a tagged union with one variant per event kind. *)
Inductive Event :=
| EvMessage (m : Message)
| EvLike (messageid : string).

(** ** Errors (specification, section 7) *)

Inductive ProtocolViolation :=
| UnknownType (t : string)     (** [type] is neither [MESSAGE] nor [Like] *)
| MissingPayload               (** the variant of [type] is not populated *)
| BothPayloads                 (** both variants are populated *)
| ForgedUser                   (** [message.userid] is not the sender *)
| CrossRoom.                   (** [message.chatid] is not the room *)

Inductive HandshakeFailure := UnknownChat | Unauthorized.

Inductive ChatError :=
| ProtocolError (v : ProtocolViolation)
| HandshakeError (h : HandshakeFailure)
| PersistenceError
| TransportError.

#[export] Instance ProtocolViolation_eq_dec : EqDecision ProtocolViolation.
Proof. solve_decision. Defined.
#[export] Instance HandshakeFailure_eq_dec : EqDecision HandshakeFailure.
Proof. solve_decision. Defined.
#[export] Instance ChatError_eq_dec : EqDecision ChatError.
Proof. solve_decision. Defined.

(** ** Decoding *)

(** The payload check shared by both kinds: [mine] is the variant the
    [type] asks for, [other] the one it must not carry. *)
Definition one_variant {A B} (mine : option A) (other : option B) : result ChatError A :=
  match mine, other with
  | Some a, None => Ok a
  | Some _, Some _ => Err (ProtocolError BothPayloads)
  | None, _ => Err (ProtocolError MissingPayload)
  end.

Definition decode_frame (f : WebsocketParams) : result ChatError Event :=
  if String.eqb (wp_Type f) TypeMessage then
    m ← one_variant (wp_Message f) (wp_MessageID f); Ok (EvMessage m)
  else if String.eqb (wp_Type f) TypeLike then
    mid ← one_variant (wp_MessageID f) (wp_Message f); Ok (EvLike mid)
  else Err (ProtocolError (UnknownType (wp_Type f))).

(** The frame that carries an event: the inverse of [decode_frame]. *)
Definition event_frame (e : Event) : WebsocketParams :=
  match e with
  | EvMessage m => mkParams TypeMessage (Some m) None
  | EvLike mid => mkParams TypeLike None (Some mid)
  end.

(** The frame that [like a message] builds from a message id
    ([api_test.go]: [MessageID: &messageID] with [Type: "Like"]). *)
Definition like_frame (messageID : string) : WebsocketParams :=
  mkParams TypeLike None (Some messageID).

(** The frame of a new text message, as the websocket subtests build it:
    [Type: "MESSAGE"], [UUID], [Chatid], [Userid], [Text], [ID] unset. *)
Definition message_frame (uuid : string) (chatid userid : Z) (text : string) : WebsocketParams :=
  mkParams TypeMessage (Some (mkMessage uuid (Some chatid) (Some userid) (Some text) 0)) None.

(** The message with its server-assigned id filled in (the persister sets
    [ID]; the router re-embeds it in the broadcast payload). *)
Definition with_id (id : Z) (m : Message) : Message :=
  mkMessage (UUID m) (Chatid m) (Userid m) (Text m) id.

(** ** Message ids as strings: Go's [strconv.Itoa] *)

(** [strconv.Itoa] (that is [FormatInt(i, 10)]): an optional minus sign
    and the decimal digits of the absolute value, no leading zeros. *)
Definition Itoa (i : Z) : string :=
  match i with
  | Z0 => "0"
  | Zpos p => NilEmpty.string_of_uint (Pos.to_uint p)
  | Zneg p => String "-"%char (NilEmpty.string_of_uint (Pos.to_uint p))
  end.

(** The decimal reading of a string of digits with an optional sign, the
    left inverse of [Itoa] used to prove that [Itoa] loses nothing. *)
Definition parse_decimal (s : string) : option Z :=
  let digits s := d ← NilZero.uint_of_string s; Some (Z.of_uint d) in
  match s with
  | String "-"%char s' => z ← digits s'; Some (- z)%Z
  | _ => digits s
  end.

(** The message id the like test sends:
    [messageID := strconv.Itoa(respMessagePage.Messages[0].ID)]. *)
Definition like_message_id (m : Message) : string := Itoa (ID m).

(** ** Decoding theorems *)

Lemma one_variant_Ok {A B} (mine : option A) (other : option B) a :
  one_variant mine other = Ok a ↔ mine = Some a ∧ other = None.
Proof. destruct mine, other; simpl; naive_solver. Qed.

Lemma decode_event_frame (e : Event) : decode_frame (event_frame e) = Ok e.
Proof. by destruct e. Qed.

(** A frame that decodes is the frame of the event it decodes to. *)
Lemma decode_frame_Ok_inv (f : WebsocketParams) (e : Event) :
  decode_frame f = Ok e → f = event_frame e.
Proof.
  destruct f as [t m mid]. unfold decode_frame; simpl.
  destruct (String.eqb_spec t TypeMessage) as [->|];
    [|destruct (String.eqb_spec t TypeLike) as [->|]]; intros H; simpl_result;
    try apply one_variant_Ok in Ha as [-> ->]; done.
Qed.

(** Decoding and the frame of an event are inverse: every event decodes
    back from its frame, and a frame that decodes to an event is exactly
    that event's frame (so an accepted frame carries exactly the variant
    its [type] names). *)
Lemma decode_frame_roundtrip (f : WebsocketParams) (e : Event) :
  decode_frame f = Ok e ↔ f = event_frame e.
Proof. split; [apply decode_frame_Ok_inv | intros ->; apply decode_event_frame]. Qed.

(** A frame whose [type] is neither kind is rejected as a protocol error
    naming the type. *)
Lemma decode_frame_unknown (f : WebsocketParams) :
  wp_Type f ≠ TypeMessage → wp_Type f ≠ TypeLike →
  decode_frame f = Err (ProtocolError (UnknownType (wp_Type f))).
Proof.
  intros H1 H2. unfold decode_frame.
  by rewrite (proj2 (String.eqb_neq _ _) H1), (proj2 (String.eqb_neq _ _) H2).
Qed.

(** ** Itoa *)

Lemma to_uint_nonnil p : Pos.to_uint p ≠ Decimal.Nil.
Proof. intros H. pose proof (DecimalPos.Unsigned.of_to p) as E. by rewrite H in E. Qed.

Lemma parse_digits_of_pos p :
  NilZero.uint_of_string (NilEmpty.string_of_uint (Pos.to_uint p)) = Some (Pos.to_uint p).
Proof.
  pose proof (to_uint_nonnil p). pose proof (NilEmpty.usu (Pos.to_uint p)).
  by destruct (Pos.to_uint p).
Qed.

Lemma of_uint_to_uint p : Z.of_uint (Pos.to_uint p) = Zpos p.
Proof. unfold Z.of_uint. by rewrite DecimalPos.Unsigned.of_to. Qed.

(** [strconv.Itoa] loses nothing: reading its output back gives the
    integer, for every int. *)
Lemma Itoa_roundtrip (i : Z) : parse_decimal (Itoa i) = Some i.
Proof.
  destruct i as [|p|p]; [done| |].
  - unfold parse_decimal, Itoa. pose proof (parse_digits_of_pos p) as H.
    pose proof (to_uint_nonnil p).
    destruct (Pos.to_uint p) eqn:E; try done; simpl in *; rewrite H;
      simpl; by rewrite <- E, of_uint_to_uint.
  - unfold parse_decimal, Itoa. cbv iota beta. rewrite parse_digits_of_pos.
    simpl. by rewrite of_uint_to_uint.
Qed.

Lemma Itoa_inj (i j : Z) : Itoa i = Itoa j → i = j.
Proof.
  intros H. apply (f_equal parse_decimal) in H.
  rewrite !Itoa_roundtrip in H. congruence.
Qed.

(** C16: the id the like test sends names its message without loss: it
    reads back as the message's id, and two messages with different ids
    are never liked under the same key. *)
Theorem like_message_id_roundtrip (m m' : Message) :
  parse_decimal (like_message_id m) = Some (ID m) ∧
  (like_message_id m = like_message_id m' → ID m = ID m').
Proof. split; [apply Itoa_roundtrip|apply Itoa_inj]. Qed.

(** ** The length of [strconv.Itoa]'s output *)

Lemma of_uint_acc_val (d : Decimal.uint) (acc : positive) :
  Zpos (Pos.of_uint_acc d acc) = (Zpos acc * 10 ^ Z.of_nat (Decimal.nb_digits d) + Z.of_uint d)%Z.
Proof.
  revert acc. induction d as [|d IH|d IH|d IH|d IH|d IH|d IH|d IH|d IH|d IH|d IH]; intros acc;
    unfold Z.of_uint in *; cbn [Pos.of_uint_acc Decimal.nb_digits Pos.of_uint Z.of_N];
    [lia|..]; rewrite !IH, Nat2Z.inj_succ, Z.pow_succ_r by lia; lia.
Qed.

(** A digit string is below ten to the number of its digits. *)
Lemma of_uint_bound (d : Decimal.uint) : (0 ≤ Z.of_uint d < 10 ^ Z.of_nat (Decimal.nb_digits d))%Z.
Proof.
  induction d as [|d IH|d IH|d IH|d IH|d IH|d IH|d IH|d IH|d IH|d IH];
    unfold Z.of_uint in *; cbn [Decimal.nb_digits Pos.of_uint Z.of_N];
    [cbn; lia|..]; rewrite ?of_uint_acc_val, Nat2Z.inj_succ, Z.pow_succ_r by lia;
    unfold Z.of_uint; lia.
Qed.

(** A normalised digit string (no leading zero) of a nonzero number is at
    least ten to the number of its digits minus one. *)
Lemma unorm_lower (d : Decimal.uint) :
  Decimal.unorm d = d → d ≠ Decimal.zero →
  (10 ^ (Z.of_nat (Decimal.nb_digits d) - 1) ≤ Z.of_uint d)%Z.
Proof.
  intros Hn Hz. destruct d as [|d|d|d|d|d|d|d|d|d|d]; [done| |..].
  { exfalso. unfold Decimal.unorm in Hn. cbn [Decimal.nzhead] in Hn.
    pose proof (nb_digits_nzhead d) as Hl.
    destruct (Decimal.nzhead d) eqn:Ed; [by rewrite <-Hn in Hz|..];
    apply (f_equal Decimal.nb_digits) in Hn; cbn in Hn, Hl; lia. }
  all: unfold Z.of_uint; cbn [Decimal.nb_digits Pos.of_uint Z.of_N];
    rewrite of_uint_acc_val; pose proof (of_uint_bound d); unfold Z.of_uint in *;
    replace (Z.of_nat (S (Decimal.nb_digits d)) - 1)%Z with (Z.of_nat (Decimal.nb_digits d)) by lia;
    lia.
Qed.

Lemma string_of_uint_length (d : Decimal.uint) :
  String.length (NilEmpty.string_of_uint d) = Decimal.nb_digits d.
Proof. induction d; simpl; by f_equal. Qed.

(** [strconv.Itoa] of a positive int has exactly as many characters as the
    int has decimal digits. *)
Lemma Itoa_digits (p : positive) :
  (10 ^ (Z.of_nat (String.length (Itoa (Zpos p))) - 1) ≤ Zpos p <
     10 ^ Z.of_nat (String.length (Itoa (Zpos p))))%Z.
Proof.
  unfold Itoa. rewrite string_of_uint_length.
  pose proof (DecimalPos.Unsigned.to_of (Pos.to_uint p)) as Hn.
  rewrite DecimalPos.Unsigned.of_to in Hn. cbn [N.to_uint] in Hn.
  rewrite <-(of_uint_to_uint p). split; [|apply of_uint_bound].
  apply unorm_lower; [done|apply DecimalPos.Unsigned.to_uint_nonzero].
Qed.

(** C19: the id the like test sends is short: for every id the store can
    assign (positive, and a Go [int], below [2^63]) it has between 1 and 19
    characters, exactly the number of decimal digits of the id. *)
Theorem like_message_id_length (m : Message) :
  (0 < ID m < 2 ^ 63)%Z →
  (1 ≤ String.length (like_message_id m) ≤ 19)%nat ∧
  (10 ^ (Z.of_nat (String.length (like_message_id m)) - 1) ≤ ID m <
     10 ^ Z.of_nat (String.length (like_message_id m)))%Z.
Proof.
  intros Hid. unfold like_message_id. destruct (ID m) as [|p|p]; [lia| |lia].
  pose proof (Itoa_digits p) as [Hlo Hhi].
  set (n := String.length (Itoa (Zpos p))) in *. split; [|done]. split.
  - destruct n; [|lia]. simpl in Hhi. lia.
  - destruct (decide (n ≤ 19)%nat) as [|Hn]; [done|]. exfalso.
    assert (10 ^ 19 ≤ 10 ^ (Z.of_nat n - 1))%Z by (apply Z.pow_le_mono_r; lia). lia.
Qed.

Lemma like_message_id_length_witness :
  (1 ≤ String.length (like_message_id (mkMessage "u" None None None 1234567)) ≤ 19)%nat ∧
  (10 ^ (Z.of_nat (String.length (like_message_id (mkMessage "u" None None None 1234567))) - 1)
     ≤ ID (mkMessage "u" None None None 1234567) <
   10 ^ Z.of_nat (String.length (like_message_id (mkMessage "u" None None None 1234567))))%Z.
Proof. apply like_message_id_length. simpl. lia. Defined.
