(* ===== verification/Likes.v ===== *)
(** * Likes: the [likes] table of [src/server/models/like.go]

    [DBLike] is the row type ([Messageid string], [Userid int]) and
    [TableName] its table.  The table itself is a list of rows in insertion
    order; [toggle_like] is the toggle of the specification (section 3:
    insert the (message, user) row if it is absent, delete it if present),
    which the persister runs for a like frame.  The invariant is that rows
    are unique ([NoDup]); toggling preserves it, toggling twice restores the
    table, and the like count of a message moves by exactly one. *)

From S2P Require Import Prelude.


(** [type DBLike struct { Messageid string; Userid int }] *)
Record DBLike := mkDBLike {
  Messageid : string;
  Userid : Z
}.

#[export] Instance DBLike_eq_dec : EqDecision DBLike.
Proof. solve_decision. Defined.

(** [func (DBLike) TableName() string { return "likes" }] *)
Definition TableName (_ : DBLike) : string := "likes"%string.

Abbreviation LikeTable := (list DBLike).

(** Insert the row if absent, delete it if present. *)
Definition toggle_like (l : DBLike) (t : LikeTable) : LikeTable :=
  if decide (l ∈ t) then filter (λ r, r ≠ l) t else t ++ [l].

(** The number of likes a message has. *)
Definition likes_of (messageid : string) (t : LikeTable) : nat :=
  length (filter (λ r, Messageid r = messageid) t).

(** The table invariant: at most one row per (message, user) pair. *)
Definition like_table_wf (t : LikeTable) : Prop := NoDup t.

(** ** The like relation the specification promises

    Section 3 of the specification describes the likes as a set of
    (message, user) pairs, at most one row per pair, and a like frame as
    the toggle of one pair: the symmetric difference with it.  [like_set]
    is the set a table stands for and [abs_toggle] the toggle on sets. *)

#[export] Instance DBLike_countable : Countable DBLike.
Proof.
  by apply (inj_countable' (λ l, (Messageid l, Userid l)) (λ p, mkDBLike p.1 p.2)); intros [].
Defined.

Definition like_set (t : LikeTable) : gset DBLike := list_to_set t.

Definition abs_toggle (l : DBLike) (a : gset DBLike) : gset DBLike :=
  if decide (l ∈ a) then a ∖ {[l]} else {[l]} ∪ a.

(** A run of like frames, in the order the router handles them. *)
Definition toggle_all (ls : list DBLike) (t : LikeTable) : LikeTable :=
  foldl (λ t l, toggle_like l t) t ls.

Definition abs_toggle_all (ls : list DBLike) (a : gset DBLike) : gset DBLike :=
  foldl (λ a l, abs_toggle l a) a ls.

(** ** Theorems *)

(** The rows of the table after a toggle: the old rows other than [l],
    and [l] exactly when it was absent. *)
Lemma toggle_like_elem (l r : DBLike) (t : LikeTable) :
  r ∈ toggle_like l t ↔ (r ∈ t ∧ r ≠ l) ∨ (r = l ∧ l ∉ t).
Proof.
  unfold toggle_like. case_decide.
  - rewrite list_elem_of_filter. naive_solver.
  - rewrite elem_of_app, list_elem_of_singleton. naive_solver.
Qed.

(** The toggle keeps the rows of the [likes] table unique. *)
Lemma toggle_like_wf (l : DBLike) (t : LikeTable) :
  like_table_wf t → like_table_wf (toggle_like l t).
Proof.
  unfold like_table_wf, toggle_like. intros Hnd. case_decide.
  - by apply NoDup_filter.
  - apply NoDup_app. split_and!; [done| |apply NoDup_singleton]. set_solver.
Qed.

Lemma filter_ne_notin (l : DBLike) (t : LikeTable) : l ∉ t → filter (λ r, r ≠ l) t = t.
Proof.
  induction t as [|r t IH]; intros Hl; [done|].
  rewrite filter_cons_True by set_solver. f_equal. apply IH. set_solver.
Qed.

#[export] Instance likes_of_proper m : Proper ((≡ₚ) ==> (=)) (likes_of m).
Proof. intros t1 t2 Ht. unfold likes_of. by rewrite Ht. Qed.

Lemma likes_of_cons m (r : DBLike) (t : LikeTable) :
  likes_of m (r :: t) = (if decide (Messageid r = m) then S else id) (likes_of m t).
Proof. unfold likes_of. rewrite filter_cons. by case_decide. Qed.

(** Removing a row that is in a duplicate-free table: the table is that
    row in front of the rest, which does not contain it. *)
Lemma like_table_split (l : DBLike) (t : LikeTable) :
  like_table_wf t → l ∈ t →
  ∃ t', (t ≡ₚ l :: t') ∧ (l ∉ t') ∧ (filter (λ r, r ≠ l) t ≡ₚ t').
Proof.
  intros Hnd Hin. apply elem_of_Permutation in Hin as [t' Ht'].
  unfold like_table_wf in Hnd. rewrite Ht' in Hnd. apply NoDup_cons in Hnd as [Hl _].
  exists t'. split_and!; [done|done|].
  rewrite Ht', filter_cons_False by naive_solver. by rewrite filter_ne_notin.
Qed.

(** Toggling the same row twice gives back the table up to the order of
    its rows. *)
Lemma toggle_like_involutive (l : DBLike) (t : LikeTable) :
  like_table_wf t → toggle_like l (toggle_like l t) ≡ₚ t.
Proof.
  intros Hnd. unfold toggle_like at 2. case_decide as Hin.
  - destruct (like_table_split l t Hnd Hin) as (t' & Ht & Hl & Hf).
    unfold toggle_like. rewrite decide_False by (rewrite list_elem_of_filter; naive_solver).
    rewrite Hf, Ht. symmetry. apply Permutation_cons_append.
  - unfold toggle_like. rewrite decide_True by set_solver.
    rewrite filter_app, filter_ne_notin, filter_cons_False, filter_nil by naive_solver.
    by rewrite app_nil_r.
Qed.

(** C14: toggling the same like twice gives back the table, up to the
    order of its rows (a removed row returns at the end of the table). *)
Theorem toggle_like_twice (l : DBLike) (t : LikeTable) :
  like_table_wf t → toggle_like l (toggle_like l t) ≡ₚ t.
Proof. apply toggle_like_involutive. Qed.

Lemma toggle_like_twice_witness :
  toggle_like (mkDBLike "1" 7) (toggle_like (mkDBLike "1" 7) [mkDBLike "2" 7]) ≡ₚ [mkDBLike "2" 7].
Proof. apply toggle_like_twice. apply NoDup_singleton. Defined.

(** C15: the like count of the toggled message moves by exactly one: up
    when the user had not liked it, down when the user had. *)
Theorem toggle_like_count (l : DBLike) (t : LikeTable) :
  like_table_wf t →
  likes_of (Messageid l) (toggle_like l t) =
    if decide (l ∈ t) then pred (likes_of (Messageid l) t) else S (likes_of (Messageid l) t).
Proof.
  intros Hnd. unfold toggle_like. case_decide as Hin.
  - destruct (like_table_split l t Hnd Hin) as (t' & Ht & _ & Hf).
    rewrite Hf, Ht, likes_of_cons. by rewrite decide_True.
  - unfold likes_of. rewrite filter_app, length_app, filter_cons_True by done. simpl. lia.
Qed.

Lemma toggle_like_count_witness :
  likes_of "1" (toggle_like (mkDBLike "1" 7) [mkDBLike "1" 8]) =
    if decide (mkDBLike "1" 7 ∈ [mkDBLike "1" 8]) then pred (likes_of "1" [mkDBLike "1" 8])
    else S (likes_of "1" [mkDBLike "1" 8]).
Proof. apply (toggle_like_count (mkDBLike "1" 7)). apply NoDup_singleton. Defined.

(** One toggle of the table is the toggle of the set it stands for. *)
Lemma toggle_like_set (l : DBLike) (t : LikeTable) :
  like_set (toggle_like l t) = abs_toggle l (like_set t).
Proof.
  unfold like_set, abs_toggle. apply set_eq. intros r.
  rewrite elem_of_list_to_set, toggle_like_elem.
  case_decide as Hl; rewrite elem_of_list_to_set in Hl; set_solver.
Qed.

(** C18: the like table refines the specification's set of pairs: after
    any run of toggles on a table with unique rows, the rows are still
    unique and the set they stand for is the one the abstract toggles
    give. *)
Theorem toggle_all_refines (ls : list DBLike) (t : LikeTable) :
  like_table_wf t →
  like_table_wf (toggle_all ls t) ∧ like_set (toggle_all ls t) = abs_toggle_all ls (like_set t).
Proof.
  revert t. induction ls as [|l ls IH]; intros t Hwf; [done|]. simpl.
  rewrite <-toggle_like_set. apply IH. by apply toggle_like_wf.
Qed.

Lemma toggle_all_refines_witness :
  like_table_wf (toggle_all [mkDBLike "1" 7; mkDBLike "2" 7; mkDBLike "1" 7] [mkDBLike "1" 8]) ∧
  like_set (toggle_all [mkDBLike "1" 7; mkDBLike "2" 7; mkDBLike "1" 7] [mkDBLike "1" 8]) =
    abs_toggle_all [mkDBLike "1" 7; mkDBLike "2" 7; mkDBLike "1" 7] (like_set [mkDBLike "1" 8]).
Proof. apply toggle_all_refines. apply NoDup_singleton. Defined.
