(* ===== verification/Persister.v ===== *)
(** * Persister: the persistence interface and an in-memory store

    The persistence layer is an external collaborator of the relay
    (specification, section 4.3).  [Persister] states its two operations:
    [StoreMessage] appends a message and returns its assigned id, and
    [ToggleLike] toggles a (message, user) like row; a failure is [None].
    [PersisterLaws] is what the router relies on: an assigned id is
    positive and fresh.  [MemDB] is an in-memory implementation: messages
    in insertion order with sequential ids from 1, a unique [uuid] per
    message (a resubmitted uuid fails, as a unique key would), and the
    [likes] table of [Likes]; it is an instance of the laws. *)

From S2P Require Import Prelude Wire Likes.

Class Persister (D : Type) := {
  StoreMessage : Message → D → option (Z * D);
  ToggleLike : string → Z → D → option D;
  stored_ids : D → list Z
}.

(** The laws the router relies on, relative to the store's own invariant
    [persister_wf], which both operations preserve. *)
Class PersisterLaws (D : Type) `{!Persister D} := {
  persister_wf : D → Prop;
  store_message_preserves_wf m d id d' :
    persister_wf d → StoreMessage m d = Some (id, d') → persister_wf d';
  toggle_like_preserves_wf mid uid d d' :
    persister_wf d → ToggleLike mid uid d = Some d' → persister_wf d';
  store_message_id_pos m d id d' :
    persister_wf d → StoreMessage m d = Some (id, d') → (0 < id)%Z;
  store_message_id_fresh m d id d' :
    persister_wf d → StoreMessage m d = Some (id, d') →
    (id ∉ stored_ids d) ∧ stored_ids d' = stored_ids d ++ [id];
  toggle_like_ids mid uid d d' :
    ToggleLike mid uid d = Some d' → stored_ids d' = stored_ids d
}.

(** ** The in-memory store *)

Record MemDB := mkMemDB {
  db_messages : list Message;
  db_next : Z;
  db_likes : LikeTable
}.

Definition empty_db : MemDB := mkMemDB [] 1 [].

Definition mem_store_message (m : Message) (db : MemDB) : option (Z * MemDB) :=
  if decide (UUID m ∈ map UUID (db_messages db)) then None
  else
    let id := db_next db in
    Some (id, mkMemDB (db_messages db ++ [with_id id m]) (id + 1) (db_likes db)).

Definition mem_toggle_like (mid : string) (uid : Z) (db : MemDB) : option MemDB :=
  Some (mkMemDB (db_messages db) (db_next db) (toggle_like (mkDBLike mid uid) (db_likes db))).

#[export] Instance MemDB_persister : Persister MemDB := {
  StoreMessage := mem_store_message;
  ToggleLike := mem_toggle_like;
  stored_ids db := map ID (db_messages db)
}.

(** The store's invariant: the next id is positive and above every stored
    id, ids and uuids are unique, and the like rows are unique. *)
Definition memdb_wf (db : MemDB) : Prop :=
  (0 < db_next db)%Z ∧
  Forall (λ m, 0 < ID m < db_next db)%Z (db_messages db) ∧
  NoDup (map ID (db_messages db)) ∧
  NoDup (map UUID (db_messages db)) ∧
  like_table_wf (db_likes db).

(** ** Theorems *)

Lemma memdb_wf_empty : memdb_wf empty_db.
Proof. repeat split; try constructor; lia. Qed.

Lemma fresh_id_not_stored (next : Z) (ms : list Message) :
  Forall (λ m, 0 < ID m < next)%Z ms → next ∉ map ID ms.
Proof.
  intros Hall Hin. apply list_elem_of_fmap in Hin as (m & -> & Hm).
  rewrite Forall_forall in Hall. specialize (Hall m Hm). lia.
Qed.

(** What [StoreMessage] does on each branch: a fresh uuid is appended with
    the next id, which is returned; a uuid already stored is refused. *)
Lemma mem_store_message_spec (m : Message) (db : MemDB) :
  mem_store_message m db =
    if decide (UUID m ∈ map UUID (db_messages db)) then None
    else Some (db_next db,
               mkMemDB (db_messages db ++ [with_id (db_next db) m]) (db_next db + 1) (db_likes db)).
Proof. reflexivity. Qed.

(** Storing a message keeps the store's invariant: ids stay
    positive, below the next id and unique, uuids stay unique. *)
Theorem mem_store_message_wf (m : Message) (db db' : MemDB) (id : Z) :
  memdb_wf db → mem_store_message m db = Some (id, db') → memdb_wf db'.
Proof.
  intros (Hpos & Hlt & Hid & Huuid & Hl) Hs.
  rewrite mem_store_message_spec in Hs. case_decide as Hu; [done|]. simplify_eq/=.
  split_and!; simpl; [lia| | | |done].
  - apply Forall_app. split; [|constructor; simpl; [lia|constructor]].
    eapply Forall_impl; [done|]. simpl. lia.
  - rewrite fmap_app. apply NoDup_app. split_and!; [done| |apply NoDup_singleton].
    intros x Hx ->%list_elem_of_singleton. by eapply fresh_id_not_stored.
  - rewrite fmap_app. apply NoDup_app. split_and!; [done| |apply NoDup_singleton].
    by intros x Hx ->%list_elem_of_singleton.
Qed.

Lemma mem_toggle_like_wf (mid : string) (uid : Z) (db db' : MemDB) :
  memdb_wf db → mem_toggle_like mid uid db = Some db' → memdb_wf db'.
Proof.
  intros (Hpos & Hlt & Hid & Huuid & Hl) Hs. unfold mem_toggle_like in Hs. simplify_eq/=.
  split_and!; try done. by apply toggle_like_wf.
Qed.

#[export] Instance MemDB_laws : PersisterLaws MemDB.
Proof.
  refine {| persister_wf := memdb_wf |}; simpl.
  - intros. by eapply mem_store_message_wf.
  - intros. by eapply mem_toggle_like_wf.
  - intros m d id d' (Hpos & _) Hs. rewrite mem_store_message_spec in Hs.
    case_decide; simplify_eq. done.
  - intros m d id d' (_ & Hlt & _) Hs. rewrite mem_store_message_spec in Hs.
    case_decide; simplify_eq/=. split; [by apply fresh_id_not_stored|].
    by rewrite fmap_app.
  - by intros mid uid d d' [= <-].
Defined.

(** C17: like rows are keyed by the message id as a string, so two
    spellings of one id are two keys: ["01"] and ["1"] both read as
    message 1, yet liking it under each spelling leaves two rows of the
    same user for the same message. *)
Theorem like_spellings_distinct u (db : MemDB) :
  mkDBLike "1" u ∉ db_likes db → mkDBLike "01" u ∉ db_likes db →
  parse_decimal "01" = parse_decimal "1" ∧
  (mem_toggle_like "1" u db ≫= mem_toggle_like "01" u) =
    Some (mkMemDB (db_messages db) (db_next db) (db_likes db ++ [mkDBLike "1" u; mkDBLike "01" u])).
Proof.
  intros H1 H01. split; [done|]. cbn. unfold mem_toggle_like, toggle_like. cbn [db_likes].
  rewrite decide_False by done. rewrite decide_False; [by rewrite <-app_assoc|].
  rewrite elem_of_app, list_elem_of_singleton. intros [|[=]]; done.
Qed.

Lemma like_spellings_distinct_witness :
  parse_decimal "01" = parse_decimal "1" ∧
  (mem_toggle_like "1" 7 empty_db ≫= mem_toggle_like "01" 7) =
    Some (mkMemDB [] 1 ([] ++ [mkDBLike "1" 7; mkDBLike "01" 7])).
Proof. apply (like_spellings_distinct 7 empty_db); apply not_elem_of_nil. Defined.
