(* ===== verification/Registry.v ===== *)
(** * Registry: the connection registry (specification, section 4.1)

    The registry tracks, per chat room, the connections currently joined.
    Its contract is the class [RegistryOps] ([Join], [Leave], [Members]),
    with the laws [RegistryLaws] that its clients (the broadcaster, the
    lifecycle) are proved against: [Members] is a duplicate-free snapshot,
    [Join] adds one connection to one room, [Leave] removes it, and other
    rooms are untouched.  The implementation [GRegistry] keeps a
    [gmap Z (gset ConnId)] from room id to its member set, the unordered
    set of the specification.  The abstract specification is a set of
    (room, connection) pairs: [abs_run] runs a sequence of joins and
    leaves on it, and [registry_refines] shows that every lawful registry
    agrees with it after any sequence of operations. *)

From S2P Require Import Prelude.

(** A connection: the transport session of one (user, room) websocket. *)
Abbreviation ConnId := nat.

Class RegistryOps (R : Type) := {
  reg_empty : R;
  Join : Z → ConnId → R → R;
  Leave : Z → ConnId → R → R;
  Members : Z → R → list ConnId
}.

Class RegistryLaws (R : Type) `{!RegistryOps R} := {
  members_empty chat x : x ∉ Members chat reg_empty;
  members_NoDup chat r : NoDup (Members chat r);
  members_join chat c r x : x ∈ Members chat (Join chat c r) ↔ x = c ∨ x ∈ Members chat r;
  members_leave chat c r x : x ∈ Members chat (Leave chat c r) ↔ x ≠ c ∧ x ∈ Members chat r;
  members_join_other chat chat' c r x :
    chat ≠ chat' → x ∈ Members chat' (Join chat c r) ↔ x ∈ Members chat' r;
  members_leave_other chat chat' c r x :
    chat ≠ chat' → x ∈ Members chat' (Leave chat c r) ↔ x ∈ Members chat' r
}.

(** ** The implementation: a map from room to member set *)

Abbreviation GRegistry := (gmap Z (gset ConnId)).

Definition gjoin (chat : Z) (c : ConnId) (r : GRegistry) : GRegistry :=
  <[chat := {[c]} ∪ r !!! chat]> r.

Definition gleave (chat : Z) (c : ConnId) (r : GRegistry) : GRegistry :=
  <[chat := r !!! chat ∖ {[c]}]> r.

Definition gmembers (chat : Z) (r : GRegistry) : list ConnId := elements (r !!! chat).

#[export] Instance GRegistry_ops : RegistryOps GRegistry := {
  reg_empty := ∅;
  Join := gjoin;
  Leave := gleave;
  Members := gmembers
}.

(** ** The abstract registry: a set of (room, connection) pairs *)

Inductive RegOp :=
| OpJoin (chat : Z) (c : ConnId)
| OpLeave (chat : Z) (c : ConnId).

Definition apply_op `{RegistryOps R} (o : RegOp) (r : R) : R :=
  match o with OpJoin chat c => Join chat c r | OpLeave chat c => Leave chat c r end.

Definition run_ops `{RegistryOps R} (os : list RegOp) (r : R) : R :=
  foldl (λ acc o, apply_op o acc) r os.

Definition abs_op (o : RegOp) (a : gset (Z * ConnId)) : gset (Z * ConnId) :=
  match o with
  | OpJoin chat c => {[(chat, c)]} ∪ a
  | OpLeave chat c => a ∖ {[(chat, c)]}
  end.

Definition abs_run (os : list RegOp) (a : gset (Z * ConnId)) : gset (Z * ConnId) :=
  foldl (λ acc o, abs_op o acc) a os.

(** A concrete registry represents an abstract one when they have the same
    members in every room. *)
Definition reg_rel `{RegistryOps R} (r : R) (a : gset (Z * ConnId)) : Prop :=
  ∀ chat c, c ∈ Members chat r ↔ (chat, c) ∈ a.

(** ** Theorems *)

Lemma gmembers_spec (chat : Z) (r : GRegistry) x : x ∈ gmembers chat r ↔ x ∈ r !!! chat.
Proof. apply elem_of_elements. Qed.

Ltac greg_solve :=
  intros; unfold Members, Join, Leave, GRegistry_ops, gjoin, gleave in *;
  rewrite ?gmembers_spec;
  repeat first [ rewrite lookup_total_insert_eq | rewrite lookup_total_insert_ne by done ];
  set_solver.

(** The map-of-sets registry satisfies the registry contract. *)
#[export] Instance GRegistry_laws : RegistryLaws GRegistry.
Proof.
  split.
  - intros chat x. unfold Members, reg_empty; simpl. rewrite gmembers_spec, lookup_total_empty. set_solver.
  - intros chat r. apply NoDup_elements.
  - greg_solve.
  - greg_solve.
  - greg_solve.
  - greg_solve.
Qed.

Section Refinement.
Context `{RegistryLaws R}.

Lemma apply_op_rel (o : RegOp) (r : R) (a : gset (Z * ConnId)) :
  reg_rel r a → reg_rel (apply_op o r) (abs_op o a).
Proof.
  unfold reg_rel. intros Hrel chat' x. destruct o as [chat c|chat c]; simpl;
    destruct (decide (chat = chat')) as [<-|Hne].
  - rewrite members_join, Hrel. set_solver.
  - rewrite members_join_other, Hrel by done. set_solver.
  - rewrite members_leave, Hrel. set_solver.
  - rewrite members_leave_other, Hrel by done. set_solver.
Qed.

Lemma run_ops_rel (os : list RegOp) (r : R) (a : gset (Z * ConnId)) :
  reg_rel r a → reg_rel (run_ops os r) (abs_run os a).
Proof.
  revert r a. induction os as [|o os IH]; intros r a Hrel; [done|].
  apply IH, apply_op_rel, Hrel.
Qed.

(** Every registry that satisfies the contract refines the abstract
    registry: after any sequence of joins and leaves from the empty
    registry, a connection is a member of a room exactly when the pair
    is in the set of pairs the same sequence builds. *)
Theorem registry_refines (os : list RegOp) chat c :
  c ∈ Members chat (run_ops os reg_empty) ↔ (chat, c) ∈ abs_run os ∅.
Proof.
  apply run_ops_rel. intros chat' x. split; [by intros ?%members_empty | set_solver].
Qed.
End Refinement.
