(* ===== verification/Broadcaster.v ===== *)
(** * Broadcaster: fan-out of a payload to a room (specification, 4.4)

    [send chat p] takes a snapshot of the room's members from the registry
    and writes [p] to each of them in turn.  Each connection has its own
    outbound FIFO queue ([b_out], the single writer of the connection);
    a write to a connection whose transport is broken ([b_dead]) fails, the
    failure is collected, and once the fan-out is over every failed member
    is removed from the room (the implicit disconnect).  The payload type is
    a parameter: the broadcaster never looks inside what it sends.
    Everything here is proved against the registry contract
    [RegistryLaws] only. *)

From S2P Require Import Prelude Registry.

Record BState (R A : Type) := mkBState {
  b_reg : R;
  b_out : gmap ConnId (list A);
  b_dead : gset ConnId
}.
Arguments mkBState {R A} _ _ _.
Arguments b_reg {R A} _.
Arguments b_out {R A} _.
Arguments b_dead {R A} _.

Section Broadcast.
Context `{RegistryOps R} {A : Type}.

(** One write of the loop: enqueue on a live connection, record the
    failure of a broken one. *)
Definition deliver_one (dead : gset ConnId) (p : A)
    (acc : gmap ConnId (list A) * list ConnId) (c : ConnId) :
    gmap ConnId (list A) * list ConnId :=
  let '(out, failed) := acc in
  if decide (c ∈ dead) then (out, failed ++ [c])
  else (<[c := out !!! c ++ [p]]> out, failed).

(** The loop over the snapshot, in snapshot order. *)
Definition fanout (dead : gset ConnId) (p : A) (cs : list ConnId)
    (out : gmap ConnId (list A)) : gmap ConnId (list A) * list ConnId :=
  foldl (deliver_one dead p) (out, []) cs.

(** Remove the failed members once the fan-out is done. *)
Definition leave_all (chat : Z) (failed : list ConnId) (r : R) : R :=
  foldl (λ acc c, Leave chat c acc) r failed.

Definition send (chat : Z) (p : A) (st : BState R A) : BState R A :=
  let snapshot := Members chat (b_reg st) in
  let '(out', failed) := fanout (b_dead st) p snapshot (b_out st) in
  mkBState (leave_all chat failed (b_reg st)) out' (b_dead st).

(** Successive sends to one room, in the order they are issued. *)
Definition send_all (chat : Z) (ps : list A) (st : BState R A) : BState R A :=
  foldl (λ acc p, send chat p acc) st ps.
End Broadcast.

(** ** Theorems *)

Section BroadcastFacts.
Context `{RegistryLaws R} {A : Type}.
Implicit Types (st : BState R A) (out : gmap ConnId (list A)) (dead : gset ConnId).

Lemma deliver_one_dead dead (p : A) out fl c :
  c ∈ dead → deliver_one dead p (out, fl) c = (out, fl ++ [c]).
Proof. intros Hc. unfold deliver_one. by rewrite decide_True. Qed.

Lemma deliver_one_live dead (p : A) out fl c :
  c ∉ dead → deliver_one dead p (out, fl) c = (<[c := out !!! c ++ [p]]> out, fl).
Proof. intros Hc. unfold deliver_one. by rewrite decide_False. Qed.

(** The failures of the loop are the broken members, in snapshot order. *)
Lemma fanout_failed_gen dead (p : A) cs out fl :
  (foldl (deliver_one dead p) (out, fl) cs).2 = fl ++ filter (λ c, c ∈ dead) cs.
Proof.
  revert out fl. induction cs as [|c cs IH]; intros out fl; cbn [foldl].
  - by rewrite app_nil_r.
  - rewrite filter_cons. destruct (decide (c ∈ dead)).
    + rewrite deliver_one_dead, IH by done. by rewrite <- app_assoc.
    + by rewrite deliver_one_live, IH.
Qed.

(** Each member of a duplicate-free snapshot that is alive gets the
    payload once, at the end of its queue; no other queue changes. *)
Lemma fanout_queue_gen dead (p : A) cs out fl c :
  NoDup cs →
  (foldl (deliver_one dead p) (out, fl) cs).1 !!! c =
    if decide (c ∈ cs ∧ c ∉ dead) then out !!! c ++ [p] else out !!! c.
Proof.
  revert out fl. induction cs as [|c' cs IH]; intros out fl Hnd; cbn [foldl].
  - rewrite decide_False; set_solver.
  - apply NoDup_cons in Hnd as [Hc' Hnd]. destruct (decide (c' ∈ dead)) as [Hd|Hd].
    + rewrite deliver_one_dead, IH by done.
      apply decide_ext. set_solver.
    + rewrite deliver_one_live, IH by done.
      destruct (decide (c = c')) as [->|Hne].
      * rewrite lookup_total_insert_eq, decide_False, decide_True by set_solver. done.
      * rewrite lookup_total_insert_ne by done. apply decide_ext. set_solver.
Qed.

Lemma fanout_queue dead (p : A) cs out c :
  NoDup cs →
  (fanout dead p cs out).1 !!! c =
    if decide (c ∈ cs ∧ c ∉ dead) then out !!! c ++ [p] else out !!! c.
Proof. apply fanout_queue_gen. Qed.

Lemma fanout_failed dead (p : A) cs out x :
  x ∈ (fanout dead p cs out).2 ↔ x ∈ cs ∧ x ∈ dead.
Proof. unfold fanout. rewrite fanout_failed_gen. simpl. rewrite list_elem_of_filter. set_solver. Qed.

Lemma leave_all_members chat chat' (fs : list ConnId) (r : R) x :
  x ∈ Members chat' (leave_all chat fs r) ↔ x ∈ Members chat' r ∧ (chat' = chat → x ∉ fs).
Proof.
  revert r. induction fs as [|f fs IH]; intros r; simpl; [set_solver|].
  unfold leave_all in *. simpl. rewrite IH.
  destruct (decide (chat = chat')) as [<-|Hne].
  - rewrite members_leave. set_solver.
  - rewrite members_leave_other by done. set_solver.
Qed.

Lemma send_queue chat (p : A) st c :
  b_out (send chat p st) !!! c =
    if decide (c ∈ Members chat (b_reg st) ∧ c ∉ b_dead st)
    then b_out st !!! c ++ [p] else b_out st !!! c.
Proof.
  unfold send. destruct (fanout _ _ _ _) as [out' fl] eqn:E. simpl.
  rewrite <- (fanout_queue (b_dead st) p _ (b_out st) c (members_NoDup _ _)), E. done.
Qed.

(** A send appends the payload to the queue of every live member of
    the room, the sender's own connection included, whatever happens to
    the other members. *)
Theorem send_delivers chat (p : A) st c :
  c ∈ Members chat (b_reg st) → c ∉ b_dead st →
  b_out (send chat p st) !!! c = b_out st !!! c ++ [p].
Proof. intros Hm Hd. rewrite send_queue. by rewrite decide_True. Qed.

(** A connection that is not a live member of the room receives
    nothing from a send to it. *)
Theorem send_non_member chat (p : A) st c :
  c ∉ Members chat (b_reg st) ∨ c ∈ b_dead st →
  b_out (send chat p st) !!! c = b_out st !!! c.
Proof. intros Hc. rewrite send_queue. rewrite decide_False; [done|]. tauto. Qed.

(** After a send, the members of every room are the old ones minus the
    members of the room written to whose write failed. *)
Lemma send_members chat chat' (p : A) st x :
  x ∈ Members chat' (b_reg (send chat p st)) ↔
    x ∈ Members chat' (b_reg st) ∧ (chat' = chat → x ∉ b_dead st ∨ x ∉ Members chat (b_reg st)).
Proof.
  unfold send. destruct (fanout _ _ _ _) as [out' fl] eqn:E. simpl.
  rewrite leave_all_members.
  assert (Hfl : ∀ y, y ∈ fl ↔ y ∈ Members chat (b_reg st) ∧ y ∈ b_dead st).
  { intros y. by rewrite <- (fanout_failed (b_dead st) p _ (b_out st)), E. }
  split.
  - intros [Hx Hne]. split; [done|]. intros ->. specialize (Hne eq_refl).
    rewrite Hfl in Hne. tauto.
  - intros [Hx Hne]. split; [done|]. intros ->. rewrite Hfl. specialize (Hne eq_refl). tauto.
Qed.

(** A member of the room whose write failed is removed from the room
    by the send, and every live connection keeps its membership of every
    room. *)
Theorem send_removes_failed chat chat' (p : A) st x y :
  x ∈ b_dead st → y ∉ b_dead st →
  x ∉ Members chat (b_reg (send chat p st)) ∧
  (y ∈ Members chat' (b_reg st) → y ∈ Members chat' (b_reg (send chat p st))).
Proof.
  intros Hx Hy. rewrite !send_members. split.
  - intros [Hm [Hd|Hd]]; [done..|]. by apply Hd.
  - intros Hm. split; [done|]. by left.
Qed.

Lemma send_dead chat (p : A) st : b_dead (send chat p st) = b_dead st.
Proof. unfold send. by destruct (fanout _ _ _ _). Qed.

(** Successive sends to a room reach a live member in the order they
    were issued (the per-connection FIFO discipline). *)
Theorem send_all_fifo chat (ps : list A) st c :
  c ∈ Members chat (b_reg st) → c ∉ b_dead st →
  b_out (send_all chat ps st) !!! c = b_out st !!! c ++ ps.
Proof.
  unfold send_all. revert st. induction ps as [|p ps IH]; intros st Hm Hd; simpl.
  - by rewrite app_nil_r.
  - rewrite IH.
    + rewrite send_queue, decide_True by done. by rewrite <- app_assoc.
    + apply send_members. split; [done|]. intros _. by left.
    + by rewrite send_dead.
Qed.
End BroadcastFacts.
