(* ===== verification/Router.v ===== *)
(** * Router: handling one inbound frame (specification, section 4.2)

    [handle chat sender f s] is [EventRouter.Handle]: it decodes the frame;
    for a message it checks that the message names the connection's room
    and user, stores it (the persister assigns the id), re-embeds the id in
    the payload and broadcasts that enriched frame to the room; for a like
    it toggles the (message, sender) like row and broadcasts the original
    frame unchanged.  It returns the new server state, or the error; the
    read loop ([read_frame]) keeps the old state on an error, logs it and
    goes on reading, which is how a failed frame leaves no trace.  The
    server state is the broadcaster's (registry, queues, broken transports)
    and the persister's.  The theorems are proved against the registry and
    persister interfaces. *)

From S2P Require Import Prelude Likes Wire Persister Registry Broadcaster.

Record Server (R D : Type) := mkServer {
  srv_bc : BState R WebsocketParams;
  srv_db : D
}.
Arguments mkServer {R D} _ _.
Arguments srv_bc {R D} _.
Arguments srv_db {R D} _.

(** [if !cond { return err }] *)
Definition check (b : bool) (e : ChatError) : result ChatError () :=
  if b then Ok () else Err e.

Section Handle.
Context `{RegistryOps R} `{Persister D}.

Definition handle (chat sender : Z) (f : WebsocketParams) (s : Server R D) :
    result ChatError (Server R D) :=
  ev ← decode_frame f;
  match ev with
  | EvMessage m =>
      check (bool_decide (Chatid m = Some chat)) (ProtocolError CrossRoom);;
      check (bool_decide (Userid m = Some sender)) (ProtocolError ForgedUser);;
      '(id, db') ← StoreMessage m (srv_db s) or_fail PersistenceError;
      Ok (mkServer (send chat (event_frame (EvMessage (with_id id m))) (srv_bc s)) db')
  | EvLike mid =>
      db' ← ToggleLike mid sender (srv_db s) or_fail PersistenceError;
      Ok (mkServer (send chat f (srv_bc s)) db')
  end.

(** One iteration of a connection's read loop: the new state, and the
    error that was logged if the frame was dropped. *)
Definition read_frame (chat sender : Z) (f : WebsocketParams) (s : Server R D) :
    Server R D * option ChatError :=
  match handle chat sender f s with
  | Ok s' => (s', None)
  | Err e => (s, Some e)
  end.

(** The frames of one connection, processed one at a time in order. *)
Definition read_frames (chat sender : Z) (fs : list WebsocketParams) (s : Server R D) :
    Server R D * list ChatError :=
  foldl (λ acc f, let '(s, errs) := acc in
                  let '(s', e) := read_frame chat sender f s in
                  (s', errs ++ option_list e)) (s, []) fs.
End Handle.

(** ** Theorems *)

Lemma check_true (b : bool) e : b = true → check b e = Ok ().
Proof. by intros ->. Qed.

Section HandleFacts.
Context `{RegistryLaws R} `{PersisterLaws D}.
Implicit Types (s : Server R D).

(** [handle] on a message frame, on every branch. *)
Lemma handle_message_eq chat sender (m : Message) s :
  handle chat sender (event_frame (EvMessage m)) s =
    if decide (Chatid m = Some chat) then
      if decide (Userid m = Some sender) then
        match StoreMessage m (srv_db s) with
        | Some (id, db') =>
            Ok (mkServer (send chat (event_frame (EvMessage (with_id id m))) (srv_bc s)) db')
        | None => Err PersistenceError
        end
      else Err (ProtocolError ForgedUser)
    else Err (ProtocolError CrossRoom).
Proof.
  unfold handle, check. rewrite decode_event_frame. cbn [mbind result_bind].
  destruct (decide (Chatid m = Some chat)) as [Hc|Hc];
    [rewrite (bool_decide_eq_true_2 (Chatid m = Some chat)) by done
    |by rewrite (bool_decide_eq_false_2 (Chatid m = Some chat))].
  destruct (decide (Userid m = Some sender)) as [Hu|Hu];
    [rewrite (bool_decide_eq_true_2 (Userid m = Some sender)) by done
    |by rewrite (bool_decide_eq_false_2 (Userid m = Some sender))].
  cbn [mbind result_bind]. by destruct (StoreMessage m (srv_db s)) as [[id db']|].
Qed.

(** [handle] on a frame that decodes to a like. *)
Lemma handle_like_eq chat sender (f : WebsocketParams) mid s :
  decode_frame f = Ok (EvLike mid) →
  handle chat sender f s =
    match ToggleLike mid sender (srv_db s) with
    | Some db' => Ok (mkServer (send chat f (srv_bc s)) db')
    | None => Err PersistenceError
    end.
Proof.
  intros Hd. unfold handle. rewrite Hd. simpl.
  by destruct (ToggleLike mid sender (srv_db s)).
Qed.

(** What a handled frame changes: one send to the room, and one
    operation of the persister that succeeded. *)
Lemma handle_Ok_inv chat sender (f : WebsocketParams) s s' :
  handle chat sender f s = Ok s' →
  ∃ p, srv_bc s' = send chat p (srv_bc s) ∧
    ((∃ m id, StoreMessage m (srv_db s) = Some (id, srv_db s')) ∨
     (∃ mid, ToggleLike mid sender (srv_db s) = Some (srv_db s'))).
Proof.
  destruct (decode_frame f) as [[m|mid]|e] eqn:Hd.
  - apply decode_frame_Ok_inv in Hd as ->. rewrite handle_message_eq.
    repeat case_decide; try done.
    destruct (StoreMessage m (srv_db s)) as [[id db']|] eqn:Hs; intros; simplify_eq/=.
    eexists. split; [done|]. left. eauto.
  - rewrite (handle_like_eq _ _ _ _ _ Hd).
    destruct (ToggleLike mid sender (srv_db s)) eqn:Ht; intros; simplify_eq/=.
    eexists. split; [done|]. right. eauto.
  - unfold handle. by rewrite Hd.
Qed.

(** One iteration of the read loop either keeps the server as it is, or
    sends one payload to the room and keeps the persister's invariant. *)
Lemma read_frame_cases chat sender (f : WebsocketParams) s s' e :
  read_frame chat sender f s = (s', e) →
  s' = s ∨ ∃ p, srv_bc s' = send chat p (srv_bc s) ∧
                (persister_wf (srv_db s) → persister_wf (srv_db s')).
Proof.
  unfold read_frame. destruct (handle chat sender f s) as [s''|] eqn:Hh; intros; simplify_eq; [|by left].
  right. destruct (handle_Ok_inv _ _ _ _ _ Hh) as (p & Hp & [(m & id & Hs)|(mid & Ht)]);
    exists p; split; try done; intros Hwf.
  - by eapply store_message_preserves_wf.
  - by eapply toggle_like_preserves_wf.
Qed.

(** C3: a message frame as a client of room [chat] and user [sender]
    builds it ([message_frame]: a uuid, the room, the user, a text, no
    id), that the persister accepts, is handled: the persister assigns
    it a positive id, and every live member of the room, the sender
    included, receives the message with that id filled in, after what it
    had already received. *)
Theorem handle_message_delivers chat sender (uuid text : string) s id db' :
  persister_wf (srv_db s) →
  StoreMessage (mkMessage uuid (Some chat) (Some sender) (Some text) 0) (srv_db s) = Some (id, db') →
  ∃ s', handle chat sender (message_frame uuid chat sender text) s = Ok s' ∧
    srv_db s' = db' ∧ (0 < id)%Z ∧
    ∀ c, c ∈ Members chat (b_reg (srv_bc s)) → c ∉ b_dead (srv_bc s) →
      b_out (srv_bc s') !!! c = b_out (srv_bc s) !!! c ++
        [event_frame (EvMessage (mkMessage uuid (Some chat) (Some sender) (Some text) id))].
Proof.
  intros Hwf Hs. unfold message_frame.
  change (mkParams TypeMessage _ None) with
    (event_frame (EvMessage (mkMessage uuid (Some chat) (Some sender) (Some text) 0))).
  unfold handle, check. rewrite decode_event_frame. cbn [mbind result_bind].
  rewrite !bool_decide_eq_true_2 by done. cbn [mbind result_bind]. rewrite Hs.
  eexists. split_and!; [done|done|by eapply store_message_id_pos|].
  intros c Hm Hd. simpl. by rewrite send_queue, decide_True.
Qed.


(** C4: the like frame the like test builds ([like_frame]) is echoed
    verbatim: once the persister has toggled the (message, sender) like,
    every live member of the room receives exactly the frame that was
    sent, without enrichment. *)
Theorem handle_like_echo chat sender (mid : string) s db' :
  ToggleLike mid sender (srv_db s) = Some db' →
  ∃ s', handle chat sender (like_frame mid) s = Ok s' ∧ srv_db s' = db' ∧
    ∀ c, c ∈ Members chat (b_reg (srv_bc s)) → c ∉ b_dead (srv_bc s) →
      b_out (srv_bc s') !!! c = b_out (srv_bc s) !!! c ++ [like_frame mid].
Proof.
  intros Ht. rewrite (handle_like_eq _ _ _ mid), Ht by done.
  eexists. split_and!; [done|done|].
  intros c Hm Hdead. simpl. by rewrite send_queue, decide_True.
Qed.

(** C5: a message frame that names another room or another user than
    the connection's is rejected as a protocol error: the read loop keeps
    the whole state, nothing is persisted and nothing is broadcast. *)
Theorem read_frame_forgery_rejected chat sender (uuid text : string) chat' user' s :
  chat' ≠ chat ∨ user' ≠ sender →
  ∃ v, read_frame chat sender (message_frame uuid chat' user' text) s = (s, Some (ProtocolError v)) ∧
    v ∈ [CrossRoom; ForgedUser].
Proof.
  intros Hforged. unfold read_frame, message_frame.
  change (mkParams TypeMessage _ None) with
    (event_frame (EvMessage (mkMessage uuid (Some chat') (Some user') (Some text) 0))).
  rewrite handle_message_eq. simpl.
  destruct (decide (Some chat' = Some chat)); [|eexists; split; [done|set_solver]].
  destruct (decide (Some user' = Some sender)); [naive_solver|].
  eexists; split; [done|set_solver].
Qed.

(** When the persister fails to store a valid message, the frame is
    dropped with a persistence error and nothing is broadcast. *)
Lemma read_frame_store_failure chat sender (m : Message) s :
  Chatid m = Some chat → Userid m = Some sender →
  StoreMessage m (srv_db s) = None →
  read_frame chat sender (event_frame (EvMessage m)) s = (s, Some PersistenceError).
Proof.
  intros Hc Hu Hs. unfold read_frame. by rewrite handle_message_eq, !decide_True, Hs.
Qed.

(** A frame whose [type] is neither [MESSAGE] nor [Like] is dropped
    with a protocol error naming the type; the connection goes on. *)
Lemma read_frame_unknown_type chat sender (f : WebsocketParams) s :
  wp_Type f ≠ TypeMessage → wp_Type f ≠ TypeLike →
  read_frame chat sender f s = (s, Some (ProtocolError (UnknownType (wp_Type f)))).
Proof.
  intros H1 H2. unfold read_frame, handle. by rewrite decode_frame_unknown.
Qed.
End HandleFacts.

(** ** Witnesses: a server whose room 1 has connection 0 and whose store is
    empty *)

Lemma handle_message_delivers_witness :
  ∃ s', handle 1 7 (message_frame "u" 1 7 "hi")
          (mkServer (mkBState (<[1%Z := {[0]}]> ∅ : GRegistry) ∅ ∅) empty_db) = Ok s' ∧
    srv_db s' = mkMemDB [mkMessage "u" (Some 1%Z) (Some 7%Z) (Some "hi") 1%Z] 2%Z [] ∧ (0 < 1)%Z ∧
    ∀ c, c ∈ Members 1 (<[1%Z := {[0]}]> ∅ : GRegistry) → c ∉ (∅ : gset ConnId) →
      b_out (srv_bc s') !!! c = (∅ : gmap ConnId (list WebsocketParams)) !!! c ++
        [event_frame (EvMessage (mkMessage "u" (Some 1%Z) (Some 7%Z) (Some "hi") 1%Z))].
Proof.
  exact (handle_message_delivers 1 7 "u" "hi"
           (mkServer (mkBState (<[1%Z := {[0]}]> ∅ : GRegistry) ∅ ∅) empty_db) 1
           (mkMemDB [mkMessage "u" (Some 1%Z) (Some 7%Z) (Some "hi") 1%Z] 2%Z [])
           memdb_wf_empty eq_refl).
Defined.

Lemma handle_like_echo_witness :
  ∃ s', handle 1 7 (like_frame "1")
          (mkServer (mkBState (<[1%Z := {[0]}]> ∅ : GRegistry) ∅ ∅) empty_db) = Ok s' ∧
    srv_db s' = mkMemDB [] 1 [mkDBLike "1" 7%Z] ∧
    ∀ c, c ∈ Members 1 (<[1%Z := {[0]}]> ∅ : GRegistry) → c ∉ (∅ : gset ConnId) →
      b_out (srv_bc s') !!! c = (∅ : gmap ConnId (list WebsocketParams)) !!! c ++ [like_frame "1"].
Proof.
  exact (handle_like_echo 1 7 "1" (mkServer (mkBState (<[1%Z := {[0]}]> ∅ : GRegistry) ∅ ∅) empty_db)
           (mkMemDB [] 1 [mkDBLike "1" 7%Z]) eq_refl).
Defined.

Lemma read_frame_forgery_rejected_witness :
  ∃ v, read_frame 1 7 (message_frame "u" 2 7 "hi")
         (mkServer (mkBState (<[1%Z := {[0]}]> ∅ : GRegistry) ∅ ∅) empty_db) =
       (mkServer (mkBState (<[1%Z := {[0]}]> ∅ : GRegistry) ∅ ∅) empty_db, Some (ProtocolError v)) ∧
    v ∈ [CrossRoom; ForgedUser].
Proof.
  exact (read_frame_forgery_rejected 1 7 "u" "hi" 2 7
           (mkServer (mkBState (<[1%Z := {[0]}]> ∅ : GRegistry) ∅ ∅) empty_db) ltac:(left; lia)).
Defined.
