(* ===== verification/Chats.v ===== *)
(** * Chats: the chat store behind the HTTP chat endpoints

    The chat CRUD endpoints are an external collaborator of the relay
    (specification, sections 1 and 6): the handshake consumes
    [LookupChat], and the tests [TestChats] and [TestUsers] of
    [src/server/tests/api_test.go] drive [POST /chat], [GET /public/chat/%d],
    [GET /public/chat/@address], [DELETE /chat/address] and
    [GET /public/chat].  A chat ([api.Chat]: [Chatid], [Address], [Name],
    [Creatorid]) gets a sequential positive id at creation; its address is
    its unique human-readable key; only its creator may delete it.  Errors
    carry the HTTP status and the message the tests compare against
    ("error code 404: No Chat found with id: 0", "error code 403: 403
    Forbidden"). *)

From S2P Require Import Prelude Wire.
Local Open Scope string_scope.

Module Chat.
Record t := mk {
  Chatid : Z;
  Address : string;
  Name : string;
  Creatorid : Z
}.
End Chat.

#[export] Instance Chat_eq_dec : EqDecision Chat.t.
Proof. solve_decision. Defined.

(** An HTTP error: the status code and the body text. *)
Record HttpError := mkHttpError { status : Z; body : string }.

(** The text of the error the test client reports:
    [fmt.Errorf("error code %d: %s", status, body)]. *)
Definition http_error_text (e : HttpError) : string :=
  "error code " ++ Itoa (status e) ++ ": " ++ body e.

Definition not_found_id (id : Z) : HttpError :=
  mkHttpError 404 ("No Chat found with id: " ++ Itoa id).
Definition not_found_address (addr : string) : HttpError :=
  mkHttpError 404 ("No Chat found with address: " ++ addr).
Definition forbidden : HttpError := mkHttpError 403 "403 Forbidden".
Definition conflict (addr : string) : HttpError :=
  mkHttpError 409 ("Chat already exists with address: " ++ addr).

Record ChatStore := mkChatStore {
  cs_chats : list Chat.t;      (** in creation order *)
  cs_next : Z                  (** the id the next chat gets *)
}.

Definition empty_chats : ChatStore := mkChatStore [] 1.

(** The first chat, in creation order, that satisfies [P]. *)
Definition find_chat (P : Chat.t → Prop) `{∀ c, Decision (P c)} (cs : ChatStore) :
    option Chat.t :=
  snd <$> list_find P (cs_chats cs).

(** [LookupChat(id)]: [GET /public/chat/%d]. *)
Definition LookupChat (id : Z) (cs : ChatStore) : result HttpError Chat.t :=
  find_chat (λ c, Chat.Chatid c = id) cs or_fail not_found_id id.

(** [GET /public/chat/@address]. *)
Definition LookupChatByAddress (addr : string) (cs : ChatStore) : result HttpError Chat.t :=
  find_chat (λ c, Chat.Address c = addr) cs or_fail not_found_address addr.

(** [POST /chat] by [user] with the requested [Name] and [Address]: the
    created chat, with its id and creator filled in. *)
Definition CreateChat (user : Z) (name addr : string) (cs : ChatStore) :
    result HttpError (Chat.t * ChatStore) :=
  match find_chat (λ c, Chat.Address c = addr) cs with
  | Some _ => Err (conflict addr)
  | None =>
      let c := Chat.mk (cs_next cs) addr name user in
      Ok (c, mkChatStore (cs_chats cs ++ [c]) (cs_next cs + 1))
  end.

(** [DELETE /chat/address] by [user]: only the creator may delete. *)
Definition DeleteChat (user : Z) (addr : string) (cs : ChatStore) : result HttpError ChatStore :=
  c ← LookupChatByAddress addr cs;
  if bool_decide (Chat.Creatorid c = user) then
    Ok (mkChatStore (filter (λ c', Chat.Address c' ≠ addr) (cs_chats cs)) (cs_next cs))
  else Err forbidden.

(** [GET /public/chat]. *)
Definition ListChats (cs : ChatStore) : list Chat.t := cs_chats cs.

(** The store's invariant: the next id is positive, ids are positive, below the next id and
    unique, and addresses are unique. *)
Definition chats_wf (cs : ChatStore) : Prop :=
  (0 < cs_next cs)%Z ∧
  Forall (λ c, 0 < Chat.Chatid c < cs_next cs)%Z (cs_chats cs) ∧
  NoDup (Chat.Chatid <$> cs_chats cs) ∧
  NoDup (Chat.Address <$> cs_chats cs).

(** ** Theorems *)

Section FindChat.
Context (P : Chat.t → Prop) `{∀ c, Decision (P c)}.

Lemma find_chat_Some_inv (cs : ChatStore) c :
  find_chat P cs = Some c → c ∈ cs_chats cs ∧ P c.
Proof.
  unfold find_chat. destruct (list_find P (cs_chats cs)) as [[i c']|] eqn:E; [|done].
  intros [= <-]. apply list_find_Some in E as (Hi & HP & _).
  split; [by eapply list_elem_of_lookup_2|done].
Qed.

Lemma find_chat_None (cs : ChatStore) :
  (∀ c, c ∈ cs_chats cs → ¬ P c) → find_chat P cs = None.
Proof.
  intros Hn. unfold find_chat. rewrite (proj2 (list_find_None _ _)); [done|].
  by apply Forall_forall.
Qed.

Lemma find_chat_unique (cs : ChatStore) c :
  (∀ c1 c2, c1 ∈ cs_chats cs → c2 ∈ cs_chats cs → P c1 → P c2 → c1 = c2) →
  c ∈ cs_chats cs → P c → find_chat P cs = Some c.
Proof.
  intros Huniq Hc HP. unfold find_chat.
  destruct (list_find_elem_of P _ c Hc HP) as [[i c'] E]. rewrite E. simpl.
  apply list_find_Some in E as (Hi & HP' & _). f_equal.
  apply Huniq; [by eapply list_elem_of_lookup_2|done..].
Qed.
End FindChat.

Lemma chats_wf_empty : chats_wf empty_chats.
Proof. split_and!; try constructor. Qed.

(** A field that is unique in the store identifies one chat. *)
Lemma NoDup_fmap_unique {B} (f : Chat.t → B) (l : list Chat.t) c1 c2 :
  NoDup (f <$> l) → c1 ∈ l → c2 ∈ l → f c1 = f c2 → c1 = c2.
Proof.
  intros Hnd H1 H2 Hf. apply list_elem_of_lookup in H1 as [i Hi], H2 as [j Hj].
  assert (i = j) as ->; [|congruence].
  eapply NoDup_lookup; [exact Hnd| |]; rewrite list_lookup_fmap; [rewrite Hi|rewrite Hj]; simpl;
    [done|by rewrite Hf].
Qed.

Lemma lookup_chat_in (cs : ChatStore) c :
  chats_wf cs → c ∈ cs_chats cs → LookupChat (Chat.Chatid c) cs = Ok c.
Proof.
  intros (_ & _ & Hid & _) Hc. unfold LookupChat.
  rewrite (find_chat_unique _ cs c); [done| |done|done].
  intros c1 c2 H1 H2 <- Heq. by eapply NoDup_fmap_unique.
Qed.

Lemma lookup_address_in (cs : ChatStore) c :
  chats_wf cs → c ∈ cs_chats cs → LookupChatByAddress (Chat.Address c) cs = Ok c.
Proof.
  intros (_ & _ & _ & Had) Hc. unfold LookupChatByAddress.
  rewrite (find_chat_unique _ cs c); [done| |done|done].
  intros c1 c2 H1 H2 <- Heq. by eapply NoDup_fmap_unique.
Qed.

Lemma lookup_chat_absent (cs : ChatStore) id :
  (∀ c, c ∈ cs_chats cs → Chat.Chatid c ≠ id) → LookupChat id cs = Err (not_found_id id).
Proof. intros Hn. unfold LookupChat. by rewrite find_chat_None. Qed.

Lemma create_chat_ok user name addr (cs : ChatStore) :
  (∀ c, c ∈ cs_chats cs → Chat.Address c ≠ addr) →
  CreateChat user name addr cs =
    Ok (Chat.mk (cs_next cs) addr name user,
        mkChatStore (cs_chats cs ++ [Chat.mk (cs_next cs) addr name user]) (cs_next cs + 1)).
Proof. intros Hn. unfold CreateChat. by rewrite find_chat_None. Qed.

Lemma create_chat_wf user name addr (cs : ChatStore) :
  chats_wf cs → (∀ c, c ∈ cs_chats cs → Chat.Address c ≠ addr) →
  chats_wf (mkChatStore (cs_chats cs ++ [Chat.mk (cs_next cs) addr name user]) (cs_next cs + 1)).
Proof.
  intros (Hpos & Hlt & Hid & Had) Hn. split_and!; simpl.
  - lia.
  - apply Forall_app. split; [|apply Forall_singleton; simpl; lia].
    eapply Forall_impl; [done|]. simpl. lia.
  - rewrite fmap_app. apply NoDup_app. split_and!; [done| |apply NoDup_singleton].
    intros x (c & -> & Hc)%list_elem_of_fmap Hx%list_elem_of_singleton.
    rewrite Forall_forall in Hlt. specialize (Hlt c Hc). simpl in *. lia.
  - rewrite fmap_app. apply NoDup_app. split_and!; [done| |apply NoDup_singleton].
    intros x (c & -> & Hc)%list_elem_of_fmap Hx%list_elem_of_singleton. by apply (Hn c).
Qed.

(** Creating a chat under a free address returns the chat with the
    next id, the requested name and address and the creating user, keeps
    the store's invariant, and the chat is then found by its id and by its
    address (the insert/lookup round trip of [POST /chat] and
    [GET /public/chat/%d]). *)
Theorem create_chat_lookup user name addr (cs : ChatStore) :
  chats_wf cs → (∀ c, c ∈ cs_chats cs → Chat.Address c ≠ addr) →
  ∃ cs', CreateChat user name addr cs = Ok (Chat.mk (cs_next cs) addr name user, cs') ∧
    chats_wf cs' ∧
    LookupChat (cs_next cs) cs' = Ok (Chat.mk (cs_next cs) addr name user) ∧
    LookupChatByAddress addr cs' = Ok (Chat.mk (cs_next cs) addr name user).
Proof.
  intros Hwf Hn. rewrite create_chat_ok by done. eexists. split; [done|].
  pose proof (create_chat_wf user name addr cs Hwf Hn) as Hwf'. split; [done|].
  split.
  - apply (lookup_chat_in _ (Chat.mk (cs_next cs) addr name user)); [done|]. set_solver.
  - apply (lookup_address_in _ (Chat.mk (cs_next cs) addr name user)); [done|]. set_solver.
Qed.

(** A lookup of an id outside [(0, cs_next)] is a 404 naming the id. *)
Lemma lookup_chat_outside (cs : ChatStore) id :
  chats_wf cs → (id ≤ 0 ∨ cs_next cs ≤ id)%Z → LookupChat id cs = Err (not_found_id id).
Proof.
  intros (_ & Hlt & _ & _) Hid. apply lookup_chat_absent. intros c Hc.
  rewrite Forall_forall in Hlt. specialize (Hlt c Hc). lia.
Qed.

(** No chat has an id that is not positive: looking one up is a
    404 naming the id (the [chat id 0 test]). *)
Theorem lookup_chat_nonpositive (cs : ChatStore) id :
  chats_wf cs → (id ≤ 0)%Z → LookupChat id cs = Err (not_found_id id).
Proof. intros Hwf Hid. apply lookup_chat_outside; [done|lia]. Qed.

(** Only its creator may delete a chat: anybody else gets [403 Forbidden]
    and the store is left as it is. *)
Lemma delete_chat_forbidden user addr (cs : ChatStore) c :
  LookupChatByAddress addr cs = Ok c → Chat.Creatorid c ≠ user →
  DeleteChat user addr cs = Err forbidden.
Proof. intros Hl Hne. unfold DeleteChat. rewrite Hl. simpl. by rewrite bool_decide_eq_false_2. Qed.

Lemma filter_address_removes (cs : ChatStore) c :
  chats_wf cs → c ∈ cs_chats cs →
  ∀ c', c' ∈ filter (λ c', Chat.Address c' ≠ Chat.Address c) (cs_chats cs) ↔
        c' ∈ cs_chats cs ∧ c' ≠ c.
Proof.
  intros (_ & _ & _ & Had) Hc c'. rewrite list_elem_of_filter. split.
  - intros [Hne Hc']. split; [done|]. by intros ->.
  - intros [Hc' Hne]. split; [|done]. intros Heq. apply Hne. by eapply NoDup_fmap_unique.
Qed.

(** The creator deletes a chat: the store keeps its invariant and
    the chat is gone: looking up its id is a 404. *)
Theorem delete_chat_creator (cs : ChatStore) c :
  chats_wf cs → c ∈ cs_chats cs →
  ∃ cs', DeleteChat (Chat.Creatorid c) (Chat.Address c) cs = Ok cs' ∧ chats_wf cs' ∧
    (∀ c', c' ∈ cs_chats cs' ↔ c' ∈ cs_chats cs ∧ c' ≠ c) ∧
    LookupChat (Chat.Chatid c) cs' = Err (not_found_id (Chat.Chatid c)).
Proof.
  intros Hwf Hc. unfold DeleteChat. rewrite lookup_address_in by done. simpl.
  rewrite bool_decide_eq_true_2 by done. eexists. split; [done|].
  pose proof (filter_address_removes cs c Hwf Hc) as Hf.
  destruct Hwf as (Hpos & Hlt & Hid & Had). split_and!.
  - unfold chats_wf. simpl. split_and!; [done|by apply Forall_filter_sub|by apply NoDup_fmap_filter..].
  - exact Hf.
  - apply lookup_chat_absent. simpl. intros c' Hc' Heq. apply Hf in Hc' as [Hc' Hne].
    apply Hne. by eapply (NoDup_fmap_unique Chat.Chatid).
Qed.

Lemma create_chat_preserves_wf user name addr (cs cs' : ChatStore) c :
  chats_wf cs → CreateChat user name addr cs = Ok (c, cs') → chats_wf cs'.
Proof.
  intros Hwf. unfold CreateChat.
  destruct (find_chat _ cs) eqn:E; [done|]. intros [= <- <-].
  apply create_chat_wf; [done|]. intros c' Hc' Heq.
  unfold find_chat in E. apply fmap_None, list_find_None in E.
  rewrite Forall_forall in E. by apply (E c').
Qed.

Lemma delete_chat_preserves_wf user addr (cs cs' : ChatStore) :
  chats_wf cs → DeleteChat user addr cs = Ok cs' → chats_wf cs'.
Proof.
  intros (Hpos & Hlt & Hid & Had). unfold DeleteChat.
  destruct (LookupChatByAddress addr cs) as [c|]; simpl; [|done].
  case_bool_decide; [|done]. intros [= <-].
  split_and!; simpl; [done|by apply Forall_filter_sub|by apply NoDup_fmap_filter..].
Qed.

Lemma filter_address_free (l : list Chat.t) addr :
  (∀ c, c ∈ l → Chat.Address c ≠ addr) → filter (λ c, Chat.Address c ≠ addr) l = l.
Proof.
  induction l as [|c l IH]; intros Hl; [done|].
  rewrite filter_cons_True by set_solver. f_equal. apply IH. set_solver.
Qed.

(** An address that is taken cannot be created again: [409]. *)
Lemma create_chat_conflict user name addr (cs : ChatStore) c :
  c ∈ cs_chats cs → Chat.Address c = addr → CreateChat user name addr cs = Err (conflict addr).
Proof.
  intros Hc Ha. unfold CreateChat, find_chat.
  destruct (list_find _ _) as [[i c']|] eqn:E; [done|].
  apply list_find_None in E. rewrite Forall_forall in E. by destruct (E c Hc).
Qed.

(** Skipping an id keeps the invariant (a chat created and deleted again). *)
Lemma chats_wf_bump (cs : ChatStore) :
  chats_wf cs → chats_wf (mkChatStore (cs_chats cs) (cs_next cs + 1)).
Proof.
  intros (Hpos & Hlt & Hid & Had). split_and!; simpl; [lia| |done..].
  eapply Forall_impl; [done|]. simpl. lia.
Qed.

(** Creating a chat and deleting it again, by its creator, gives back the
    chats there were; only the next id has moved on. *)
Lemma create_delete_chat user name addr (cs : ChatStore) :
  chats_wf cs → (∀ c, c ∈ cs_chats cs → Chat.Address c ≠ addr) →
  DeleteChat user addr
    (mkChatStore (cs_chats cs ++ [Chat.mk (cs_next cs) addr name user]) (cs_next cs + 1)) =
  Ok (mkChatStore (cs_chats cs) (cs_next cs + 1)).
Proof.
  intros Hwf Hfree. unfold DeleteChat.
  rewrite (lookup_address_in _ (Chat.mk (cs_next cs) addr name user)); simpl.
  - rewrite bool_decide_eq_true_2 by done. rewrite filter_app, filter_address_free by done.
    rewrite filter_cons_False, filter_nil by naive_solver. by rewrite app_nil_r.
  - by apply create_chat_wf.
  - set_solver.
Qed.
