(* ===== verification/Lifecycle.v ===== *)
(** * Lifecycle: connections and the whole relay (specification, 4.5, 5)

    A connection goes Connecting → Joined → Reading → Closing → Closed
    ([ConnState], [conn_step]).  The system state [Sys] holds the chat
    store, the server (registry, outbound queues, broken transports,
    persister), the connections by id, the next connection id, and the log
    of the registry operations the lifecycle issued.  [sys_step] runs one
    event of the system:
    - [EvAccept]: a websocket is opened for a (user, room) path with the
      session's user; the connection is [Connecting];
    - [EvHandshake]: the handshake validates the session (it must be the
      path's user), the room (it must exist) and the [may_join] policy; on
      success the connection joins the registry and is [Joined], on failure
      it is dropped without touching the registry;
    - [EvStartReading]: the read loop starts ([Reading]);
    - [EvFrame]: the read loop handles one frame with [read_frame];
    - [EvClose]: a read error, a close frame or a shutdown ([Closing]);
    - [EvFinish]: teardown: [Leave], the transport is closed, [Closed];
    - [EvTransportFail]: the socket of a connection breaks (its next write
      fails, and the broadcaster then removes it from its room);
    - [EvCreateChat], [EvDeleteChat]: the HTTP chat endpoints.
    An event that does not apply in the connection's state is ignored.
    Concurrency is modelled by interleaving: any sequence of events of any
    connections is a run, and [reachable] is the set of states of all
    runs; the invariants are proved by induction on it. *)

From S2P Require Import Prelude Wire Persister Registry Broadcaster Router Chats.

Inductive ConnState := Connecting | Joined | Reading | Closing | Closed.

#[export] Instance ConnState_eq_dec : EqDecision ConnState.
Proof. solve_decision. Defined.

(** The state machine of one connection. *)
Inductive conn_step : ConnState → ConnState → Prop :=
| cs_join : conn_step Connecting Joined
| cs_read : conn_step Joined Reading
| cs_close_joined : conn_step Joined Closing
| cs_close_reading : conn_step Reading Closing
| cs_finish : conn_step Closing Closed.

Record ConnInfo := mkConnInfo {
  ci_user : Z;              (** the user id of the websocket path *)
  ci_chat : Z;              (** the room id of the websocket path *)
  ci_session : option Z;    (** the user the session authenticates, if any *)
  ci_state : ConnState
}.

#[export] Instance ConnInfo_eq_dec : EqDecision ConnInfo.
Proof. solve_decision. Defined.

Definition set_state (st : ConnState) (ci : ConnInfo) : ConnInfo :=
  mkConnInfo (ci_user ci) (ci_chat ci) (ci_session ci) st.

Record Sys (R D : Type) := mkSys {
  sys_chats : ChatStore;
  sys_srv : Server R D;
  sys_conns : gmap ConnId ConnInfo;
  sys_next : ConnId;
  sys_log : list RegOp
}.
Arguments mkSys {R D} _ _ _ _ _.
Arguments sys_chats {R D} _.
Arguments sys_srv {R D} _.
Arguments sys_conns {R D} _.
Arguments sys_next {R D} _.
Arguments sys_log {R D} _.

Inductive SysEvent :=
| EvAccept (user chat : Z) (session : option Z)
| EvHandshake (c : ConnId)
| EvStartReading (c : ConnId)
| EvFrame (c : ConnId) (f : WebsocketParams)
| EvClose (c : ConnId)
| EvFinish (c : ConnId)
| EvTransportFail (c : ConnId)
| EvCreateChat (user : Z) (name addr : string)
| EvDeleteChat (user : Z) (addr : string).

(** What an event answers. *)
Inductive Output :=
| OutOk
| OutConn (c : ConnId)
| OutErr (e : ChatError)
| OutChat (ch : Chat.t)
| OutHttpErr (e : HttpError)
| OutIgnored.

Section Lifecycle.
Context `{RegistryOps R} `{Persister D}.
Variable may_join : Z → Z → bool.

Definition init_sys (cs : ChatStore) (db : D) : Sys R D :=
  mkSys cs (mkServer (mkBState reg_empty ∅ ∅) db) ∅ 0 [].

(** The handshake's checks, in order: session, room, policy. *)
Definition handshake_check (cs : ChatStore) (ci : ConnInfo) : result ChatError () :=
  check (bool_decide (ci_session ci = Some (ci_user ci))) (HandshakeError Unauthorized);;
  match LookupChat (ci_chat ci) cs with
  | Ok _ => Ok ()
  | Err _ => Err (HandshakeError UnknownChat)
  end;;
  check (may_join (ci_user ci) (ci_chat ci)) (HandshakeError Unauthorized).

Definition set_conns (cs : gmap ConnId ConnInfo) (s : Sys R D) : Sys R D :=
  mkSys (sys_chats s) (sys_srv s) cs (sys_next s) (sys_log s).

Definition set_bc (bc : BState R WebsocketParams) (s : Sys R D) : Sys R D :=
  mkSys (sys_chats s) (mkServer bc (srv_db (sys_srv s))) (sys_conns s) (sys_next s) (sys_log s).

Definition bc_join (chat : Z) (c : ConnId) (bc : BState R WebsocketParams) :=
  mkBState (Join chat c (b_reg bc)) (b_out bc) (b_dead bc).

(** Teardown: [Leave], and the transport is closed, so that a write still
    in flight to it is discarded. *)
Definition bc_leave (chat : Z) (c : ConnId) (bc : BState R WebsocketParams) :=
  mkBState (Leave chat c (b_reg bc)) (b_out bc) ({[c]} ∪ b_dead bc).

Definition bc_break (c : ConnId) (bc : BState R WebsocketParams) :=
  mkBState (b_reg bc) (b_out bc) ({[c]} ∪ b_dead bc).

(** A transition of connection [c] from [from] to [to], with the effect
    [eff] on the rest of the state; ignored in any other state. *)
Definition transition (c : ConnId) (from to : ConnState)
    (eff : ConnInfo → Sys R D → Sys R D) (s : Sys R D) : Sys R D * Output :=
  match sys_conns s !! c with
  | Some ci =>
      if decide (ci_state ci = from)
      then (eff ci (set_conns (<[c := set_state to ci]> (sys_conns s)) s), OutOk)
      else (s, OutIgnored)
  | None => (s, OutIgnored)
  end.

Definition sys_step (ev : SysEvent) (s : Sys R D) : Sys R D * Output :=
  match ev with
  | EvAccept user chat session =>
      let c := sys_next s in
      (mkSys (sys_chats s) (sys_srv s)
             (<[c := mkConnInfo user chat session Connecting]> (sys_conns s))
             (S c) (sys_log s), OutConn c)
  | EvHandshake c =>
      match sys_conns s !! c with
      | Some ci =>
          if decide (ci_state ci = Connecting) then
            match handshake_check (sys_chats s) ci with
            | Ok () =>
                let s1 := set_conns (<[c := set_state Joined ci]> (sys_conns s)) s in
                let s2 := set_bc (bc_join (ci_chat ci) c (srv_bc (sys_srv s1))) s1 in
                (mkSys (sys_chats s2) (sys_srv s2) (sys_conns s2) (sys_next s2)
                       (sys_log s2 ++ [OpJoin (ci_chat ci) c]), OutConn c)
            | Err e => (set_conns (delete c (sys_conns s)) s, OutErr e)
            end
          else (s, OutIgnored)
      | None => (s, OutIgnored)
      end
  | EvStartReading c => transition c Joined Reading (λ _ s, s) s
  | EvFrame c f =>
      match sys_conns s !! c with
      | Some ci =>
          if decide (ci_state ci = Reading) then
            let '(srv', err) := read_frame (ci_chat ci) (ci_user ci) f (sys_srv s) in
            (mkSys (sys_chats s) srv' (sys_conns s) (sys_next s) (sys_log s),
             match err with Some e => OutErr e | None => OutOk end)
          else (s, OutIgnored)
      | None => (s, OutIgnored)
      end
  | EvClose c =>
      match sys_conns s !! c with
      | Some ci =>
          if decide (ci_state ci = Joined) then transition c Joined Closing (λ _ s, s) s
          else transition c Reading Closing (λ _ s, s) s
      | None => (s, OutIgnored)
      end
  | EvFinish c =>
      transition c Closing Closed
        (λ ci s, let s' := set_bc (bc_leave (ci_chat ci) c (srv_bc (sys_srv s))) s in
                 mkSys (sys_chats s') (sys_srv s') (sys_conns s') (sys_next s')
                       (sys_log s' ++ [OpLeave (ci_chat ci) c])) s
  | EvTransportFail c =>
      if decide (c ∈ dom (sys_conns s))
      then (set_bc (bc_break c (srv_bc (sys_srv s))) s, OutOk)
      else (s, OutIgnored)
  | EvCreateChat user name addr =>
      match CreateChat user name addr (sys_chats s) with
      | Ok (ch, cs') => (mkSys cs' (sys_srv s) (sys_conns s) (sys_next s) (sys_log s), OutChat ch)
      | Err e => (s, OutHttpErr e)
      end
  | EvDeleteChat user addr =>
      match DeleteChat user addr (sys_chats s) with
      | Ok cs' => (mkSys cs' (sys_srv s) (sys_conns s) (sys_next s) (sys_log s), OutOk)
      | Err e => (s, OutHttpErr e)
      end
  end.

(** A run: the events in order, and what each answered. *)
Fixpoint run (evs : list SysEvent) (s : Sys R D) : Sys R D * list Output :=
  match evs with
  | [] => (s, [])
  | ev :: evs' =>
      let '(s1, o) := sys_step ev s in
      let '(s2, os) := run evs' s1 in
      (s2, o :: os)
  end.

(** The states of every interleaving of events from a start state. *)
Inductive reachable (s0 : Sys R D) : Sys R D → Prop :=
| reach_init : reachable s0 s0
| reach_step s ev : reachable s0 s → reachable s0 (sys_step ev s).1.
End Lifecycle.
