(* ===== verification/LifecycleFacts.v ===== *)
(** * LifecycleFacts: invariants of the relay, by induction on its runs

    [sys_inv] is what holds in every state reachable from a start state
    whose persister is well formed:
    - [inv_members]: a registry member of a room is a connection of that
      room that is joined, reading or closing;
    - [inv_live]: a joined or reading connection whose transport works is
      a member of its room;
    - [inv_closed]: a closed connection's transport is closed;
    - [inv_fresh]: connection ids are below the next id;
    - [inv_log]: the registry operations the lifecycle issued for a
      connection are one [Join] once it has passed the handshake, followed
      by one [Leave] once it is closed, and nothing else;
    - [inv_db]: the persister's invariant;
    - [inv_out_fresh], [inv_dead_fresh]: a connection id not yet given out
      has an empty queue and a working transport;
    - [inv_chats]: the chat store's invariant.
    Each event preserves it ([sys_step_inv]); from it follow the
    properties of the lifecycle: membership, Leave exactly once, no
    delivery to a closed connection. *)

From S2P Require Import Prelude Wire Persister Registry Broadcaster Router Chats Lifecycle.

Definition op_conn (o : RegOp) : ConnId :=
  match o with OpJoin _ c | OpLeave _ c => c end.

(** The registry operations a connection in state [ci] has had. *)
Definition expected_log (c : ConnId) (ci : ConnInfo) : list RegOp :=
  match ci_state ci with
  | Connecting => []
  | Closed => [OpJoin (ci_chat ci) c; OpLeave (ci_chat ci) c]
  | _ => [OpJoin (ci_chat ci) c]
  end.

Definition conn_log (c : ConnId) (log : list RegOp) : list RegOp :=
  filter (λ o, op_conn o = c) log.

Section Invariant.
Context `{RegistryLaws R} `{PersisterLaws D}.
Implicit Types (s : Sys R D).

Definition reg_of s : R := b_reg (srv_bc (sys_srv s)).
Definition dead_of s : gset ConnId := b_dead (srv_bc (sys_srv s)).
Definition out_of s : gmap ConnId (list WebsocketParams) := b_out (srv_bc (sys_srv s)).

Record sys_inv s : Prop := {
  inv_members chat c : c ∈ Members chat (reg_of s) →
    ∃ ci, sys_conns s !! c = Some ci ∧ ci_chat ci = chat ∧ ci_state ci ∈ [Joined; Reading; Closing];
  inv_live c ci : sys_conns s !! c = Some ci →
    (ci_state ci = Joined ∨ ci_state ci = Reading) → c ∉ dead_of s →
    c ∈ Members (ci_chat ci) (reg_of s);
  inv_closed c ci : sys_conns s !! c = Some ci → ci_state ci = Closed → c ∈ dead_of s;
  inv_fresh c : c ∈ dom (sys_conns s) → c < sys_next s;
  inv_log c : conn_log c (sys_log s) =
    match sys_conns s !! c with Some ci => expected_log c ci | None => [] end;
  inv_db : persister_wf (srv_db (sys_srv s));
  inv_out_fresh c : sys_next s ≤ c → out_of s !!! c = [];
  inv_dead_fresh c : c ∈ dead_of s → c < sys_next s;
  inv_chats : chats_wf (sys_chats s)
}.
End Invariant.

(** ** Preservation of the invariant, event by event *)

Lemma conn_log_app c (l1 l2 : list RegOp) : conn_log c (l1 ++ l2) = conn_log c l1 ++ conn_log c l2.
Proof. apply filter_app. Qed.

Lemma conn_log_op c (o : RegOp) : conn_log c [o] = if decide (op_conn o = c) then [o] else [].
Proof. unfold conn_log. rewrite filter_cons, filter_nil. by case_decide. Qed.

Section Preservation.
Context `{RegistryLaws R} `{PersisterLaws D}.
Variable may_join : Z → Z → bool.
Implicit Types (s : Sys R D).

Lemma init_inv (cs : ChatStore) (db : D) :
  persister_wf db → chats_wf cs → sys_inv (init_sys cs db).
Proof.
  intros Hdb Hcs. split; unfold reg_of, dead_of, out_of; simpl; try done.
  intros chat c Hc. by apply members_empty in Hc.
Qed.

(** A connection whose state is [Connecting] is in no room. *)
Lemma connecting_not_member s c ci chat :
  sys_inv s → sys_conns s !! c = Some ci → ci_state ci = Connecting →
  c ∉ Members chat (reg_of s).
Proof.
  intros Hi Hci Hst Hin. destruct (inv_members _ Hi _ _ Hin) as (ci' & Hci' & _ & Hs').
  rewrite Hci in Hci'. injection Hci' as <-. rewrite Hst in Hs'. set_solver.
Qed.

Lemma accept_inv s user chat session :
  sys_inv s → sys_inv (sys_step may_join (EvAccept user chat session) s).1.
Proof.
  intros Hi. pose proof Hi as [Hm Hl Hc Hf Hlog Hdb Ho Hdf Hcs]. simpl.
  assert (Hn : sys_conns s !! sys_next s = None).
  { apply not_elem_of_dom. intros Hin%Hf. lia. }
  split; unfold reg_of, dead_of, out_of in *; simpl.
  - intros ch x Hx. destruct (Hm _ _ Hx) as (ci & Hci & ?). exists ci.
    rewrite lookup_insert_ne; [done|]. intros <-. congruence.
  - intros x ci. destruct (decide (x = sys_next s)) as [->|Hne].
    + rewrite lookup_insert_eq. intros [= <-] [?|?]; discriminate.
    + rewrite lookup_insert_ne by done. apply Hl.
  - intros x ci. destruct (decide (x = sys_next s)) as [->|Hne].
    + rewrite lookup_insert_eq. by intros [= <-].
    + rewrite lookup_insert_ne by done. apply Hc.
  - intros x. rewrite dom_insert_L, elem_of_union, elem_of_singleton.
    intros [->|Hx]; [lia|]. apply Hf in Hx. lia.
  - intros x. rewrite Hlog. destruct (decide (x = sys_next s)) as [->|Hne].
    + by rewrite lookup_insert_eq, Hn.
    + by rewrite lookup_insert_ne.
  - done.
  - intros x Hx. apply Ho. lia.
  - intros x Hx%Hdf. lia.
  - done.
Qed.

(** The events that leave connections, registry, transports and log alone
    (the chat endpoints) keep the invariant. *)
Lemma same_core_inv s s' :
  sys_inv s → sys_srv s' = sys_srv s → sys_conns s' = sys_conns s →
  sys_next s' = sys_next s → sys_log s' = sys_log s → chats_wf (sys_chats s') → sys_inv s'.
Proof.
  intros [Hm Hl Hc Hf Hlog Hdb Ho Hdf Hcs] Hsrv Hconns Hnext Hlog' Hch'.
  split; unfold reg_of, dead_of, out_of in *; rewrite ?Hsrv, ?Hconns, ?Hnext, ?Hlog'; done.
Qed.

Lemma transport_fail_inv s c :
  sys_inv s → sys_inv (sys_step may_join (EvTransportFail c) s).1.
Proof.
  intros [Hm Hl Hc Hf Hlog Hdb Ho Hdf Hcs]. simpl. case_decide; [|by split].
  split; unfold reg_of, dead_of, out_of in *; simpl; try done.
  - intros x ci Hx Hs Hd. apply Hl; [done..|set_solver].
  - intros x ci Hx Hs. specialize (Hc x ci Hx Hs). set_solver.
  - intros x [->%elem_of_singleton|Hx]%elem_of_union; [by apply Hf|by apply Hdf].
Qed.

Lemma frame_inv s c f :
  sys_inv s → sys_inv (sys_step may_join (EvFrame c f) s).1.
Proof.
  intros Hi. simpl. destruct (sys_conns s !! c) as [ci|] eqn:Hci; [|done].
  case_decide; [|done].
  destruct (read_frame (ci_chat ci) (ci_user ci) f (sys_srv s)) as [srv' e] eqn:Hr. simpl.
  destruct (read_frame_cases _ _ _ _ _ _ Hr) as [->|(p & Hp & Hwf)]; [by destruct s|].
  destruct Hi as [Hm Hl Hc Hf Hlog Hdb Ho Hdf Hcs].
  split; unfold reg_of, dead_of, out_of in *; simpl; rewrite ?Hp, ?send_dead; try done.
  - intros ch x Hx. apply send_members in Hx as [Hx _]. by apply Hm.
  - intros x ci' Hx Hs Hd. apply send_members. split; [by apply Hl|]. intros _. by left.
  - by apply Hwf.
  - intros x Hx. rewrite send_queue, decide_False; [by apply Ho|].
    intros [Hin _]. destruct (Hm _ _ Hin) as (ci' & Hx' & _).
    apply elem_of_dom_2, Hf in Hx'. lia.
Qed.

Lemma conn_log_other c x ch : x ≠ c → conn_log x [OpJoin ch c] = [] ∧ conn_log x [OpLeave ch c] = [].
Proof. intros Hne. rewrite !conn_log_op. simpl. by rewrite !decide_False. Qed.

Lemma handshake_ok_inv s c ci :
  sys_inv s → sys_conns s !! c = Some ci → ci_state ci = Connecting →
  let s1 := set_conns (<[c := set_state Joined ci]> (sys_conns s)) s in
  let s2 := set_bc (bc_join (ci_chat ci) c (srv_bc (sys_srv s1))) s1 in
  sys_inv (mkSys (sys_chats s2) (sys_srv s2) (sys_conns s2) (sys_next s2)
                 (sys_log s2 ++ [OpJoin (ci_chat ci) c])).
Proof.
  intros Hi Hci Hst. pose proof (λ ch, connecting_not_member s c ci ch Hi Hci Hst) as Hcn.
  destruct Hi as [Hm Hl Hc Hf Hlog Hdb Ho Hdf Hcs]. simpl.
  split; unfold reg_of, dead_of, out_of in *; simpl.
  - intros ch x Hx. destruct (decide (x = c)) as [->|Hne].
    + exists (set_state Joined ci). rewrite lookup_insert_eq. split_and!; [done| |set_solver].
      destruct (decide (ci_chat ci = ch)) as [|Hne]; [done|].
      apply members_join_other in Hx; [|done]. by destruct (Hcn ch).
    + rewrite lookup_insert_ne by done. apply Hm.
      destruct (decide (ci_chat ci = ch)) as [<-|Hne'].
      * apply members_join in Hx as [->|Hx]; done.
      * by apply members_join_other in Hx.
  - intros x ci'. destruct (decide (x = c)) as [->|Hne].
    + rewrite lookup_insert_eq. intros [= <-] _ _. apply members_join. by left.
    + rewrite lookup_insert_ne by done. intros Hx Hs Hd. specialize (Hl _ _ Hx Hs Hd).
      destruct (decide (ci_chat ci = ci_chat ci')) as [Heq|Hne'].
      * rewrite <- Heq in *. apply members_join. by right.
      * by apply members_join_other.
  - intros x ci'. destruct (decide (x = c)) as [->|Hne].
    + rewrite lookup_insert_eq. by intros [= <-].
    + rewrite lookup_insert_ne by done. apply Hc.
  - intros x. rewrite dom_insert_L. apply elem_of_dom_2 in Hci. set_solver.
  - intros x. rewrite conn_log_app, Hlog. destruct (decide (x = c)) as [->|Hne].
    + rewrite lookup_insert_eq, Hci, conn_log_op, decide_True by done.
      unfold expected_log. by rewrite Hst.
    + rewrite lookup_insert_ne by done. destruct (conn_log_other c x (ci_chat ci) Hne) as [-> _].
      by rewrite app_nil_r.
  - done.
  - done.
  - done.
  - done.
Qed.

Lemma handshake_fail_inv s c ci :
  sys_inv s → sys_conns s !! c = Some ci → ci_state ci = Connecting →
  sys_inv (set_conns (delete c (sys_conns s)) s).
Proof.
  intros Hi Hci Hst. pose proof (λ ch, connecting_not_member s c ci ch Hi Hci Hst) as Hcn.
  destruct Hi as [Hm Hl Hc Hf Hlog Hdb Ho Hdf Hcs].
  split; unfold reg_of, dead_of, out_of in *; simpl; try done.
  - intros ch x Hx. destruct (decide (x = c)) as [->|Hne]; [by destruct (Hcn ch)|].
    rewrite lookup_delete_ne by done. by apply Hm.
  - intros x ci'. destruct (decide (x = c)) as [->|Hne]; [by rewrite lookup_delete_eq|].
    rewrite lookup_delete_ne by done. apply Hl.
  - intros x ci'. destruct (decide (x = c)) as [->|Hne]; [by rewrite lookup_delete_eq|].
    rewrite lookup_delete_ne by done. apply Hc.
  - intros x. rewrite dom_delete_L. intros Hx. apply Hf. set_solver.
  - intros x. rewrite Hlog. destruct (decide (x = c)) as [->|Hne].
    + rewrite lookup_delete_eq, Hci. unfold expected_log. by rewrite Hst.
    + by rewrite lookup_delete_ne.
Qed.

Lemma handshake_inv s c : sys_inv s → sys_inv (sys_step may_join (EvHandshake c) s).1.
Proof.
  intros Hi. simpl. destruct (sys_conns s !! c) as [ci|] eqn:Hci; [|done].
  case_decide as Hst; [|done].
  destruct (handshake_check may_join (sys_chats s) ci) as [[]|e].
  - by apply handshake_ok_inv.
  - by eapply handshake_fail_inv.
Qed.

(** A joined or reading connection moving to reading or closing. *)
Lemma relabel_inv s c ci st :
  sys_inv s → sys_conns s !! c = Some ci →
  ci_state ci ∈ [Joined; Reading] → st ∈ [Reading; Closing] →
  sys_inv (set_conns (<[c := set_state st ci]> (sys_conns s)) s).
Proof.
  intros [Hm Hl Hc Hf Hlog Hdb Ho Hdf Hcs] Hci Hold Hnew.
  assert (Hexp : expected_log c (set_state st ci) = expected_log c ci).
  { destruct ci as [u ch ses []]; destruct st; unfold expected_log; simpl in *;
      try reflexivity; set_solver. }
  split; unfold reg_of, dead_of, out_of in *; simpl; try done.
  - intros ch x Hx. destruct (Hm _ _ Hx) as (ci' & Hx' & Hch & Hs').
    destruct (decide (x = c)) as [->|Hne].
    + rewrite lookup_insert_eq. rewrite Hci in Hx'. injection Hx' as <-.
      eexists; split_and!; [done|done|set_solver].
    + rewrite lookup_insert_ne by done. eauto.
  - intros x ci'. destruct (decide (x = c)) as [->|Hne].
    + rewrite lookup_insert_eq. intros [= <-] _ Hd. apply (Hl c ci); [done| |done]. set_solver.
    + rewrite lookup_insert_ne by done. apply Hl.
  - intros x ci'. destruct (decide (x = c)) as [->|Hne].
    + rewrite lookup_insert_eq. intros [= <-]. simpl. set_solver.
    + rewrite lookup_insert_ne by done. apply Hc.
  - intros x. rewrite dom_insert_L. apply elem_of_dom_2 in Hci. set_solver.
  - intros x. rewrite Hlog. destruct (decide (x = c)) as [->|Hne].
    + by rewrite lookup_insert_eq, Hci.
    + by rewrite lookup_insert_ne.
Qed.

Lemma start_reading_inv s c : sys_inv s → sys_inv (sys_step may_join (EvStartReading c) s).1.
Proof.
  intros Hi. simpl. unfold transition. destruct (sys_conns s !! c) as [ci|] eqn:Hci; [|done].
  case_decide as Hst; [|done]. apply relabel_inv; [done|done|set_solver|set_solver].
Qed.

Lemma close_inv s c : sys_inv s → sys_inv (sys_step may_join (EvClose c) s).1.
Proof.
  intros Hi. simpl. destruct (sys_conns s !! c) as [ci|] eqn:Hci; [|done].
  unfold transition. rewrite Hci.
  repeat case_decide; try done; apply relabel_inv; try done; set_solver.
Qed.

Lemma finish_inv s c : sys_inv s → sys_inv (sys_step may_join (EvFinish c) s).1.
Proof.
  intros Hi. simpl. unfold transition. destruct (sys_conns s !! c) as [ci|] eqn:Hci; [|done].
  case_decide as Hst; [|done]. destruct Hi as [Hm Hl Hc Hf Hlog Hdb Ho Hdf Hcs].
  split; unfold reg_of, dead_of, out_of in *; simpl.
  - intros ch x Hx. destruct (decide (ci_chat ci = ch)) as [<-|Hne].
    + apply members_leave in Hx as [Hne Hx]. rewrite lookup_insert_ne by done. by apply Hm.
    + apply members_leave_other in Hx; [|done]. destruct (Hm _ _ Hx) as (ci' & Hx' & Hch & Hs').
      destruct (decide (x = c)) as [->|Hne']; [congruence|].
      rewrite lookup_insert_ne by done. eauto.
  - intros x ci'. destruct (decide (x = c)) as [->|Hne].
    + rewrite lookup_insert_eq. intros [= <-] [?|?]; discriminate.
    + rewrite lookup_insert_ne by done. intros Hx Hs Hd.
      assert (Hm' : x ∈ Members (ci_chat ci') (b_reg (srv_bc (sys_srv s)))) by (apply Hl; set_solver).
      destruct (decide (ci_chat ci = ci_chat ci')) as [Heq|Hne'].
      * rewrite <- Heq in *. by apply members_leave.
      * by apply members_leave_other.
  - intros x ci'. destruct (decide (x = c)) as [->|Hne]; [set_solver|].
    rewrite lookup_insert_ne by done. intros Hx Hs. specialize (Hc _ _ Hx Hs). set_solver.
  - intros x. rewrite dom_insert_L. apply elem_of_dom_2 in Hci. set_solver.
  - intros x. rewrite conn_log_app, Hlog. destruct (decide (x = c)) as [->|Hne].
    + rewrite lookup_insert_eq, Hci, conn_log_op, decide_True by done.
      unfold expected_log. by rewrite Hst.
    + rewrite lookup_insert_ne by done. destruct (conn_log_other c x (ci_chat ci) Hne) as [_ ->].
      by rewrite app_nil_r.
  - done.
  - done.
  - intros x [->%elem_of_singleton|Hx]%elem_of_union; [|by apply Hdf].
    apply elem_of_dom_2 in Hci. by apply Hf.
  - done.
Qed.

Lemma chats_inv s ev :
  (∃ user name addr, ev = EvCreateChat user name addr) ∨ (∃ user addr, ev = EvDeleteChat user addr) →
  sys_inv s → sys_inv (sys_step may_join ev s).1.
Proof.
  intros [(user & name & addr & ->)|(user & addr & ->)] Hi; simpl.
  - destruct (CreateChat _ _ _ _) as [[ch cs']|e] eqn:E; [|done]. eapply same_core_inv; try done.
    eapply create_chat_preserves_wf; [apply (inv_chats _ Hi)|done].
  - destruct (DeleteChat _ _ _) as [cs'|e] eqn:E; [|done]. eapply same_core_inv; try done.
    eapply delete_chat_preserves_wf; [apply (inv_chats _ Hi)|done].
Qed.

(** Every event keeps the invariant. *)
Lemma sys_step_inv ev s : sys_inv s → sys_inv (sys_step may_join ev s).1.
Proof.
  destruct ev.
  - apply accept_inv.
  - apply handshake_inv.
  - apply start_reading_inv.
  - apply frame_inv.
  - apply close_inv.
  - apply finish_inv.
  - apply transport_fail_inv.
  - apply chats_inv. left. eauto.
  - apply chats_inv. right. eauto.
Qed.

Lemma reachable_inv (cs : ChatStore) (db : D) s :
  persister_wf db → chats_wf cs → reachable may_join (init_sys cs db) s → sys_inv s.
Proof.
  intros Hdb Hcs Hr. induction Hr as [|s ev Hr IH]; [by apply init_inv|]. by apply sys_step_inv.
Qed.
End Preservation.

(** ** Properties of the lifecycle *)

Section Properties.
Context `{RegistryLaws R} `{PersisterLaws D}.
Variable may_join : Z → Z → bool.
Implicit Types (s : Sys R D).

(** A connection whose transport is closed receives nothing from any
    event, and its transport stays closed. *)
Lemma step_dead c ev s :
  c ∈ dead_of s →
  c ∈ dead_of (sys_step may_join ev s).1 ∧
  out_of (sys_step may_join ev s).1 !!! c = out_of s !!! c.
Proof.
  unfold dead_of, out_of. intros Hd. destruct ev; simpl; unfold transition;
    repeat (case_match; simplify_eq/=); try done; try set_solver.
  all: match goal with
       | Hr : read_frame _ _ _ _ = (?srv', _) |- _ =>
           destruct (read_frame_cases _ _ _ _ _ _ Hr) as [->|(p & -> & _)]; [done|]
       end.
  rewrite send_dead, send_queue, decide_False; [done|]. tauto.
Qed.

Lemma run_dead c evs s :
  c ∈ dead_of s → out_of (run may_join evs s).1 !!! c = out_of s !!! c.
Proof.
  revert s. induction evs as [|ev evs IH]; intros s Hd; [done|]. simpl.
  destruct (sys_step may_join ev s) as [s1 o] eqn:E.
  destruct (run may_join evs s1) as [s2 os] eqn:E2. simpl.
  destruct (step_dead c ev s Hd) as [Hd1 Hq1]. rewrite E in Hd1, Hq1. simpl in *.
  rewrite <- Hq1, <- (IH s1 Hd1), E2. done.
Qed.

Lemma lookup_insert_Some_inv {V} (m : gmap ConnId V) k v c v' :
  <[k := v]> m !! c = Some v' → (c = k ∧ v' = v) ∨ (c ≠ k ∧ m !! c = Some v').
Proof. rewrite lookup_insert. case_decide; naive_solver. Qed.

Lemma lookup_delete_Some_inv {V} (m : gmap ConnId V) k c v' :
  delete k m !! c = Some v' → c ≠ k ∧ m !! c = Some v'.
Proof. rewrite lookup_delete. case_decide; naive_solver. Qed.

(** Every reachable state's registry holds exactly the live
    connections: a member of a room is a connection of that room past
    its handshake and not yet closed, and a joined or reading connection
    whose transport works is a member of its room. *)
Theorem reachable_registry_live (cs : ChatStore) (db : D) s chat c :
  persister_wf db → chats_wf cs → reachable may_join (init_sys cs db) s →
  (c ∈ Members chat (reg_of s) →
     ∃ ci, sys_conns s !! c = Some ci ∧ ci_chat ci = chat ∧
           ci_state ci ≠ Connecting ∧ ci_state ci ≠ Closed) ∧
  (∀ ci, sys_conns s !! c = Some ci → ci_chat ci = chat →
     (ci_state ci = Joined ∨ ci_state ci = Reading) → c ∉ dead_of s →
     c ∈ Members chat (reg_of s)).
Proof.
  intros Hdb Hcs Hr. pose proof (reachable_inv may_join cs db s Hdb Hcs Hr) as Hi. split.
  - intros Hin. destruct (inv_members _ Hi _ _ Hin) as (ci & Hci & Hch & Hst).
    exists ci. split_and!; [done|done| |]; intros Heq; rewrite Heq in Hst; set_solver.
  - intros ci Hci <-. by apply (inv_live _ Hi).
Qed.

(** The lifecycle joins a connection to the registry once, when its
    handshake succeeds, and makes it leave once, when it is closed: the
    registry operations issued for it are exactly these, in this order. *)
Theorem reachable_join_leave_once (cs : ChatStore) (db : D) s c ci :
  persister_wf db → chats_wf cs → reachable may_join (init_sys cs db) s → sys_conns s !! c = Some ci →
  conn_log c (sys_log s) =
    (if decide (ci_state ci = Connecting) then [] else [OpJoin (ci_chat ci) c]) ++
    (if decide (ci_state ci = Closed) then [OpLeave (ci_chat ci) c] else []).
Proof.
  intros Hdb Hcs Hr Hci. rewrite (inv_log _ (reachable_inv may_join cs db s Hdb Hcs Hr)), Hci.
  unfold expected_log. by destruct (ci_state ci).
Qed.

(** A connection that has been closed receives nothing more: after
    any further events, of any connections, its outbound queue is what it
    was when it closed. *)
Theorem closed_receives_nothing (cs : ChatStore) (db : D) s c ci (evs : list SysEvent) :
  persister_wf db → chats_wf cs → reachable may_join (init_sys cs db) s →
  sys_conns s !! c = Some ci → ci_state ci = Closed →
  out_of (run may_join evs s).1 !!! c = out_of s !!! c.
Proof.
  intros Hdb Hcs Hr Hci Hst. apply run_dead.
  by apply (inv_closed _ (reachable_inv may_join cs db s Hdb Hcs Hr) c ci).
Qed.

(** A handshake that fails drops the connection with the handshake
    error, before it joins the registry: nothing but the connection
    table changes. *)
Theorem handshake_rejected s c ci e :
  sys_conns s !! c = Some ci → ci_state ci = Connecting →
  handshake_check may_join (sys_chats s) ci = Err e →
  sys_step may_join (EvHandshake c) s = (set_conns (delete c (sys_conns s)) s, OutErr e).
Proof. intros Hci Hst Hh. simpl. by rewrite Hci, decide_True, Hh. Qed.

(** A guarded transition changes at most the connection it names, from
    the state it expects to the target state. *)
Lemma transition_conns c from to (eff : ConnInfo → Sys R D → Sys R D) s x ci' :
  (∀ ci s', sys_conns (eff ci s') = sys_conns s') →
  sys_conns (transition c from to eff s).1 !! x = Some ci' →
  sys_conns s !! x = Some ci' ∨
  (x = c ∧ ∃ ci, sys_conns s !! c = Some ci ∧ ci_state ci = from ∧ ci' = set_state to ci).
Proof.
  intros Heff. unfold transition. destruct (sys_conns s !! c) as [ci|] eqn:Hc; [|by left].
  case_decide as Hst; [|by left]. simpl. rewrite Heff. simpl.
  intros [[-> ->]|[_ Hx]]%lookup_insert_Some_inv; [right|left]; eauto.
Qed.

(** A connection follows its state machine: an event keeps its path
    identity, and either keeps its state or takes one transition of
    [conn_step]; in particular [Closed] is final. *)
Theorem sys_step_state_machine (cs : ChatStore) (db : D) s ev c ci ci' :
  persister_wf db → chats_wf cs → reachable may_join (init_sys cs db) s →
  sys_conns s !! c = Some ci → sys_conns (sys_step may_join ev s).1 !! c = Some ci' →
  ci_user ci' = ci_user ci ∧ ci_chat ci' = ci_chat ci ∧
  (ci_state ci' = ci_state ci ∨ conn_step (ci_state ci) (ci_state ci')).
Proof.
  intros Hdb Hcs Hr Hci Hci'. pose proof (inv_fresh _ (reachable_inv may_join cs db s Hdb Hcs Hr)) as Hf.
  assert (Hkeep : sys_conns s !! c = Some ci' → ci' = ci) by congruence.
  assert (Hmove : ∀ from to, conn_step from to →
    sys_conns s !! c = Some ci' ∨
    (∃ ci0, sys_conns s !! c = Some ci0 ∧ ci_state ci0 = from ∧ ci' = set_state to ci0) →
    ci_user ci' = ci_user ci ∧ ci_chat ci' = ci_chat ci ∧
    (ci_state ci' = ci_state ci ∨ conn_step (ci_state ci) (ci_state ci'))).
  { intros from to Hstep [Hx|(ci0 & Hx & Hst & ->)]; [apply Hkeep in Hx as ->; auto|].
    rewrite Hci in Hx. injection Hx as <-. simpl. rewrite Hst. auto. }
  destruct ev as [user chat session|c0|c0|c0 f|c0|c0|c0|user name addr|user addr]; simpl in Hci'.
  - apply lookup_insert_Some_inv in Hci' as [[-> _]|[_ Hx]].
    + apply elem_of_dom_2, Hf in Hci. lia.
    + apply Hkeep in Hx as ->. auto.
  - destruct (sys_conns s !! c0) as [ci0|] eqn:Hc0; [|apply Hkeep in Hci' as ->; auto].
    case_decide as Hst; [|apply Hkeep in Hci' as ->; auto].
    destruct (handshake_check may_join (sys_chats s) ci0) as [[]|e]; simpl in Hci'.
    + apply (Hmove Connecting Joined cs_join).
      apply lookup_insert_Some_inv in Hci' as [[-> ->]|[_ Hx]]; [right|left]; eauto.
    + apply lookup_delete_Some_inv in Hci' as [_ Hx]. apply Hkeep in Hx as ->. auto.
  - apply (transition_conns _ _ _ _ _ _ _ (λ _ _, eq_refl)) in Hci' as [Hx|[-> Hx]];
      apply (Hmove Joined Reading cs_read); auto.
  - destruct (sys_conns s !! c0) as [ci0|]; [|apply Hkeep in Hci' as ->; auto].
    case_decide; [|apply Hkeep in Hci' as ->; auto].
    destruct (read_frame _ _ _ _). simpl in Hci'. apply Hkeep in Hci' as ->. auto.
  - destruct (sys_conns s !! c0) as [ci0|]; [|apply Hkeep in Hci' as ->; auto].
    case_decide.
    + apply (transition_conns _ _ _ _ _ _ _ (λ _ _, eq_refl)) in Hci' as [Hx|[-> Hx]];
        apply (Hmove Joined Closing cs_close_joined); auto.
    + apply (transition_conns _ _ _ _ _ _ _ (λ _ _, eq_refl)) in Hci' as [Hx|[-> Hx]];
        apply (Hmove Reading Closing cs_close_reading); auto.
  - eapply transition_conns in Hci' as [Hx|[-> Hx]]; [| |intros; reflexivity..];
      apply (Hmove Closing Closed cs_finish); auto.
  - case_decide; simpl in Hci'; apply Hkeep in Hci' as ->; auto.
  - destruct (CreateChat _ _ _ _) as [[]|]; simpl in Hci'; apply Hkeep in Hci' as ->; auto.
  - destruct (DeleteChat _ _ _) as [|]; simpl in Hci'; apply Hkeep in Hci' as ->; auto.
Qed.
End Properties.
