(* ===== verification/Harness.v ===== *)
(** * Harness: the test client of [api_test.go] against the relay model

    The tests of [src/server/tests/api_test.go] talk to one running server
    through the helpers of the [testutils] package, which is not under
    [src/]: [HttpGetJson], [HttpPostJson], [HttpDeleteJson] for the chat
    endpoints, a gorilla websocket [Dial], [WriteJSON], [ReadJSON] (which
    blocks while no frame is queued) and the deferred close of each
    connection, and [WSSendAndVerify] (write a
    message frame, read the next frame, check it is the message with a
    server-assigned id).  A [World] is the relay's state ([Sys] with the
    map registry and the in-memory store) with the client's read cursor of
    every connection; a [Test] step reads and updates it and may stop the
    test ([Fatal]: [t.Fatal], a panic, or a read that never returns).
    [defer] and [t_Run]/[t_Runs] give Go's [testing] control flow: the
    deferred closes run when a subtest fails, and the next subtest runs.  The client is defined for any room
    policy ([RoomPolicy], the handshake's may-join predicate); the server's
    accepts every user ([server_may_join]): the test file records, as a
    TODO, that messages of users who are not in the group are not
    rejected. *)

From S2P Require Import Prelude Wire Likes Persister Registry Broadcaster Router Chats Lifecycle LifecycleFacts.
Local Open Scope string_scope.

(** The room policy the handshake consults (specification section 6: the
    authorization policy is an external collaborator, consumed as a
    boolean "may join" predicate).  The client operations below are
    defined for any policy. *)
Class RoomPolicy := room_policy : Z → Z → bool.

(** The policy of the server the tests run against: no group membership
    check. *)
Definition server_may_join (user chat : Z) : bool := true.

Abbreviation TSys := (Sys GRegistry MemDB).

Record World := mkWorld {
  w_sys : TSys;
  w_cursor : gmap ConnId nat    (** frames of each connection already read *)
}.

(** How a test function stops before its end.  [TFatal what w] is
    [t.Fatal(what)]: [runtime.Goexit] ends the test's goroutine, its
    deferred calls run, and [w] is the world they leave; the test is
    failed, but the test that started it with [t.Run] goes on
    ([t_Run]).  [TPanic what] is a run-time panic (an index out of
    range): [go test] reports it and the whole test binary exits, so no
    later test runs.  [TBlocked c] is a [conn.ReadJSON] on connection [c]
    with no frame to come.  Gorilla's [ReadJSON] has no deadline here and
    the test is the only client that could make the server write to [c],
    so that call waits for ever: the run does not terminate ([go test]
    kills it at its timeout). *)
Inductive Fatal :=
| TFatal (what : string) (w : World)
| TPanic (what : string)
| TBlocked (c : ConnId).

Definition Test (A : Type) : Type := World → result Fatal (A * World).

#[export] Instance test_ret : MRet Test := λ A a w, Ok (a, w).
#[export] Instance test_bind : MBind Test :=
  λ A B f m w, match m w with Ok (a, w') => f a w' | Err e => Err e end.

Definition fatal {A} (what : string) : Test A := λ w, Err (TFatal what w).

(** A run-time panic of the test code. *)
Definition go_panic {A} (what : string) : Test A := λ _, Err (TPanic what).

(** [defer d] followed by the rest [m] of the function: [d] runs when [m]
    returns and when it stops with [t.Fatal]; a panic or a read that
    never returns ends everything before it matters. *)
Definition defer {A} (d : Test ()) (m : Test A) : Test A := λ w,
  match m w with
  | Ok (a, w1) => match d w1 with Ok (_, w2) => Ok (a, w2) | Err e => Err e end
  | Err (TFatal what w1) => match d w1 with Ok (_, w2) => Err (TFatal what w2) | Err e => Err e end
  | Err e => Err e
  end.

(** [t.Run(name, f)]: [f] runs as a subtest; the caller goes on whether
    it passed or stopped with [t.Fatal], and learns its failure message
    ([None]: it passed).  A panic or a blocked read is not caught. *)
Definition t_Run (f : Test ()) : Test (option string) := λ w,
  match f w with
  | Ok (_, w1) => Ok (None, w1)
  | Err (TFatal what w1) => Ok (Some what, w1)
  | Err e => Err e
  end.

(** The consecutive [t.Run] calls that end a test function, with the
    failure messages of the subtests that failed, in order. *)
Fixpoint t_runs (fs : list (Test ())) : Test (list string) :=
  match fs with
  | [] => mret []
  | f :: fs' => o ← t_Run f; ss ← t_runs fs'; mret (option_list o ++ ss)%list
  end.

(** A test function whose body ends with the subtests [fs]: it fails
    when one of them failed (Go reports each; the model keeps the first
    message), and passes otherwise.  [m.Run()] in [TestMain] runs the
    test functions of the file the same way. *)
Definition t_Runs (fs : list (Test ())) : Test () :=
  ss ← t_runs fs;
  match ss with [] => mret () | what :: _ => fatal what end.

(** [if !cond { t.Fatalf(...) }] *)
Definition expect (b : bool) (what : string) : Test () := if b then mret () else fatal what.

(** [if err != nil { t.Fatal(err.Error()) }] *)
Definition expect_ok {E A} (show : E → string) (r : result E A) : Test A :=
  match r with Ok a => mret a | Err e => fatal (show e) end.

Definition http_ok {A} : result HttpError A → Test A := expect_ok http_error_text.
Definition ws_ok {A} : result ChatError A → Test A := expect_ok (λ _, "websocket: bad handshake").

Section Client.
Context {pol : RoomPolicy}.

(** One event of the server. *)
Definition server (ev : SysEvent) : Test Output :=
  λ w, let '(s', o) := sys_step room_policy ev (w_sys w) in Ok (o, mkWorld s' (w_cursor w)).

(** ** HTTP endpoints, as the test client sees them *)

(** [HttpPostJson("/chat[?testid=2]", Chat{Name, Address})]. *)
Definition HttpPostChat (session : Z) (name addr : string) : Test (result HttpError Chat.t) :=
  o ← server (EvCreateChat session name addr);
  match o with
  | OutChat ch => mret (Ok ch)
  | OutHttpErr e => mret (Err e)
  | _ => fatal "unexpected answer"
  end.

(** [HttpGetJson("/public/chat/%d")]. *)
Definition HttpGetChat (id : Z) : Test (result HttpError Chat.t) :=
  λ w, Ok (LookupChat id (sys_chats (w_sys w)), w).

(** [HttpGetJson("/public/chat/@address")]. *)
Definition HttpGetChatByAddress (addr : string) : Test (result HttpError Chat.t) :=
  λ w, Ok (LookupChatByAddress addr (sys_chats (w_sys w)), w).

(** [HttpDeleteJson("/chat/address[?testid=2]")]. *)
Definition HttpDeleteChat (session : Z) (addr : string) : Test (result HttpError ()) :=
  o ← server (EvDeleteChat session addr);
  match o with
  | OutOk => mret (Ok ())
  | OutHttpErr e => mret (Err e)
  | _ => fatal "unexpected answer"
  end.

(** [HttpGetJson("/public/chat")]. *)
Definition HttpListChats : Test (list Chat.t) := λ w, Ok (ListChats (sys_chats (w_sys w)), w).

(** [HttpGetJson("/public/chat/%d/message")]: the chat's stored messages,
    in the order they were stored. *)
Definition HttpGetMessages (chat : Z) : Test (list Message) :=
  λ w, Ok (filter (λ m, Chatid m = Some chat) (db_messages (srv_db (sys_srv (w_sys w)))), w).

(** ** The websocket client *)

(** The client's read position in a connection's frames. *)
Definition set_cursor (c : ConnId) (i : nat) : Test () :=
  λ w, Ok ((), mkWorld (w_sys w) (<[c := i]> (w_cursor w))).

(** [websocket.DefaultDialer.Dial("/ws/%d/chat/%d[?testid=2]")]: open,
    handshake, and the server starts the read loop. *)
Definition Dial (session path_user chat : Z) : Test (result ChatError ConnId) :=
  o ← server (EvAccept path_user chat (Some session));
  match o with
  | OutConn c =>
      o2 ← server (EvHandshake c);
      match o2 with
      | OutConn _ =>
          _ ← server (EvStartReading c);
          set_cursor c 0;;
          mret (Ok c)
      | OutErr e => mret (Err e)
      | _ => fatal "unexpected answer"
      end
  | _ => fatal "unexpected answer"
  end.

(** [conn.WriteJSON(msg)]: the server handles the frame. *)
Definition WriteJSON (c : ConnId) (f : WebsocketParams) : Test () :=
  _ ← server (EvFrame c f); mret ().

(** [conn.ReadJSON(&recv)]: the next frame of the connection's queue;
    with none, the call blocks for ever. *)
Definition ReadJSON (c : ConnId) : Test WebsocketParams :=
  λ w, let i := w_cursor w !!! c in
       match out_of (w_sys w) !!! c !! i with
       | Some f => Ok (f, mkWorld (w_sys w) (<[c := S i]> (w_cursor w)))
       | None => Err (TBlocked c)
       end.

(** The deferred [conn.WriteMessage(websocket.CloseMessage, nil)] and
    [conn.Close()]: the server's read loop sees the close frame and tears
    the connection down. *)
Definition CloseConn (c : ConnId) : Test () :=
  _ ← server (EvClose c); _ ← server (EvFinish c); mret ().

(** [WSSendAndVerify(conn, msg, user, chat)]: the frame read back is the
    message that was sent, with a positive server-assigned id. *)
Definition echo_ok (sent recv : WebsocketParams) : bool :=
  match wp_Message sent, wp_Message recv with
  | Some m, Some m' =>
      bool_decide (wp_Type recv = wp_Type sent ∧ wp_MessageID recv = wp_MessageID sent ∧
                   m' = with_id (ID m') m ∧ (0 < ID m')%Z)
  | _, _ => false
  end.

Definition WSSendAndVerify (c : ConnId) (msg : WebsocketParams) : Test WebsocketParams :=
  WriteJSON c msg;;
  recv ← ReadJSON c;
  expect (echo_ok msg recv) "received message does not match";;
  mret recv.

End Client.

(** ** Running the client *)

(** The server of [api.Init()] and [api.RunApp()] (no chat, no message, no
    connection), and a client that has read nothing. *)
Definition init_world : World := mkWorld (init_sys empty_chats empty_db) ∅.

Definition with_chats (cs : ChatStore) (w : World) : World :=
  let s := w_sys w in
  mkWorld (mkSys cs (sys_srv s) (sys_conns s) (sys_next s) (sys_log s)) (w_cursor w).

Lemma bind_run {A B} (m : Test A) (f : A → Test B) w a w' :
  m w = Ok (a, w') → (m ≫= f) w = f a w'.
Proof. intros H. unfold mbind, test_bind. by rewrite H. Qed.

Lemma bind_assoc_run {A B C} (m : Test A) (f : A → Test B) (g : B → Test C) w :
  ((m ≫= f) ≫= g) w = (m ≫= (λ a, f a ≫= g)) w.
Proof. unfold mbind, test_bind. by destruct (m w) as [[a w']|]. Qed.

Lemma bind_err {A B} (m : Test A) (f : A → Test B) w e :
  m w = Err e → (m ≫= f) w = Err e.
Proof. intros H. unfold mbind, test_bind. by rewrite H. Qed.

Lemma bind_run_inv {A B} (m : Test A) (f : A → Test B) w r :
  (m ≫= f) w = Ok r → ∃ a w1, m w = Ok (a, w1) ∧ f a w1 = Ok r.
Proof. unfold mbind, test_bind. destruct (m w) as [[a w1]|]; [eauto|done]. Qed.

Lemma ret_run {A} (a : A) w : mret (M := Test) a w = Ok (a, w).
Proof. reflexivity. Qed.

(** ** [defer], [t.Run] and the subtests of a test *)

Lemma defer_ok {A} (d : Test ()) (m : Test A) w a w1 w2 :
  m w = Ok (a, w1) → d w1 = Ok ((), w2) → defer d m w = Ok (a, w2).
Proof. intros Hm Hd. unfold defer. by rewrite Hm, Hd. Qed.

Lemma defer_fatal {A} (d : Test ()) (m : Test A) w what w1 w2 :
  m w = Err (TFatal what w1) → d w1 = Ok ((), w2) → defer d m w = Err (TFatal what w2).
Proof. intros Hm Hd. unfold defer. by rewrite Hm, Hd. Qed.

Lemma defer_blocked {A} (d : Test ()) (m : Test A) w c :
  m w = Err (TBlocked c) → defer d m w = Err (TBlocked c).
Proof. intros Hm. unfold defer. by rewrite Hm. Qed.

Lemma t_Run_ok (f : Test ()) w w1 : f w = Ok ((), w1) → t_Run f w = Ok (None, w1).
Proof. intros Hf. unfold t_Run. by rewrite Hf. Qed.

Lemma t_Run_fatal (f : Test ()) w what w1 : f w = Err (TFatal what w1) → t_Run f w = Ok (Some what, w1).
Proof. intros Hf. unfold t_Run. by rewrite Hf. Qed.

Lemma t_Run_stuck (f : Test ()) w e : f w = Err e → (∀ what w1, e ≠ TFatal what w1) → t_Run f w = Err e.
Proof. intros Hf He. unfold t_Run. rewrite Hf. destruct e; [by destruct (He what w0)|done|done]. Qed.

Lemma t_runs_tail (fs : list (Test ())) (pre : list string) w :
  (ss ← t_runs fs; mret (pre ++ ss)%list) w =
    match t_runs fs w with Ok (ss, w') => Ok ((pre ++ ss)%list, w') | Err e => Err e end.
Proof. unfold mbind, test_bind. by destruct (t_runs fs w) as [[ss w']|]. Qed.

Lemma t_Runs_nil w : t_Runs [] w = Ok ((), w).
Proof. reflexivity. Qed.

Lemma t_runs_cons_ok (f : Test ()) (fs : list (Test ())) w w1 :
  f w = Ok ((), w1) → t_runs (f :: fs) w = t_runs fs w1.
Proof.
  intros Hf. cbn [t_runs]. rewrite (bind_run _ _ _ _ _ (t_Run_ok _ _ _ Hf)), t_runs_tail.
  by destruct (t_runs fs w1) as [[ss w2]|].
Qed.

Lemma t_runs_cons_fatal (f : Test ()) (fs : list (Test ())) w what w1 ss w2 :
  f w = Err (TFatal what w1) → t_runs fs w1 = Ok (ss, w2) →
  t_runs (f :: fs) w = Ok (what :: ss, w2).
Proof.
  intros Hf Hfs. cbn [t_runs]. rewrite (bind_run _ _ _ _ _ (t_Run_fatal _ _ _ _ Hf)), t_runs_tail.
  by rewrite Hfs.
Qed.

(** A blocked read or a panic of a subtest is the parent's too. *)
Lemma t_runs_cons_stuck (f : Test ()) (fs : list (Test ())) w e :
  f w = Err e → (∀ what w1, e ≠ TFatal what w1) → t_runs (f :: fs) w = Err e.
Proof. intros Hf He. cbn [t_runs]. by rewrite (bind_err _ _ _ _ (t_Run_stuck _ _ _ Hf He)). Qed.

Lemma t_Runs_cons_ok (f : Test ()) (fs : list (Test ())) w w1 :
  f w = Ok ((), w1) → t_Runs (f :: fs) w = t_Runs fs w1.
Proof.
  intros Hf. unfold t_Runs, mbind, test_bind. by rewrite (t_runs_cons_ok _ _ _ _ Hf).
Qed.

(** A subtest that stops with [t.Fatal] fails its parent with its
    message once the later subtests have run. *)
Lemma t_Runs_cons_fatal (f : Test ()) (fs : list (Test ())) w what w1 ss w2 :
  f w = Err (TFatal what w1) → t_runs fs w1 = Ok (ss, w2) →
  t_Runs (f :: fs) w = Err (TFatal what w2).
Proof. intros Hf Hfs. unfold t_Runs. by rewrite (bind_run _ _ _ _ _ (t_runs_cons_fatal _ _ _ _ _ _ _ Hf Hfs)). Qed.

Lemma t_Runs_cons_stuck (f : Test ()) (fs : list (Test ())) w e :
  f w = Err e → (∀ what w1, e ≠ TFatal what w1) → t_Runs (f :: fs) w = Err e.
Proof. intros Hf He. unfold t_Runs. by rewrite (bind_err _ _ _ _ (t_runs_cons_stuck _ _ _ _ Hf He)). Qed.

Lemma t_runs_cons_fatal_stuck (f : Test ()) (fs : list (Test ())) w what w1 e :
  f w = Err (TFatal what w1) → t_runs fs w1 = Err e → t_runs (f :: fs) w = Err e.
Proof.
  intros Hf Hfs. cbn [t_runs]. by rewrite (bind_run _ _ _ _ _ (t_Run_fatal _ _ _ _ Hf)), t_runs_tail, Hfs.
Qed.

Lemma t_Runs_stuck (fs : list (Test ())) w e : t_runs fs w = Err e → t_Runs fs w = Err e.
Proof. intros H. unfold t_Runs. by rewrite (bind_err _ _ _ _ H). Qed.

(** A parent with one subtest fares as that subtest. *)
Lemma t_Runs_single (f : Test ()) w : t_Runs [f] w = f w.
Proof.
  destruct (f w) as [[[] w1]|[what w1|what|c]] eqn:E.
  - by rewrite (t_Runs_cons_ok _ _ _ _ E).
  - by rewrite (t_Runs_cons_fatal _ _ _ _ _ [] w1 E).
  - by rewrite (t_Runs_cons_stuck _ _ _ _ E).
  - by rewrite (t_Runs_cons_stuck _ _ _ _ E).
Qed.

(** A parent passes only if its first subtest passed. *)
Lemma t_Runs_cons_inv (f : Test ()) (fs : list (Test ())) w r :
  t_Runs (f :: fs) w = Ok r → ∃ w1, f w = Ok ((), w1) ∧ t_Runs fs w1 = Ok r.
Proof.
  destruct (f w) as [[[] w1]|[what w1|what|c]] eqn:Hf.
  - rewrite (t_Runs_cons_ok _ _ _ _ Hf). eauto.
  - destruct (t_runs fs w1) as [[ss w2]|e] eqn:Hfs.
    + by rewrite (t_Runs_cons_fatal _ _ _ _ _ _ _ Hf Hfs).
    + assert (H : t_runs (f :: fs) w = Err e).
      { cbn [t_runs]. by rewrite (bind_run _ _ _ _ _ (t_Run_fatal _ _ _ _ Hf)), t_runs_tail, Hfs. }
      unfold t_Runs. by rewrite (bind_err _ _ _ _ H).
  - by rewrite (t_Runs_cons_stuck _ _ _ _ Hf).
  - by rewrite (t_Runs_cons_stuck _ _ _ _ Hf).
Qed.

Lemma post_chat_run {pol : RoomPolicy} u name addr w ch cs' :
  CreateChat u name addr (sys_chats (w_sys w)) = Ok (ch, cs') →
  HttpPostChat u name addr w = Ok (Ok ch, with_chats cs' w).
Proof. intros H. unfold HttpPostChat, mbind, test_bind, server. simpl. by rewrite H. Qed.


(** ** Test code that ends

    [ends m]: on every world, [m] returns or stops with [t.Fatal]; it
    neither panics nor waits in a read.  Only [ReadJSON] can block and
    only [go_panic] panics, so everything else ends; a parent runs all
    its subtests when each of them ends. *)
Definition ends {A} (m : Test A) : Prop :=
  ∀ w, match m w with Err (TPanic _) | Err (TBlocked _) => False | _ => True end.

Lemma ends_ret {A} (a : A) : ends (mret a).
Proof. intros w. done. Qed.

Lemma ends_fatal {A} what : ends (fatal (A := A) what).
Proof. intros w. done. Qed.

Lemma ends_bind {A B} (m : Test A) (f : A → Test B) :
  ends m → (∀ a, ends (f a)) → ends (m ≫= f).
Proof.
  intros Hm Hf w. specialize (Hm w). unfold mbind, test_bind.
  destruct (m w) as [[a w1]|]; [apply Hf|done].
Qed.

Lemma ends_defer {A} (d : Test ()) (m : Test A) : ends d → ends m → ends (defer d m).
Proof.
  intros Hd Hm w. specialize (Hm w). unfold defer.
  destruct (m w) as [[a w1]|[what w1| |]]; try done; specialize (Hd w1); by destruct (d w1) as [[[] w2]|].
Qed.

Lemma ends_expect_ok {E A} (show : E → string) (r : result E A) : ends (expect_ok show r).
Proof. destruct r; intros w; done. Qed.

Lemma ends_expect b what : ends (expect b what).
Proof. destruct b; intros w; done. Qed.

(** The subtests of a parent that all end run to the last one. *)
Lemma t_runs_ends (fs : list (Test ())) :
  Forall ends fs → ∀ w, ∃ ss w', t_runs fs w = Ok (ss, w').
Proof.
  induction 1 as [|f fs Hf _ IH]; intros w; [by exists [], w|].
  specialize (Hf w). destruct (f w) as [[[] w1]|[what w1| |]] eqn:E; try done.
  - rewrite (t_runs_cons_ok _ _ _ w1 E). apply IH.
  - destruct (IH w1) as (ss & w2 & H). exists (what :: ss), w2. exact (t_runs_cons_fatal _ _ _ _ _ _ _ E H).
Qed.

(** A test function whose subtests all end ends too. *)
Lemma ends_t_Runs (fs : list (Test ())) : Forall ends fs → ends (t_Runs fs).
Proof.
  intros Hfs w. destruct (t_runs_ends fs Hfs w) as (ss & w' & H).
  unfold t_Runs. rewrite (bind_run _ _ _ _ _ H). by destruct ss.
Qed.

Create HintDb test_ends discriminated.
#[export] Hint Resolve ends_ret ends_fatal ends_expect_ok ends_expect : test_ends.

Ltac solve_ends :=
  repeat (intros || apply ends_bind || apply ends_defer || case_match);
  eauto with test_ends.

Section Ends.
Context {pol : RoomPolicy}.

Lemma ends_server ev : ends (server ev).
Proof. intros w. unfold server. by destruct (sys_step _ _ _). Qed.
#[local] Hint Resolve ends_server : test_ends.

Lemma ends_get_page {A} (f : World → A) : ends (λ w, Ok (f w, w)).
Proof. intros w. done. Qed.
#[local] Hint Resolve ends_get_page : test_ends.

Lemma ends_set_cursor c i : ends (set_cursor c i).
Proof. intros w. done. Qed.
#[local] Hint Resolve ends_set_cursor : test_ends.

Lemma ends_HttpPostChat u name addr : ends (HttpPostChat u name addr).
Proof. unfold HttpPostChat. solve_ends. Qed.

Lemma ends_HttpDeleteChat u addr : ends (HttpDeleteChat u addr).
Proof. unfold HttpDeleteChat. solve_ends. Qed.

Lemma ends_Dial session u k : ends (Dial session u k).
Proof. unfold Dial. solve_ends. Qed.

Lemma ends_WriteJSON c f : ends (WriteJSON c f).
Proof. unfold WriteJSON. solve_ends. Qed.

Lemma ends_CloseConn c : ends (CloseConn c).
Proof. unfold CloseConn. solve_ends. Qed.
End Ends.

#[export] Hint Resolve ends_server ends_get_page ends_set_cursor ends_HttpPostChat ends_HttpDeleteChat
  ends_Dial ends_WriteJSON ends_CloseConn : test_ends.
