(* ===== verification/HarnessFacts.v ===== *)
(** * HarnessFacts: what each operation of the test client does

    The websocket operations of [Harness] ([Dial], [WriteJSON], [ReadJSON],
    [CloseConn]) run on a world whose relay state satisfies the invariant
    [sys_inv] of [LifecycleFacts]; each keeps it, since each is a sequence
    of [sys_step]s.  [open_conn w c u k] says that [c] is a connection of
    user [u] in room [k] that is reading and whose transport works: by the
    invariant it is then a member of room [k], so every send to [k] reaches
    its queue.  The lemmas here say, for each operation, which connections
    it opens or closes, which queues it extends and what it leaves as it
    was; the scenario proofs chain them. *)

From S2P Require Import Prelude Wire Likes Persister Registry Broadcaster Router Chats Lifecycle LifecycleFacts Harness.


Definition open_conn (w : World) (c : ConnId) (u k : Z) : Prop :=
  sys_conns (w_sys w) !! c = Some (mkConnInfo u k (Some u) Reading) ∧ c ∉ dead_of (w_sys w).

Definition db_of (w : World) : MemDB := srv_db (sys_srv (w_sys w)).

(** The client has read every frame of connection [c]. *)
Definition caught_up (w : World) (c : ConnId) : Prop :=
  w_cursor w !!! c = length (out_of (w_sys w) !!! c).

(** [w'] differs from [w] at most in the connection ids used: no chat,
    no stored row, no connection, no queue and no read position changed. *)
Definition same_view (w w' : World) : Prop :=
  sys_chats (w_sys w') = sys_chats (w_sys w) ∧ sys_srv (w_sys w') = sys_srv (w_sys w) ∧
  sys_conns (w_sys w') = sys_conns (w_sys w) ∧ w_cursor w' = w_cursor w.

(** No connection of the server is open: every one has been closed. *)
Definition all_closed (w : World) : Prop :=
  map_Forall (λ _ ci, ci_state ci = Closed) (sys_conns (w_sys w)).

Section Facts.
Context {pol : RoomPolicy}.

(** ** Running the server *)

Lemma server_run ev w :
  server ev w = Ok ((sys_step room_policy ev (w_sys w)).2,
                    mkWorld (sys_step room_policy ev (w_sys w)).1 (w_cursor w)).
Proof. unfold server. by destruct (sys_step _ _ _). Qed.

Lemma server_inv ev (w : World) :
  sys_inv (w_sys w) → sys_inv (sys_step room_policy ev (w_sys w)).1.
Proof. apply sys_step_inv. Qed.

Lemma fresh_conn (s : TSys) : sys_inv s → sys_conns s !! sys_next s = None.
Proof.
  intros Hinv. apply not_elem_of_dom. intros Hin. apply (inv_fresh _ Hinv) in Hin. lia.
Qed.

Lemma fresh_live (s : TSys) : sys_inv s → sys_next s ∉ dead_of s.
Proof. intros Hinv Hin. apply (inv_dead_fresh _ Hinv) in Hin. lia. Qed.

(** ** [Dial] *)

Lemma dial_run u k ch (w : World) :
  sys_inv (w_sys w) → LookupChat k (sys_chats (w_sys w)) = Ok ch → room_policy u k = true →
  ∃ w', Dial u u k w = Ok (Ok (sys_next (w_sys w)), w') ∧ sys_inv (w_sys w') ∧
    sys_conns (w_sys w') =
      <[sys_next (w_sys w) := mkConnInfo u k (Some u) Reading]> (sys_conns (w_sys w)) ∧
    open_conn w' (sys_next (w_sys w)) u k ∧ caught_up w' (sys_next (w_sys w)) ∧
    w_cursor w' = <[sys_next (w_sys w) := 0]> (w_cursor w) ∧
    out_of (w_sys w') = out_of (w_sys w) ∧ sys_next (w_sys w') = S (sys_next (w_sys w)) ∧
    sys_chats (w_sys w') = sys_chats (w_sys w) ∧ db_of w' = db_of w ∧
    (∀ d u' k', open_conn w d u' k' → open_conn w' d u' k').
Proof.
  intros Hinv Hk Hpol. destruct w as [s cur]; simpl in *.
  pose proof (fresh_conn s Hinv) as Hfresh. pose proof (fresh_live s Hinv) as Hlive.
  set (c := sys_next s). set (ci := mkConnInfo u k (Some u) Connecting).
  set (s1 := mkSys (sys_chats s) (sys_srv s) (<[c := ci]> (sys_conns s)) (S c) (sys_log s)).
  set (s2 := mkSys (sys_chats s)
      (mkServer (bc_join k c (srv_bc (sys_srv s))) (srv_db (sys_srv s)))
      (<[c := set_state Joined ci]> (sys_conns s)) (S c) (sys_log s ++ [OpJoin k c])).
  set (s3 := mkSys (sys_chats s)
      (mkServer (bc_join k c (srv_bc (sys_srv s))) (srv_db (sys_srv s)))
      (<[c := mkConnInfo u k (Some u) Reading]> (sys_conns s)) (S c) (sys_log s ++ [OpJoin k c])).
  assert (Hp1 : sys_step room_policy (EvAccept u k (Some u)) s = (s1, OutConn c)) by done.
  assert (Hp2 : sys_step room_policy (EvHandshake c) s1 = (s2, OutConn c)).
  { cbn. rewrite lookup_insert_eq, decide_True by done.
    unfold handshake_check, check. cbn. rewrite bool_decide_eq_true_2 by done.
    cbn. rewrite Hk. cbn. rewrite Hpol. cbn. by rewrite insert_insert_eq. }
  assert (Hp3 : sys_step room_policy (EvStartReading c) s2 = (s3, OutOk)).
  { unfold sys_step, transition, s2. cbn [sys_conns]. rewrite lookup_insert_eq. cbn. rewrite decide_True by done. unfold set_conns. cbn. by rewrite insert_insert_eq. }
  assert (Hinv3 : sys_inv s3).
  { pose proof (sys_step_inv room_policy (EvAccept u k (Some u)) _ Hinv) as H1. rewrite Hp1 in H1. cbn [fst] in H1.
    pose proof (sys_step_inv room_policy (EvHandshake c) _ H1) as H2. rewrite Hp2 in H2. cbn [fst] in H2.
    pose proof (sys_step_inv room_policy (EvStartReading c) _ H2) as H3. by rewrite Hp3 in H3. }
  exists (mkWorld s3 (<[c := 0]> cur)). split.
  { unfold Dial.
    rewrite (bind_run _ _ _ (OutConn c) (mkWorld s1 cur)) by (rewrite server_run; cbn [w_sys w_cursor]; rewrite Hp1; done).
    rewrite (bind_run _ _ _ (OutConn c) (mkWorld s2 cur)) by (rewrite server_run; cbn [w_sys w_cursor]; rewrite Hp2; done).
    rewrite (bind_run _ _ _ OutOk (mkWorld s3 cur)) by (rewrite server_run; cbn [w_sys w_cursor]; rewrite Hp3; done).
    done. }
  split; [done|]. unfold open_conn, caught_up, out_of, dead_of, db_of. simpl.
  split_and!; try done.
  - by rewrite lookup_insert_eq.
  - rewrite lookup_total_insert_eq. cbn [w_cursor].
    pose proof (inv_out_fresh _ Hinv c (le_n _)) as Hq. unfold out_of in Hq. by rewrite Hq.
  - intros d u' k' [Hd Hdead]. split; [|done].
    rewrite lookup_insert_ne; [done|]. intros <-. unfold c in Hd. congruence.
Qed.

(** A dial that the room policy refuses: the handshake fails with
    [Unauthorized], the connection is dropped before it joins the room, and
    the client gets the handshake error. *)
Lemma dial_refused u k ch (w : World) :
  sys_inv (w_sys w) → LookupChat k (sys_chats (w_sys w)) = Ok ch → room_policy u k = false →
  ∃ w', Dial u u k w = Ok (Err (HandshakeError Unauthorized), w') ∧ sys_inv (w_sys w') ∧
    same_view w w'.
Proof.
  intros Hinv Hk Hpol. destruct w as [s cur]; simpl in *.
  set (c := sys_next s). set (ci := mkConnInfo u k (Some u) Connecting).
  set (s1 := mkSys (sys_chats s) (sys_srv s) (<[c := ci]> (sys_conns s)) (S c) (sys_log s)).
  set (s2 := set_conns (delete c (<[c := ci]> (sys_conns s))) s1).
  assert (Hp1 : sys_step room_policy (EvAccept u k (Some u)) s = (s1, OutConn c)) by done.
  assert (Hp2 : sys_step room_policy (EvHandshake c) s1 = (s2, OutErr (HandshakeError Unauthorized))).
  { cbn. rewrite lookup_insert_eq, decide_True by done.
    unfold handshake_check, check. cbn. rewrite bool_decide_eq_true_2 by done.
    cbn. rewrite Hk. cbn. by rewrite Hpol. }
  exists (mkWorld s2 cur). split.
  - unfold Dial.
    rewrite (bind_run _ _ _ (OutConn c) (mkWorld s1 cur)) by (rewrite server_run; cbn [w_sys w_cursor]; rewrite Hp1; done).
    rewrite (bind_run _ _ _ (OutErr (HandshakeError Unauthorized)) (mkWorld s2 cur))
      by (rewrite server_run; cbn [w_sys w_cursor]; rewrite Hp2; done).
    done.
  - split.
    + pose proof (sys_step_inv room_policy (EvAccept u k (Some u)) _ Hinv) as H1. rewrite Hp1 in H1.
      cbn [fst] in H1. pose proof (sys_step_inv room_policy (EvHandshake c) _ H1) as H2.
      by rewrite Hp2 in H2.
    + split_and!; try done. cbn.
      rewrite delete_insert_eq. apply delete_id. by apply fresh_conn.
Qed.

(** ** [WriteJSON] *)

(** A frame that [handle] accepts on an open connection: the server state
    becomes the handled one, nothing else changes. *)
Lemma write_run c u k f (w : World) srv' :
  sys_inv (w_sys w) → open_conn w c u k → handle k u f (sys_srv (w_sys w)) = Ok srv' →
  let s' := mkSys (sys_chats (w_sys w)) srv' (sys_conns (w_sys w)) (sys_next (w_sys w))
                  (sys_log (w_sys w)) in
  WriteJSON c f w = Ok ((), mkWorld s' (w_cursor w)) ∧ sys_inv s'.
Proof.
  intros Hinv [Hc _] Hh s'.
  assert (Hp : sys_step room_policy (EvFrame c f) (w_sys w) = (s', OutOk)).
  { cbn. rewrite Hc, decide_True by done. cbn. unfold read_frame. by rewrite Hh. }
  split.
  - unfold WriteJSON. rewrite (bind_run _ _ _ OutOk (mkWorld s' (w_cursor w))); [done|].
    by rewrite server_run, Hp.
  - pose proof (sys_step_inv room_policy (EvFrame c f) _ Hinv) as H. by rewrite Hp in H.
Qed.

(** A send to room [k] appends the payload to the queue of every open
    connection of the room, and keeps every connection open. *)
Lemma send_open_queue (w : World) k (p : WebsocketParams) d u :
  sys_inv (w_sys w) → open_conn w d u k →
  b_out (send k p (srv_bc (sys_srv (w_sys w)))) !!! d = out_of (w_sys w) !!! d ++ [p].
Proof.
  intros Hinv [Hd Hdead]. rewrite send_queue, decide_True; [done|]. split; [|done].
  by apply (inv_live _ Hinv d _ Hd); [right|].
Qed.

Lemma send_keeps_open (w : World) srv' k (p : WebsocketParams) d u k' :
  srv_bc srv' = send k p (srv_bc (sys_srv (w_sys w))) → open_conn w d u k' →
  open_conn (mkWorld (mkSys (sys_chats (w_sys w)) srv' (sys_conns (w_sys w)) (sys_next (w_sys w))
                            (sys_log (w_sys w))) (w_cursor w)) d u k'.
Proof.
  intros Hbc [Hd Hdead]. split; [done|]. unfold dead_of in *. simpl. by rewrite Hbc, send_dead.
Qed.

(** The router on a message of the room and user of the connection with
    a uuid new to the store: stored with the next id, broadcast enriched. *)
Lemma handle_fresh_message k u (m : Message) (srv : Server GRegistry MemDB) :
  Chatid m = Some k → Wire.Userid m = Some u → UUID m ∉ map UUID (db_messages (srv_db srv)) →
  handle k u (event_frame (EvMessage m)) srv =
    Ok (mkServer (send k (event_frame (EvMessage (with_id (db_next (srv_db srv)) m))) (srv_bc srv))
                 (mkMemDB (db_messages (srv_db srv) ++ [with_id (db_next (srv_db srv)) m])
                          (db_next (srv_db srv) + 1) (db_likes (srv_db srv)))).
Proof.
  intros Hk Hu Hf. rewrite handle_message_eq, !decide_True by done. cbn. unfold mem_store_message.
  by rewrite decide_False.
Qed.

(** A message of the connection's room and user with a fresh uuid: it is
    stored with the next id, and the enriched frame reaches every open
    connection of the room. *)
Lemma write_message_run c u k (m : Message) (w : World) :
  sys_inv (w_sys w) → open_conn w c u k → Chatid m = Some k → Wire.Userid m = Some u →
  UUID m ∉ map UUID (db_messages (db_of w)) →
  ∃ w', WriteJSON c (event_frame (EvMessage m)) w = Ok ((), w') ∧ sys_inv (w_sys w') ∧
    sys_conns (w_sys w') = sys_conns (w_sys w) ∧ (0 < db_next (db_of w))%Z ∧
    w_cursor w' = w_cursor w ∧ sys_chats (w_sys w') = sys_chats (w_sys w) ∧
    sys_next (w_sys w') = sys_next (w_sys w) ∧
    db_of w' = mkMemDB (db_messages (db_of w) ++ [with_id (db_next (db_of w)) m])
                       (db_next (db_of w) + 1) (db_likes (db_of w)) ∧
    (∀ d u' k', open_conn w d u' k' → open_conn w' d u' k') ∧
    (∀ d u', open_conn w d u' k → out_of (w_sys w') !!! d =
       out_of (w_sys w) !!! d ++ [event_frame (EvMessage (with_id (db_next (db_of w)) m))]).
Proof.
  intros Hinv Hc Hk Hu Hfresh.
  set (f := event_frame (EvMessage (with_id (db_next (db_of w)) m))).
  set (db' := mkMemDB (db_messages (db_of w) ++ [with_id (db_next (db_of w)) m])
                      (db_next (db_of w) + 1) (db_likes (db_of w))).
  set (srv' := mkServer (send k f (srv_bc (sys_srv (w_sys w)))) db').
  assert (Hh : handle k u (event_frame (EvMessage m)) (sys_srv (w_sys w)) = Ok srv')
    by (by apply handle_fresh_message).
  destruct (write_run c u k _ w srv' Hinv Hc Hh) as [Hrun Hinv'].
  eexists. split; [exact Hrun|]. split; [done|]. split; [done|]. split.
  { assert (Hdb : memdb_wf (db_of w)) by apply (inv_db _ Hinv). apply Hdb. }
  split_and!; try done.
  - intros d u' k'. by apply (send_keeps_open w srv' k f).
  - intros d u'. by apply send_open_queue.
Qed.

(** A like frame: the (message, user) row is toggled and the frame itself
    reaches every open connection of the room. *)
Lemma write_like_run c u k (mid : string) (w : World) :
  sys_inv (w_sys w) → open_conn w c u k →
  ∃ w', WriteJSON c (like_frame mid) w = Ok ((), w') ∧ sys_inv (w_sys w') ∧
    sys_conns (w_sys w') = sys_conns (w_sys w) ∧
    w_cursor w' = w_cursor w ∧ sys_chats (w_sys w') = sys_chats (w_sys w) ∧
    sys_next (w_sys w') = sys_next (w_sys w) ∧
    db_of w' = mkMemDB (db_messages (db_of w)) (db_next (db_of w))
                       (toggle_like (mkDBLike mid u) (db_likes (db_of w))) ∧
    (∀ d u' k', open_conn w d u' k' → open_conn w' d u' k') ∧
    (∀ d u', open_conn w d u' k → out_of (w_sys w') !!! d = out_of (w_sys w) !!! d ++ [like_frame mid]).
Proof.
  intros Hinv Hc.
  set (srv' := mkServer (send k (like_frame mid) (srv_bc (sys_srv (w_sys w))))
                 (mkMemDB (db_messages (db_of w)) (db_next (db_of w))
                          (toggle_like (mkDBLike mid u) (db_likes (db_of w))))).
  assert (Hh : handle k u (like_frame mid) (sys_srv (w_sys w)) = Ok srv').
  { by rewrite (handle_like_eq _ _ _ mid). }
  destruct (write_run c u k _ w srv' Hinv Hc Hh) as [Hrun Hinv'].
  eexists. split; [exact Hrun|]. split_and!; try done.
  - intros d u' k'. by apply (send_keeps_open w srv' k (like_frame mid)).
  - intros d u'. by apply send_open_queue.
Qed.

(** ** [ReadJSON] *)

Lemma read_run c (w : World) f :
  out_of (w_sys w) !!! c !! (w_cursor w !!! c) = Some f →
  ReadJSON c w = Ok (f, mkWorld (w_sys w) (<[c := S (w_cursor w !!! c)]> (w_cursor w))).
Proof. intros Hf. unfold ReadJSON. by rewrite Hf. Qed.

(** A client that has read everything waits for ever. *)
Lemma read_blocked c (w : World) : caught_up w c → ReadJSON c w = Err (TBlocked c).
Proof.
  unfold caught_up, ReadJSON. intros ->. by rewrite lookup_ge_None_2 by lia.
Qed.

(** A frame the router rejects on an open connection: the error is logged
    and nothing changes. *)
Lemma write_rejected_run c u k f (w : World) e :
  open_conn w c u k → handle k u f (sys_srv (w_sys w)) = Err e → WriteJSON c f w = Ok ((), w).
Proof.
  intros [Hc _] Hh.
  assert (Hp : sys_step room_policy (EvFrame c f) (w_sys w) = (w_sys w, OutErr e)).
  { cbn. rewrite Hc, decide_True by done. cbn. unfold read_frame. rewrite Hh. by destruct (w_sys w). }
  unfold WriteJSON. rewrite (bind_run _ _ _ (OutErr e) w); [done|]. rewrite server_run, Hp.
  by destruct w.
Qed.

(** The router refuses a message whose uuid the store already holds. *)
Lemma handle_dup_uuid k u (m : Message) (srv : Server GRegistry MemDB) :
  Chatid m = Some k → Wire.Userid m = Some u → UUID m ∈ map UUID (db_messages (srv_db srv)) →
  handle k u (event_frame (EvMessage m)) srv = Err PersistenceError.
Proof.
  intros Hk Hu Hf. rewrite handle_message_eq, !decide_True by done. cbn. unfold mem_store_message.
  by rewrite decide_True.
Qed.

(** ** [CloseConn] *)

(** Closing an open connection: it leaves its room and its transport is
    closed; the other connections stay open and no queue changes. *)
Lemma close_run c u k (w : World) :
  sys_inv (w_sys w) → open_conn w c u k →
  ∃ w', CloseConn c w = Ok ((), w') ∧ sys_inv (w_sys w') ∧
    sys_conns (w_sys w') = <[c := mkConnInfo u k (Some u) Closed]> (sys_conns (w_sys w)) ∧
    w_cursor w' = w_cursor w ∧ sys_chats (w_sys w') = sys_chats (w_sys w) ∧
    sys_next (w_sys w') = sys_next (w_sys w) ∧ db_of w' = db_of w ∧
    out_of (w_sys w') = out_of (w_sys w) ∧
    (∀ d u' k', d ≠ c → open_conn w d u' k' → open_conn w' d u' k').
Proof.
  intros Hinv [Hc Hlive]. destruct w as [s cur]; simpl in *.
  set (ci := mkConnInfo u k (Some u) Reading).
  set (s1 := set_conns (<[c := set_state Closing ci]> (sys_conns s)) s).
  set (s2 := mkSys (sys_chats s)
      (mkServer (bc_leave k c (srv_bc (sys_srv s))) (srv_db (sys_srv s)))
      (<[c := set_state Closed ci]> (sys_conns s)) (sys_next s) (sys_log s ++ [OpLeave k c])).
  assert (Hp1 : sys_step room_policy (EvClose c) s = (s1, OutOk)).
  { unfold sys_step. rewrite Hc, decide_False by done. unfold transition.
    by rewrite Hc, decide_True. }
  assert (Hp2 : sys_step room_policy (EvFinish c) s1 = (s2, OutOk)).
  { unfold sys_step, transition, s1. cbn [sys_conns set_conns]. rewrite lookup_insert_eq.
    cbn. rewrite decide_True by done. unfold set_conns. cbn. by rewrite insert_insert_eq. }
  assert (Hinv2 : sys_inv s2).
  { pose proof (sys_step_inv room_policy (EvClose c) _ Hinv) as H1. rewrite Hp1 in H1.
    cbn [fst] in H1. pose proof (sys_step_inv room_policy (EvFinish c) _ H1) as H2.
    by rewrite Hp2 in H2. }
  exists (mkWorld s2 cur). split.
  { unfold CloseConn.
    rewrite (bind_run _ _ _ OutOk (mkWorld s1 cur)) by (rewrite server_run; cbn [w_sys w_cursor]; rewrite Hp1; done).
    rewrite (bind_run _ _ _ OutOk (mkWorld s2 cur)) by (rewrite server_run; cbn [w_sys w_cursor]; rewrite Hp2; done).
    done. }
  split; [done|]. unfold open_conn, out_of, dead_of, db_of. simpl. split_and!; try done.
  intros d u' k' Hne [Hd Hdead]. rewrite lookup_insert_ne by done. split; [done|]. set_solver.
Qed.

(** ** [WSSendAndVerify] *)


Lemma read_next_run c (w : World) f :
  w_cursor w !!! c = length (out_of (w_sys w) !!! c) - 1 →
  last (out_of (w_sys w) !!! c) = Some f →
  ReadJSON c w = Ok (f, mkWorld (w_sys w) (<[c := S (w_cursor w !!! c)]> (w_cursor w))).
Proof.
  intros Hcur Hl. apply read_run. rewrite last_lookup in Hl. rewrite Hcur, <-Hl. f_equal. lia.
Qed.

(** A message of the connection's user and room with a fresh uuid, sent by
    a client that has read everything so far: the frame read back is the
    enriched message, the check passes, and the client has again read
    everything. *)
Lemma send_verify_run c u k (m : Message) (w : World) :
  sys_inv (w_sys w) → open_conn w c u k → caught_up w c →
  Chatid m = Some k → Wire.Userid m = Some u →
  UUID m ∉ map UUID (db_messages (db_of w)) →
  ∃ w', WSSendAndVerify c (event_frame (EvMessage m)) w =
          Ok (event_frame (EvMessage (with_id (db_next (db_of w)) m)), w') ∧
    sys_inv (w_sys w') ∧ sys_conns (w_sys w') = sys_conns (w_sys w) ∧ caught_up w' c ∧
    sys_chats (w_sys w') = sys_chats (w_sys w) ∧ sys_next (w_sys w') = sys_next (w_sys w) ∧
    db_of w' = mkMemDB (db_messages (db_of w) ++ [with_id (db_next (db_of w)) m])
                       (db_next (db_of w) + 1) (db_likes (db_of w)) ∧
    (∀ d u' k', open_conn w d u' k' → open_conn w' d u' k') ∧
    (∀ d, d ≠ c → w_cursor w' !!! d = w_cursor w !!! d) ∧
    (∀ d u', open_conn w d u' k → out_of (w_sys w') !!! d =
       out_of (w_sys w) !!! d ++ [event_frame (EvMessage (with_id (db_next (db_of w)) m))]).
Proof.
  intros Hinv Hc Hup Hk Hu Hfresh.
  destruct (write_message_run c u k m w Hinv Hc Hk Hu Hfresh)
    as (w1 & Hw & Hinv1 & Hcn1 & Hpos & Hcur1 & Hch1 & Hnx1 & Hdb1 & Hopen1 & Hout1).
  set (f := event_frame (EvMessage (with_id (db_next (db_of w)) m))).
  assert (Hq : out_of (w_sys w1) !!! c = out_of (w_sys w) !!! c ++ [f]) by (by eapply Hout1).
  exists (mkWorld (w_sys w1) (<[c := S (w_cursor w1 !!! c)]> (w_cursor w1))).
  split.
  { unfold WSSendAndVerify. rewrite (bind_run _ _ _ () w1) by done.
    rewrite (bind_run _ _ _ f (mkWorld (w_sys w1) (<[c := S (w_cursor w1 !!! c)]> (w_cursor w1)))).
    2:{ apply read_next_run.
        - rewrite Hq, Hcur1, length_app. unfold caught_up in Hup. simpl. lia.
        - by rewrite Hq, last_snoc. }
    unfold expect, echo_ok. cbn. rewrite bool_decide_eq_true_2 by (split_and!; done).
    reflexivity. }
  unfold caught_up in *. simpl. split_and!; try done.
  - rewrite lookup_total_insert_eq, Hq, Hcur1, Hup, length_app. simpl. lia.
  - intros d Hne. by rewrite lookup_total_insert_ne, Hcur1.
Qed.

(** A dial leaves what the client has read of the other connections. *)
Lemma caught_up_other (w w' : World) c d :
  w_cursor w' = <[c := 0]> (w_cursor w) → out_of (w_sys w') = out_of (w_sys w) → d ≠ c →
  caught_up w d → caught_up w' d.
Proof. unfold caught_up. intros Hc Ho Hne Hup. by rewrite Hc, Ho, lookup_total_insert_ne. Qed.

(** ** HTTP reads of the websocket tests *)

Lemma get_messages_run k (w : World) :
  HttpGetMessages k w = Ok (filter (λ m, Chatid m = Some k) (db_messages (db_of w)), w).
Proof. reflexivity. Qed.

Lemma get_chat_by_address_run addr (w : World) :
  HttpGetChatByAddress addr w = Ok (LookupChatByAddress addr (sys_chats (w_sys w)), w).
Proof. reflexivity. Qed.

Lemma http_ok_run {A} (a : A) (w : World) : http_ok (Ok a) w = Ok (a, w).
Proof. reflexivity. Qed.

Lemma ws_ok_run {A} (a : A) (w : World) : ws_ok (Ok a) w = Ok (a, w).
Proof. reflexivity. Qed.

(** The chat endpoints only replace the chat store, which keeps the
    relay's invariant when the new store is well formed. *)
Lemma with_chats_inv (w : World) cs :
  sys_inv (w_sys w) → chats_wf cs → sys_inv (w_sys (with_chats cs w)).
Proof. intros [] Hcs. by split. Qed.

(** ** Connections opened and closed again *)

Section Reopen.
Context (m : gmap ConnId ConnInfo).
Hypothesis Hm : map_Forall (λ _ ci, ci_state ci = Closed) m.

Lemma closed_reopen1 c (a b : ConnInfo) :
  ci_state b = Closed → map_Forall (λ _ ci, ci_state ci = Closed) (<[c := b]> (<[c := a]> m)).
Proof. intros Hb. rewrite insert_insert_eq. by apply map_Forall_insert_2. Qed.

Lemma closed_reopen2 c1 c2 (a1 b1 a2 b2 : ConnInfo) :
  c1 ≠ c2 → ci_state b1 = Closed → ci_state b2 = Closed →
  map_Forall (λ _ ci, ci_state ci = Closed) (<[c1 := b1]> (<[c2 := b2]> (<[c2 := a2]> (<[c1 := a1]> m)))).
Proof.
  intros Hne Hb1 Hb2. rewrite insert_insert_eq, (insert_insert_ne _ c2 c1) by done.
  rewrite insert_insert_eq. apply map_Forall_insert_2; [done|]. by apply map_Forall_insert_2.
Qed.
End Reopen.

(** ** Worlds with the same view *)

Lemma same_view_db (w w' : World) : same_view w w' → db_of w' = db_of w.
Proof. intros (_ & Hs & _). unfold db_of. by rewrite Hs. Qed.

Lemma same_view_open (w w' : World) d u k : same_view w w' → open_conn w d u k → open_conn w' d u k.
Proof. intros (_ & Hs & Hc & _) [Hd Hl]. unfold open_conn, dead_of. by rewrite Hc, Hs. Qed.

Lemma same_view_closed (w w' : World) : same_view w w' → all_closed w → all_closed w'.
Proof. intros (_ & _ & Hc & _). unfold all_closed. by rewrite Hc. Qed.

(** With no connection open, no room has a member. *)
Lemma all_closed_no_members (w : World) k :
  sys_inv (w_sys w) → all_closed w → Members k (reg_of (w_sys w)) = [].
Proof.
  intros Hinv Hcl. destruct (Members k _) as [|x l] eqn:E; [done|]. exfalso.
  assert (Hx : x ∈ Members k (reg_of (w_sys w))) by (rewrite E; set_solver).
  destruct (inv_members _ Hinv k x Hx) as (ci & Hci & _ & Hst).
  rewrite (Hcl x ci Hci) in Hst. set_solver.
Qed.
End Facts.
