(* ===== verification/Delivery.v ===== *)
(** * Delivery: what the members of a room receive, and the likes of every state

    The specification's first testable property (section 8) is that a
    valid message frame sent on a connection of room [R] reaches every
    connection joined to [R], the sender included, with its assigned id;
    section 5 adds that the frames of one connection are handled in order
    and that a member's outbound queue keeps the order of the sends to it.
    Here several clients write message frames, built as the websocket
    tests build them ([message_frame]), in one interleaving ([WriteAll]):
    every open member of the room receives all of them, enriched, in the
    order the server handled them, so two members see the same sequence
    and each sender's messages arrive in the order it wrote them.  A
    connection closed with [CloseConn] receives nothing more.  Runs that
    mix message and like frames ([Action]) are delivered the same way,
    and the likes table follows the abstract toggles of the run.  Finally,
    every reachable state of the relay keeps at most one like row per
    (message, user) pair. *)

From S2P Require Import Prelude Wire Likes Persister Registry Broadcaster Router Chats Lifecycle LifecycleFacts Harness HarnessFacts.

(** One write of a message frame by a test client: the connection, its
    user, and the uuid and text of the message. *)
Record Post := mkPost {
  p_conn : ConnId;
  p_user : Z;
  p_uuid : string;
  p_text : string
}.

(** The frame a post writes to room [k], as [message_frame] builds it. *)
Definition post_write (k : Z) (p : Post) : ConnId * WebsocketParams :=
  (p_conn p, message_frame (p_uuid p) k (p_user p) (p_text p)).

Definition post_msg (k : Z) (p : Post) : Message :=
  mkMessage (p_uuid p) (Some k) (Some (p_user p)) (Some (p_text p)) 0.

(** The frames the room's members receive for a run of posts, the first
    stored with id [n]. *)
Fixpoint delivered (k n : Z) (ps : list Post) : list WebsocketParams :=
  match ps with
  | [] => []
  | p :: ps' => event_frame (EvMessage (with_id n (post_msg k p))) :: delivered k (n + 1) ps'
  end.

(** One write of a client to room [k]: a message (a [Post]) or the like
    frame of the like test, [like_frame messageID], by connection [c] of
    user [u]. *)
Inductive Action :=
| APost (p : Post)
| ALike (c : ConnId) (u : Z) (mid : string).

Definition act_conn (a : Action) : ConnId :=
  match a with APost p => p_conn p | ALike c _ _ => c end.

Definition act_user (a : Action) : Z :=
  match a with APost p => p_user p | ALike _ u _ => u end.

Definition act_write (k : Z) (a : Action) : ConnId * WebsocketParams :=
  match a with APost p => post_write k p | ALike c _ mid => (c, like_frame mid) end.

(** The posts of a run of actions. *)
Definition act_posts (acts : list Action) : list Post :=
  omap (λ a, match a with APost p => Some p | ALike _ _ _ => None end) acts.

(** The like rows a run of actions toggles, in order. *)
Definition act_likes (acts : list Action) : list DBLike :=
  omap (λ a, match a with APost _ => None | ALike _ u mid => Some (mkDBLike mid u) end) acts.

(** What each member of the room receives for a run of actions: the
    messages enriched with consecutive ids from [n], the like frames as
    they were sent. *)
Fixpoint received (k n : Z) (acts : list Action) : list WebsocketParams :=
  match acts with
  | [] => []
  | APost p :: acts' => event_frame (EvMessage (with_id n (post_msg k p))) :: received k (n + 1) acts'
  | ALike _ _ mid :: acts' => like_frame mid :: received k n acts'
  end.

(** The like rows of a relay state. *)
Definition relay_likes (s : TSys) : LikeTable := db_likes (srv_db (sys_srv s)).

(** A server after [TestWebsockets]'s setup: the chat [wstestchat]
    (id 1) exists, user 1 is connected on connection 0 and user 2 on
    connection 1. *)
Definition two_clients : World :=
  mkWorld (run (R := GRegistry) (D := MemDB) server_may_join
             [EvCreateChat 1%Z "Test Chat" "wstestchat";
              EvAccept 1%Z 1%Z (Some 1%Z); EvHandshake 0; EvStartReading 0;
              EvAccept 2%Z 1%Z (Some 2%Z); EvHandshake 1; EvStartReading 1]
             (init_sys empty_chats empty_db)).1 ∅.

(** Three posts of the two users, interleaved. *)
Definition three_posts : list Post :=
  [mkPost 0 1%Z "1" "henlo"; mkPost 1 2%Z "2" ":D"; mkPost 0 1%Z "3" "bye"].

(** The same server after three like frames on message 1: user 1 likes
    it, user 2 likes it, user 1 takes the like back. *)
Definition liked_sys : TSys :=
  (run server_may_join [EvFrame 0 (like_frame "1"); EvFrame 1 (like_frame "1");
                        EvFrame 0 (like_frame "1")] (w_sys two_clients)).1.

Section Relay.
Context {pol : RoomPolicy}.

(** Clients' writes in the order the server's read loops handle them. *)
Fixpoint WriteAll (ws : list (ConnId * WebsocketParams)) : Test () :=
  match ws with
  | [] => mret ()
  | (c, f) :: ws' => WriteJSON c f;; WriteAll ws'
  end.

(** The transport of connection [c] breaks (a closed socket or a write
    timeout on the server's side): the next write to it fails. *)
Definition BreakTransport (c : ConnId) : Test () :=
  _ ← server (EvTransportFail c); mret ().

(** ** Theorems *)

Lemma post_write_frame (k : Z) (p : Post) :
  post_write k p = (p_conn p, event_frame (EvMessage (post_msg k p))).
Proof. reflexivity. Qed.

Lemma write_all_cons c f ws (w w1 : World) :
  WriteJSON c f w = Ok ((), w1) → WriteAll ((c, f) :: ws) w = WriteAll ws w1.
Proof. intros H. simpl. by rewrite (bind_run _ _ _ _ _ H). Qed.

(** A uuid new to the store and different from the one just stored is
    still new. *)
Lemma fresh_after_store (db : MemDB) (m : Message) u n :
  u ∉ map UUID (db_messages db) → u ≠ UUID m →
  u ∉ map UUID (db_messages db ++ [with_id n m]).
Proof. rewrite fmap_app. simpl. set_solver. Qed.

Section Posts.
Variable k : Z.

Lemma write_all_run (ps : list Post) (w : World) :
  sys_inv (w_sys w) →
  Forall (λ p, open_conn w (p_conn p) (p_user p) k) ps →
  NoDup (map p_uuid ps) →
  Forall (λ p, p_uuid p ∉ map UUID (db_messages (db_of w))) ps →
  ∃ w', WriteAll (map (post_write k) ps) w = Ok ((), w') ∧ sys_inv (w_sys w') ∧
    (∀ d u' k', open_conn w d u' k' → open_conn w' d u' k') ∧
    (∀ d u', open_conn w d u' k →
       out_of (w_sys w') !!! d = out_of (w_sys w) !!! d ++ delivered k (db_next (db_of w)) ps).
Proof.
  revert w. induction ps as [|p ps IH]; intros w Hinv Hopen Hnd Hfresh.
  { exists w. split_and!; [done|done|done|]. intros d u' _. by rewrite app_nil_r. }
  apply Forall_cons in Hopen as [Hp Hopen]. apply Forall_cons in Hfresh as [Hfp Hfresh].
  apply NoDup_cons in Hnd as [Hnotin Hnd].
  destruct (write_message_run (p_conn p) (p_user p) k (post_msg k p) w Hinv Hp eq_refl eq_refl Hfp)
    as (w1 & Hw1 & Hinv1 & _ & _ & _ & _ & _ & Hdb1 & Hopen1 & Hout1).
  destruct (IH w1) as (w' & Hw' & Hinv' & Hopen' & Hout'); [done| |done| |].
  { eapply Forall_impl; [exact Hopen|]. intros q. apply Hopen1. }
  { rewrite Hdb1. apply Forall_forall. intros q Hq. apply fresh_after_store.
    - rewrite Forall_forall in Hfresh. by apply Hfresh.
    - intros Heq. apply Hnotin. simpl in Heq. rewrite <-Heq. by apply list_elem_of_fmap_2. }
  exists w'. split_and!; [|done| |].
  - simpl map. rewrite post_write_frame. by rewrite (write_all_cons _ _ _ _ _ Hw1).
  - intros d u' k' Hd. by apply Hopen', Hopen1.
  - intros d u' Hd. rewrite (Hout' d u' (Hopen1 _ _ _ Hd)), (Hout1 d u' Hd), Hdb1. simpl.
    by rewrite <-app_assoc.
Qed.
End Posts.

(** C20: message frames written by several clients of room [k], in any
    interleaving, each from the client's own user and with a new uuid,
    all reach every open connection of the room, the senders included:
    each member's queue grows by the same frames, each enriched with the
    id the store assigned, in the order the server handled them.  So two
    members observe the same sequence, and the messages of one sender
    arrive in the order it wrote them. *)
Theorem write_all_delivers (k : Z) (ps : list Post) (w : World) :
  sys_inv (w_sys w) →
  Forall (λ p, open_conn w (p_conn p) (p_user p) k) ps →
  NoDup (map p_uuid ps) →
  Forall (λ p, p_uuid p ∉ map UUID (db_messages (db_of w))) ps →
  ∃ w', WriteAll (map (post_write k) ps) w = Ok ((), w') ∧
    ∀ d u', open_conn w d u' k →
      open_conn w' d u' k ∧
      out_of (w_sys w') !!! d = out_of (w_sys w) !!! d ++ delivered k (db_next (db_of w)) ps.
Proof.
  intros Hinv Hopen Hnd Hfresh.
  destruct (write_all_run k ps w Hinv Hopen Hnd Hfresh) as (w' & Hw & _ & Hopen' & Hout).
  exists w'. split; [done|]. intros d u' Hd. split; [by apply Hopen'|]. by eapply Hout.
Qed.

(** ** A closed connection receives nothing *)

(** [WriteJSON] is one event of the server. *)
Lemma write_sys c f (w w' : World) :
  WriteJSON c f w = Ok ((), w') → w_sys w' = (sys_step room_policy (EvFrame c f) (w_sys w)).1.
Proof.
  unfold WriteJSON, mbind, test_bind. rewrite server_run. cbn. by intros [= <-].
Qed.

Lemma write_all_dead c ws (w w' : World) :
  c ∈ dead_of (w_sys w) → WriteAll ws w = Ok ((), w') →
  out_of (w_sys w') !!! c = out_of (w_sys w) !!! c.
Proof.
  revert w. induction ws as [|[d f] ws IH]; intros w Hd Hw; [by injection Hw as <-|].
  simpl in Hw. unfold mbind, test_bind at 1 in Hw.
  destruct (WriteJSON d f w) as [[[] w1]|] eqn:E; [|done].
  pose proof (write_sys d f w w1 E) as Hs.
  destruct (step_dead room_policy c (EvFrame d f) (w_sys w) Hd) as [Hd1 Hq1].
  rewrite <-Hs in Hd1, Hq1. rewrite <-Hq1. by apply IH.
Qed.

(** C21: a connection that has left its room receives no further
    broadcasts: after [CloseConn c], message frames that other clients of
    the room write, in any interleaving, leave [c]'s queue as it was, and
    still reach every other open connection of the room. *)
Theorem closed_conn_receives_nothing (k : Z) (c : ConnId) (u : Z) (ps : list Post) (w : World) :
  sys_inv (w_sys w) → open_conn w c u k →
  Forall (λ p, p_conn p ≠ c ∧ open_conn w (p_conn p) (p_user p) k) ps →
  NoDup (map p_uuid ps) →
  Forall (λ p, p_uuid p ∉ map UUID (db_messages (db_of w))) ps →
  ∃ w1 w2, CloseConn c w = Ok ((), w1) ∧ WriteAll (map (post_write k) ps) w1 = Ok ((), w2) ∧
    out_of (w_sys w2) !!! c = out_of (w_sys w) !!! c ∧
    ∀ d u', d ≠ c → open_conn w d u' k →
      out_of (w_sys w2) !!! d = out_of (w_sys w) !!! d ++ delivered k (db_next (db_of w)) ps.
Proof.
  intros Hinv Hc Hps Hnd Hfresh.
  destruct (close_run c u k w Hinv Hc)
    as (w1 & Hw1 & Hinv1 & Hcn1 & _ & _ & _ & Hdb1 & Hout1 & Hopen1).
  destruct (write_all_run k ps w1 Hinv1) as (w2 & Hw2 & _ & _ & Hout2); [|done| |].
  { eapply Forall_impl; [exact Hps|]. intros p [Hne Hp]. by apply Hopen1. }
  { by rewrite Hdb1. }
  exists w1, w2. split_and!; [done|done| |].
  - rewrite <-Hout1. apply (write_all_dead c (map (post_write k) ps) w1 w2); [|done].
    apply (inv_closed _ Hinv1 c (mkConnInfo u k (Some u) Closed)); [|done].
    by rewrite Hcn1, lookup_insert_eq.
  - intros d u' Hne Hd. rewrite (Hout2 d u' (Hopen1 d u' k Hne Hd)), Hout1, Hdb1. done.
Qed.

(** ** Liking twice *)

Lemma world_likes_wf (w : World) : sys_inv (w_sys w) → like_table_wf (db_likes (db_of w)).
Proof. intros Hinv. apply (inv_db _ Hinv). Qed.

(** C24: the specification's open question on double-liking, as the
    server answers it: a client that sends the like frame of the test
    twice leaves the [likes] table as it was (up to the order of rows),
    and every open member of the room receives both frames verbatim, in
    order. *)
Theorem double_like_restores (k : Z) (c : ConnId) (u : Z) (mid : string) (w : World) :
  sys_inv (w_sys w) → open_conn w c u k →
  ∃ w1 w2, WriteJSON c (like_frame mid) w = Ok ((), w1) ∧
    WriteJSON c (like_frame mid) w1 = Ok ((), w2) ∧
    db_likes (db_of w2) ≡ₚ db_likes (db_of w) ∧
    ∀ d u', open_conn w d u' k →
      out_of (w_sys w2) !!! d = out_of (w_sys w) !!! d ++ [like_frame mid; like_frame mid].
Proof.
  intros Hinv Hc.
  destruct (write_like_run c u k mid w Hinv Hc)
    as (w1 & Hw1 & Hinv1 & _ & _ & _ & _ & Hdb1 & Hopen1 & Hout1).
  destruct (write_like_run c u k mid w1 Hinv1 (Hopen1 _ _ _ Hc))
    as (w2 & Hw2 & _ & _ & _ & _ & _ & Hdb2 & _ & Hout2).
  exists w1, w2. split_and!; [done|done| |].
  - rewrite Hdb2, Hdb1. simpl. by apply toggle_like_involutive, world_likes_wf.
  - intros d u' Hd. rewrite (Hout2 d u' (Hopen1 _ _ _ Hd)), (Hout1 d u' Hd). by rewrite <-app_assoc.
Qed.

(** ** A broken member does not hold up the others *)

(** An open connection is a member of its room. *)
Lemma open_member (w : World) c u k :
  sys_inv (w_sys w) → open_conn w c u k → c ∈ Members k (reg_of (w_sys w)).
Proof. intros Hinv [Hc Hd]. by apply (inv_live _ Hinv c _ Hc); [right|]. Qed.

Lemma break_run d (w : World) :
  sys_inv (w_sys w) → d ∈ dom (sys_conns (w_sys w)) →
  BreakTransport d w =
    Ok ((), mkWorld (set_bc (bc_break d (srv_bc (sys_srv (w_sys w)))) (w_sys w)) (w_cursor w)) ∧
  sys_inv (set_bc (bc_break d (srv_bc (sys_srv (w_sys w)))) (w_sys w)).
Proof.
  intros Hinv Hd.
  assert (Hp : sys_step room_policy (EvTransportFail d) (w_sys w) =
                 (set_bc (bc_break d (srv_bc (sys_srv (w_sys w)))) (w_sys w), OutOk))
    by (cbn; by rewrite decide_True).
  split.
  - unfold BreakTransport. rewrite (bind_run _ _ _ OutOk
      (mkWorld (set_bc (bc_break d (srv_bc (sys_srv (w_sys w)))) (w_sys w)) (w_cursor w))); [done|].
    by rewrite server_run, Hp.
  - pose proof (sys_step_inv room_policy (EvTransportFail d) _ Hinv) as H. by rewrite Hp in H.
Qed.

(** C26: failure isolation (specification section 4.4): when the
    transport of one member [d] of the room breaks, a message frame that
    another member writes still reaches the writer, [d]'s queue gets
    nothing, and the send removes [d] from the room while the writer stays
    a member. *)
Theorem broken_member_isolated (k : Z) (d : ConnId) (u' : Z) (p : Post) (w : World) :
  sys_inv (w_sys w) → open_conn w (p_conn p) (p_user p) k → open_conn w d u' k → p_conn p ≠ d →
  p_uuid p ∉ map UUID (db_messages (db_of w)) →
  ∃ w1 w2, BreakTransport d w = Ok ((), w1) ∧ WriteAll [post_write k p] w1 = Ok ((), w2) ∧
    out_of (w_sys w2) !!! p_conn p =
      out_of (w_sys w) !!! p_conn p ++ delivered k (db_next (db_of w)) [p] ∧
    out_of (w_sys w2) !!! d = out_of (w_sys w) !!! d ∧
    d ∉ Members k (reg_of (w_sys w2)) ∧ p_conn p ∈ Members k (reg_of (w_sys w2)).
Proof.
  intros Hinv Hc Hd Hne Hfresh.
  assert (Hdom : d ∈ dom (sys_conns (w_sys w))) by (apply elem_of_dom; destruct Hd as [-> _]; eauto).
  destruct (break_run d w Hinv Hdom) as [Hb Hinv1].
  set (w1 := mkWorld (set_bc (bc_break d (srv_bc (sys_srv (w_sys w)))) (w_sys w)) (w_cursor w)).
  assert (Hc1 : open_conn w1 (p_conn p) (p_user p) k).
  { destruct Hc as [Hl Hdead]. split; [done|]. unfold dead_of in *. simpl. set_solver. }
  assert (Hdead1 : d ∈ dead_of (w_sys w1)) by (unfold dead_of; simpl; set_solver).
  pose proof (handle_fresh_message k (p_user p) (post_msg k p) (sys_srv (w_sys w1))
                eq_refl eq_refl Hfresh) as Hh.
  destruct (write_run (p_conn p) (p_user p) k _ w1 _ Hinv1 Hc1 Hh) as [Hw _].
  assert (Hlive1 : p_conn p ∉ b_dead (srv_bc (sys_srv (w_sys w1)))) by apply Hc1.
  assert (Hm1 : p_conn p ∈ Members k (b_reg (srv_bc (sys_srv (w_sys w1)))))
    by apply (open_member w _ _ _ Hinv Hc).
  pose proof (send_removes_failed k k (event_frame (EvMessage (with_id (db_next (db_of w)) (post_msg k p))))
                (srv_bc (sys_srv (w_sys w1))) d (p_conn p) Hdead1 Hlive1) as [Hgone Hstay].
  eexists w1, _. split_and!; [exact Hb| | | | |].
  - rewrite post_write_frame, (write_all_cons _ _ _ _ _ Hw). reflexivity.
  - unfold out_of. cbn [w_sys sys_srv srv_bc]. by rewrite send_delivers.
  - unfold out_of. cbn [w_sys sys_srv srv_bc]. rewrite send_non_member; [done|]. by right.
  - exact Hgone.
  - by apply Hstay.
Qed.

(** ** Messages and likes interleaved *)

Lemma write_actions_run (k : Z) (acts : list Action) (w : World) :
  sys_inv (w_sys w) →
  Forall (λ a, open_conn w (act_conn a) (act_user a) k) acts →
  NoDup (map p_uuid (act_posts acts)) →
  Forall (λ p, p_uuid p ∉ map UUID (db_messages (db_of w))) (act_posts acts) →
  ∃ w', WriteAll (map (act_write k) acts) w = Ok ((), w') ∧
    (∀ d u' k', open_conn w d u' k' → open_conn w' d u' k') ∧
    (∀ d u', open_conn w d u' k →
       out_of (w_sys w') !!! d = out_of (w_sys w) !!! d ++ received k (db_next (db_of w)) acts) ∧
    like_set (db_likes (db_of w')) = abs_toggle_all (act_likes acts) (like_set (db_likes (db_of w))).
Proof.
  revert w. induction acts as [|a acts IH]; intros w Hinv Hopen Hnd Hfresh.
  { exists w. split_and!; [done|done| |done]. intros d u' _. by rewrite app_nil_r. }
  apply Forall_cons in Hopen as [Ha Hopen].
  destruct a as [p|c u mid]; simpl in Hnd, Hfresh, Ha.
  - apply NoDup_cons in Hnd as [Hnotin Hnd]. apply Forall_cons in Hfresh as [Hfp Hfresh].
    destruct (write_message_run (p_conn p) (p_user p) k (post_msg k p) w Hinv Ha eq_refl eq_refl Hfp)
      as (w1 & Hw1 & Hinv1 & _ & _ & _ & _ & _ & Hdb1 & Hopen1 & Hout1).
    destruct (IH w1) as (w' & Hw' & Hopen' & Hout' & Hl'); [done| |done| |].
    { eapply Forall_impl; [exact Hopen|]. intros q. apply Hopen1. }
    { rewrite Hdb1. apply Forall_forall. intros q Hq. apply fresh_after_store.
      - rewrite Forall_forall in Hfresh. by apply Hfresh.
      - intros Heq. apply Hnotin. simpl in Heq. rewrite <-Heq. by apply list_elem_of_fmap_2. }
    exists w'. split_and!.
    + change (map (act_write k) (APost p :: acts)) with (post_write k p :: map (act_write k) acts).
      rewrite post_write_frame. by rewrite (write_all_cons _ _ _ _ _ Hw1).
    + intros d u' k' Hd. by apply Hopen', Hopen1.
    + intros d u' Hd. rewrite (Hout' d u' (Hopen1 _ _ _ Hd)), (Hout1 d u' Hd), Hdb1. simpl.
      by rewrite <-app_assoc.
    + by rewrite Hl', Hdb1.
  - destruct (write_like_run c u k mid w Hinv Ha)
      as (w1 & Hw1 & Hinv1 & _ & _ & _ & _ & Hdb1 & Hopen1 & Hout1).
    destruct (IH w1) as (w' & Hw' & Hopen' & Hout' & Hl'); [done| |done|rewrite Hdb1; done|].
    { eapply Forall_impl; [exact Hopen|]. intros q. apply Hopen1. }
    exists w'. split_and!.
    + change (map (act_write k) (ALike c u mid :: acts)) with ((c, like_frame mid) :: map (act_write k) acts).
      by rewrite (write_all_cons _ _ _ _ _ Hw1).
    + intros d u' k' Hd. by apply Hopen', Hopen1.
    + intros d u' Hd. rewrite (Hout' d u' (Hopen1 _ _ _ Hd)), (Hout1 d u' Hd), Hdb1. simpl.
      by rewrite <-app_assoc.
    + rewrite Hl', Hdb1. simpl. by rewrite toggle_like_set.
Qed.

(** C30: message and like frames of several clients of room [k], in any
    interleaving (each from the client's own user, the messages with new
    distinct uuids): every open member of the room receives, in the
    order the server handled them, each message enriched with its id and
    each like frame verbatim; and the likes table then stands for the
    set of (message, user) pairs the specification's toggles give. *)
Theorem write_actions_delivers (k : Z) (acts : list Action) (w : World) :
  sys_inv (w_sys w) →
  Forall (λ a, open_conn w (act_conn a) (act_user a) k) acts →
  NoDup (map p_uuid (act_posts acts)) →
  Forall (λ p, p_uuid p ∉ map UUID (db_messages (db_of w))) (act_posts acts) →
  ∃ w', WriteAll (map (act_write k) acts) w = Ok ((), w') ∧
    (∀ d u', open_conn w d u' k →
       out_of (w_sys w') !!! d = out_of (w_sys w) !!! d ++ received k (db_next (db_of w)) acts) ∧
    like_set (db_likes (db_of w')) = abs_toggle_all (act_likes acts) (like_set (db_likes (db_of w))).
Proof.
  intros Hinv Hopen Hnd Hfresh.
  destruct (write_actions_run k acts w Hinv Hopen Hnd Hfresh) as (w' & Hw & _ & Hout & Hl).
  by exists w'.
Qed.

End Relay.

(** ** The server's relay, from its start *)

Lemma run_reachable (s0 s : TSys) evs :
  reachable server_may_join s0 s → reachable server_may_join s0 (run server_may_join evs s).1.
Proof.
  revert s. induction evs as [|ev evs IH]; intros s Hr; [done|]. simpl.
  destruct (sys_step server_may_join ev s) as [s1 o] eqn:E.
  destruct (run server_may_join evs s1) as [s2 os] eqn:E2. simpl.
  replace s2 with (run server_may_join evs s1).1 by (by rewrite E2).
  apply IH. replace s1 with (sys_step server_may_join ev s).1 by (by rewrite E). by constructor.
Qed.

Lemma two_clients_inv : sys_inv (w_sys two_clients).
Proof.
  apply (reachable_inv server_may_join empty_chats empty_db);
    [apply memdb_wf_empty|apply chats_wf_empty|]. apply run_reachable. constructor.
Qed.

(** ** Likes in every reachable state *)

(** C22: in every state the server reaches from its start (any well-formed
    chat store, an empty database), through any interleaving of
    connections, frames, closes, broken transports and chat requests, the
    [likes] table holds at most one row per (message, user) pair. *)
Theorem reachable_like_rows_unique (cs : ChatStore) (s : TSys) (mid : string) (u : Z) :
  chats_wf cs → reachable server_may_join (init_sys cs empty_db) s →
  length (filter (λ r, r = mkDBLike mid u) (relay_likes s)) ≤ 1.
Proof.
  intros Hcs Hr. apply NoDup_filter_eq_le1.
  pose proof (inv_db _ (reachable_inv server_may_join cs empty_db s memdb_wf_empty Hcs Hr)) as Hdb.
  apply Hdb.
Qed.

Lemma reachable_like_rows_unique_witness :
  length (filter (λ r, r = mkDBLike "1" 2%Z) (relay_likes liked_sys)) ≤ 1.
Proof.
  apply (reachable_like_rows_unique empty_chats); [apply chats_wf_empty|].
  apply run_reachable, run_reachable. constructor.
Defined.

(** ** Stored messages and their like keys *)

(** C25: in every state the relay reaches, each stored message has a
    positive id, and the like key the like test computes for it
    ([strconv.Itoa] of the id) reads back as that id and names no other
    stored message. *)
Theorem reachable_like_keys (cs : ChatStore) (s : TSys) :
  chats_wf cs → reachable server_may_join (init_sys cs empty_db) s →
  Forall (λ m, (0 < ID m)%Z ∧ parse_decimal (like_message_id m) = Some (ID m))
    (db_messages (srv_db (sys_srv s))) ∧
  NoDup (map like_message_id (db_messages (srv_db (sys_srv s)))).
Proof.
  intros Hcs Hr.
  pose proof (inv_db _ (reachable_inv server_may_join cs empty_db s memdb_wf_empty Hcs Hr)) as Hdb.
  destruct Hdb as (_ & Hlt & Hids & _).
  split.
  - eapply Forall_impl; [exact Hlt|]. intros m [Hpos _]. split; [done|apply Itoa_roundtrip].
  - unfold like_message_id. rewrite <-(map_map ID Itoa).
    change (NoDup (Itoa <$> map ID (db_messages (srv_db (sys_srv s))))).
    apply NoDup_fmap_2; [|done]. intros i j. apply Itoa_inj.
Qed.

Lemma reachable_like_keys_witness :
  Forall (λ m, (0 < ID m)%Z ∧ parse_decimal (like_message_id m) = Some (ID m))
    (db_messages (srv_db (sys_srv liked_sys))) ∧
  NoDup (map like_message_id (db_messages (srv_db (sys_srv liked_sys)))).
Proof.
  apply (reachable_like_keys empty_chats); [apply chats_wf_empty|].
  apply run_reachable, run_reachable. constructor.
Defined.

(** ** Witnesses: the server after [TestWebsockets]'s setup *)

Lemma write_all_delivers_witness :
  ∃ w', WriteAll (pol := server_may_join) (map (post_write 1%Z) three_posts) two_clients = Ok ((), w') ∧
    ∀ d u', open_conn two_clients d u' 1%Z →
      open_conn w' d u' 1%Z ∧
      out_of (w_sys w') !!! d =
        out_of (w_sys two_clients) !!! d ++ delivered 1%Z (db_next (db_of two_clients)) three_posts.
Proof.
  apply write_all_delivers; [apply two_clients_inv| |decide_closed|].
  - repeat constructor; unfold open_conn; decide_closed.
  - repeat constructor; decide_closed.
Defined.

Lemma closed_conn_receives_nothing_witness :
  ∃ w1 w2, CloseConn (pol := server_may_join) 0 two_clients = Ok ((), w1) ∧
    WriteAll (pol := server_may_join) (map (post_write 1%Z) [mkPost 1 2%Z "2" ":D"]) w1 = Ok ((), w2) ∧
    out_of (w_sys w2) !!! 0 = out_of (w_sys two_clients) !!! 0 ∧
    ∀ d u', d ≠ 0 → open_conn two_clients d u' 1%Z →
      out_of (w_sys w2) !!! d =
        out_of (w_sys two_clients) !!! d ++ delivered 1%Z (db_next (db_of two_clients)) [mkPost 1 2%Z "2" ":D"].
Proof.
  apply (closed_conn_receives_nothing 1%Z 0 1%Z); [apply two_clients_inv|unfold open_conn; decide_closed| |decide_closed|].
  - repeat constructor; [done|]. unfold open_conn; decide_closed.
  - repeat constructor; decide_closed.
Defined.

Lemma double_like_restores_witness :
  ∃ w1 w2, WriteJSON (pol := server_may_join) 0 (like_frame "1") two_clients = Ok ((), w1) ∧
    WriteJSON (pol := server_may_join) 0 (like_frame "1") w1 = Ok ((), w2) ∧
    db_likes (db_of w2) ≡ₚ db_likes (db_of two_clients) ∧
    ∀ d u', open_conn two_clients d u' 1%Z →
      out_of (w_sys w2) !!! d = out_of (w_sys two_clients) !!! d ++ [like_frame "1"; like_frame "1"].
Proof.
  apply (double_like_restores 1%Z 0 1%Z); [apply two_clients_inv|unfold open_conn; decide_closed].
Defined.

Lemma broken_member_isolated_witness :
  ∃ w1 w2, BreakTransport (pol := server_may_join) 1 two_clients = Ok ((), w1) ∧
    WriteAll (pol := server_may_join) [post_write 1%Z (mkPost 0 1%Z "1" "henlo")] w1 = Ok ((), w2) ∧
    out_of (w_sys w2) !!! 0 =
      out_of (w_sys two_clients) !!! 0 ++ delivered 1%Z (db_next (db_of two_clients)) [mkPost 0 1%Z "1" "henlo"] ∧
    out_of (w_sys w2) !!! 1 = out_of (w_sys two_clients) !!! 1 ∧
    1 ∉ Members 1%Z (reg_of (w_sys w2)) ∧ 0 ∈ Members 1%Z (reg_of (w_sys w2)).
Proof.
  apply (broken_member_isolated 1%Z 1 2%Z (mkPost 0 1%Z "1" "henlo")); [apply two_clients_inv| | |done|];
    unfold open_conn; decide_closed.
Defined.

Lemma write_actions_delivers_witness :
  ∃ w', WriteAll (pol := server_may_join)
          (map (act_write 1%Z) [APost (mkPost 0 1%Z "1" "henlo"); ALike 1 2%Z "1";
                                APost (mkPost 1 2%Z "2" ":D"); ALike 0 1%Z "1"; ALike 1 2%Z "1"])
          two_clients = Ok ((), w') ∧
    (∀ d u', open_conn two_clients d u' 1%Z →
       out_of (w_sys w') !!! d = out_of (w_sys two_clients) !!! d ++
         received 1%Z (db_next (db_of two_clients))
           [APost (mkPost 0 1%Z "1" "henlo"); ALike 1 2%Z "1";
            APost (mkPost 1 2%Z "2" ":D"); ALike 0 1%Z "1"; ALike 1 2%Z "1"]) ∧
    like_set (db_likes (db_of w')) =
      abs_toggle_all (act_likes [APost (mkPost 0 1%Z "1" "henlo"); ALike 1 2%Z "1";
                                 APost (mkPost 1 2%Z "2" ":D"); ALike 0 1%Z "1"; ALike 1 2%Z "1"])
        (like_set (db_likes (db_of two_clients))).
Proof.
  apply write_actions_delivers; [apply two_clients_inv| |decide_closed|].
  - repeat constructor; unfold open_conn; decide_closed.
  - repeat constructor; decide_closed.
Defined.
