(* ===== verification/Scenarios.v ===== *)
(** * Scenarios: the tests of [src/server/tests/api_test.go]

    Each Go test function and each of its [t.Run] subtests is a [Test]
    computation over the [World] of [Harness] ([TestWebsockets] and its
    subtest [connect to websocket], which runs the four websocket
    subtests defined here, are in [WsScenarioFacts], beside the lemmas
    about them), written in the order of the
    Go code: every HTTP call and websocket operation, every
    [if err != nil { t.Fatal(...) }] ([http_ok], [ws_ok]) and every
    assertion ([expect]).  [api.TestUser] and [api.TestUser2] are defined
    outside [src/]; their user ids are the section variables [TestUser] and
    [TestUser2].  The uuids the tests draw with [rand.Uint64] are
    parameters.  The [testing] package's control flow is the one of
    [Harness]: a subtest that calls [t.Fatal] runs its deferred closes
    ([defer]) and fails, and its parent goes on with the next [t.Run]
    ([t_Runs]); indexing an empty message page panics ([go_panic]).  The
    tests compare [json.Marshal] strings of frames, which the model
    compares as frames (equal frames have equal encodings, so a passing
    check here passes in Go). *)

From S2P Require Import Prelude Wire Chats Harness.
Local Open Scope string_scope.

Section Tests.
Context {pol : RoomPolicy}.
Variables TestUser TestUser2 : Z.

(** The chat every creation subtest compares the answer with. *)
Definition same_chat (c : Chat.t) (name addr : string) : bool :=
  bool_decide (Chat.Name c = name ∧ Chat.Address c = addr).

(** ** [TestChats] *)

(** [t.Run("create a chat and get chat by id", ...)] *)
Definition TestChats_create_and_get : Test () :=
  r ← HttpPostChat TestUser "Test Chat" "dbtestchat";
  respChat ← http_ok r;
  expect (same_chat respChat "Test Chat" "dbtestchat") "Expected testChat";;
  r ← HttpGetChat (Chat.Chatid respChat);
  respChat ← http_ok r;
  expect (same_chat respChat "Test Chat" "dbtestchat") "Expected testChat".

(** [t.Run("chat id 0 test", ...)] *)
Definition TestChats_chat_id_0 : Test () :=
  r ← HttpPostChat TestUser "Temp Chat" "chatid0test";
  _ ← http_ok r;
  r ← HttpGetChat 0;
  match r with
  | Ok _ => fatal "Expected error 404, got nil"
  | Err e =>
      expect (bool_decide (http_error_text e = "error code 404: No Chat found with id: 0"))
        "Expected error 404"
  end;;
  r ← HttpDeleteChat TestUser "chatid0test";
  http_ok r.

(** [t.Run("delete a chat", ...)] *)
Definition TestChats_delete : Test () :=
  r ← HttpPostChat TestUser "Delete Me" "deleteme";
  respChat ← http_ok r;
  expect (same_chat respChat "Delete Me" "deleteme") "Expected deletionChat";;
  r ← HttpDeleteChat TestUser "deleteme";
  http_ok r;;
  r ← HttpGetChat (Chat.Chatid respChat);
  match r with
  | Ok _ => fatal "Expected error, found nil"
  | Err _ => mret ()
  end;;
  chats ← HttpListChats;
  expect (bool_decide (length chats = 1)) "Expected 1 test chat to exist after deletion".

Definition TestChats : Test () :=
  t_Runs [TestChats_create_and_get; TestChats_chat_id_0; TestChats_delete].

(** ** [TestUsers] *)

(** [t.Run("create chat with user 1", ...)] *)
Definition TestUsers_create_user1 : Test () :=
  r ← HttpPostChat TestUser "Test User 1's Chat" "user1chat";
  respChat ← http_ok r;
  expect (same_chat respChat "Test User 1's Chat" "user1chat") "Expected userOneChat";;
  expect (bool_decide (Chat.Creatorid respChat = TestUser)) "Expected creator id".

(** [t.Run("create and delete chat with user 2", ...)]: user 2 creates a
    chat, user 1 may not delete it, user 2 may. *)
Definition TestUsers_create_delete_user2 : Test () :=
  r ← HttpPostChat TestUser2 "Test User 2's Chat" "user2chat";
  respChat ← http_ok r;
  expect (same_chat respChat "Test User 2's Chat" "user2chat") "Expected userTwoChat";;
  expect (bool_decide (Chat.Creatorid respChat = TestUser2)) "Expected creator id";;
  r ← HttpDeleteChat TestUser "user2chat";
  match r with
  | Ok _ => fatal "Expected error, got nil"
  | Err e => expect (bool_decide (http_error_text e = "error code 403: 403 Forbidden")) "Expected 403"
  end;;
  r ← HttpDeleteChat TestUser2 "user2chat";
  http_ok r.

Definition TestUsers : Test () :=
  t_Runs [TestUsers_create_user1; TestUsers_create_delete_user2].

(** ** [TestWebsockets] *)

(** The uuids of the four messages, [fmt.Sprintf("%d", rand.Uint64())]:
    the decimal text of four random numbers. *)
Variables r1 r2 r3 r4 : Z.

Definition henlo_text : string := "henlo".
Definition lorem_text : string :=
  "Non id pariatur dolor id Lorem ex enim proident cillum eiusmod exercitation. Laboris ut adipisicing qui minim fugiat id cupidatat velit aliquip esse commodo consequat. Excepteur deserunt duis cupidatat mollit commodo labore incididunt. Eu reprehenderit nisi commodo occaecat velit. Consequat ex officia dolor cillum exercitation incididunt occaecat ea. Culpa est veniam eiusmod aute ad adipisicing duis veniam commodo mollit exercitation dolor incididunt et.".
Definition smile_text : string := ":D".
Definition eiusmod_text : string :=
  "Eiusmod et veniam nulla fugiat in voluptate ullamco magna sit excepteur ex anim nulla.".

(** [t.Run("send a couple messages", ...)]: user 1 connects and sends two
    messages, each read back with its id; the deferred close runs at the
    end, and also when a check fails after the dial. *)
Definition TestWebsockets_send_couple (chat : Z) : Test () :=
  r ← Dial TestUser TestUser chat;
  conn ← ws_ok r;
  defer (CloseConn conn) (
    _ ← WSSendAndVerify conn (message_frame (Itoa r1) chat TestUser henlo_text);
    _ ← WSSendAndVerify conn (message_frame (Itoa r2) chat TestUser lorem_text);
    mret ()).

(** [t.Run("send message with second user", ...)] *)
Definition TestWebsockets_second_user (chat : Z) : Test () :=
  r ← Dial TestUser2 TestUser2 chat;
  conn ← ws_ok r;
  defer (CloseConn conn) (
    _ ← WSSendAndVerify conn (message_frame (Itoa r3) chat TestUser2 smile_text);
    mret ()).

(** [t.Run("verify all connections receive message", ...)]: both users
    connect; the frame user 1 reads back is the frame user 2 receives.
    The deferred closes run in reverse order: [conn2] first. *)
Definition TestWebsockets_verify_all (chat : Z) : Test () :=
  r ← Dial TestUser TestUser chat;
  conn ← ws_ok r;
  defer (CloseConn conn) (
    r ← Dial TestUser2 TestUser2 chat;
    conn2 ← ws_ok r;
    defer (CloseConn conn2) (
      recvMsg ← WSSendAndVerify conn (message_frame (Itoa r4) chat TestUser eiusmod_text);
      recv2 ← ReadJSON conn2;
      expect (bool_decide (recvMsg = recv2)) "expected the same frame")).

(** [t.Run("like a message", ...)]: the first message of the chat's
    message page is liked by user 1; both users receive the like frame
    exactly as it was sent.  On an empty page, [Messages[0]] panics. *)
Definition TestWebsockets_like (chat : Z) : Test () :=
  msgs ← HttpGetMessages chat;
  match msgs with
  | [] => go_panic "index out of range"
  | m0 :: _ =>
      r ← Dial TestUser TestUser chat;
      conn ← ws_ok r;
      defer (CloseConn conn) (
        r ← Dial TestUser2 TestUser2 chat;
        conn2 ← ws_ok r;
        defer (CloseConn conn2) (
          WriteJSON conn (like_frame (like_message_id m0));;
          recv ← ReadJSON conn;
          expect (bool_decide (like_frame (like_message_id m0) = recv)) "expected the like frame";;
          recv2 ← ReadJSON conn2;
          expect (bool_decide (recv = recv2)) "expected the same frame"))
  end.

End Tests.
