(* ===== verification/Pages.v ===== *)
(** * Pages: [TestHelloWorld] and [TestLogin]

    Two tests of [src/server/tests/api_test.go] read pages of the server
    that are not part of the relay: the greeting at the root URL and the
    login page [/test] that the test build of the server serves for its
    two test users ([api.TestUser], [api.TestUser2], defined outside
    [src/]).  Neither the handlers nor the users' names are under [src/] or
    in the specification, so the server's answers are a parameter [get]:
    the body [HttpGetJson] returns for a URL, or its HTTP error; the names
    are the parameters [TestUserName] and [TestUser2Name].  Reading a page
    changes nothing on the server. *)

From S2P Require Import Prelude Wire Chats Harness.
Local Open Scope string_scope.

(** What the server answers to a GET of each URL. *)
Abbreviation Pages := (string → result HttpError string).

Definition hello_url : string := "https://localhost:5555".
Definition login_url : string := "https://localhost:5555/test".
Definition login2_url : string := "https://localhost:5555/test?testid=2".

(** [expected := "Hello, World 👋!"]: 18 bytes in UTF-8, as Go counts them. *)
Definition hello_expected : string := "Hello, World 👋!".

(** [fmt.Sprintf("Welcome %s", name)] *)
Definition welcome (name : string) : string := "Welcome " ++ name.

(** A server that answers the pages as the tests expect, with the test
    users named [n1] and [n2]; any other URL is not found. *)
Definition test_pages (n1 n2 : string) : Pages := λ url,
  if bool_decide (url = hello_url) then Ok hello_expected
  else if bool_decide (url = login_url) then Ok (welcome n1)
  else if bool_decide (url = login2_url) then Ok (welcome n2)
  else Err (mkHttpError 404 "Cannot GET").

Section Pages.
Variable get : Pages.

(** [resp, err := HttpGetJson(url)] with [output := string(resp)]. *)
Definition HttpGetPage (url : string) : Test (result HttpError string) :=
  λ w, Ok (get url, w).

(** [TestHelloWorld]: the root page is the greeting. *)
Definition TestHelloWorld : Test () :=
  r ← HttpGetPage hello_url;
  output ← http_ok r;
  expect (bool_decide (output = hello_expected)) "Expected greeting".

(** One subtest of [TestLogin]: the login page of a test user welcomes
    that user by name. *)
Definition TestLogin_user (url name : string) : Test () :=
  r ← HttpGetPage url;
  output ← http_ok r;
  expect (bool_decide (output = welcome name)) "Expected welcome".

Variables TestUserName TestUser2Name : string.

(** [TestLogin]: [t.Run("login test user", ...)] then
    [t.Run("login test user 2", ...)]. *)
Definition TestLogin : Test () :=
  t_Runs [TestLogin_user login_url TestUserName;
          TestLogin_user login2_url TestUser2Name].

(** The server answers the three pages as the tests expect. *)
Definition pages_ok : Prop :=
  get hello_url = Ok hello_expected ∧
  get login_url = Ok (welcome TestUserName) ∧
  get login2_url = Ok (welcome TestUser2Name).

(** ** Theorems *)

Lemma TestLogin_user_run url name (w : World) :
  TestLogin_user url name w =
    match get url with
    | Ok output => if bool_decide (output = welcome name) then Ok ((), w)
                   else Err (TFatal "Expected welcome" w)
    | Err e => Err (TFatal (http_error_text e) w)
    end.
Proof.
  unfold TestLogin_user, HttpGetPage, http_ok, expect_ok, expect, fatal, mbind, test_bind, mret, test_ret. destruct (get url); cbn; [|done].
  by case_bool_decide.
Qed.

Lemma TestHelloWorld_run (w : World) :
  TestHelloWorld w =
    match get hello_url with
    | Ok output => if bool_decide (output = hello_expected) then Ok ((), w)
                   else Err (TFatal "Expected greeting" w)
    | Err e => Err (TFatal (http_error_text e) w)
    end.
Proof.
  unfold TestHelloWorld, HttpGetPage, http_ok, expect_ok, expect, fatal, mbind, test_bind, mret, test_ret. destruct (get hello_url); cbn; [|done].
  by case_bool_decide.
Qed.

(** A check passes exactly when its answer is the expected text; it
    leaves the world as it was. *)
Lemma TestHelloWorld_pass (w w' : World) :
  TestHelloWorld w = Ok ((), w') ↔ get hello_url = Ok hello_expected ∧ w' = w.
Proof.
  rewrite TestHelloWorld_run. destruct (get hello_url) as [o|e]; [|by split; [|intros [? _]]].
  case_bool_decide as Ho; [subst; split; [by intros [= <-]|by intros [_ ->]]|].
  split; [done|]. by intros [[= ->] _].
Qed.

Lemma TestLogin_user_pass url name (w w' : World) :
  TestLogin_user url name w = Ok ((), w') ↔ get url = Ok (welcome name) ∧ w' = w.
Proof.
  rewrite TestLogin_user_run. destruct (get url) as [o|e]; [|by split; [|intros [? _]]].
  case_bool_decide as Ho; [subst; split; [by intros [= <-]|by intros [_ ->]]|].
  split; [done|]. by intros [[= ->] _].
Qed.

Lemma TestLogin_pass (w w' : World) :
  TestLogin w = Ok ((), w') ↔
    get login_url = Ok (welcome TestUserName) ∧ get login2_url = Ok (welcome TestUser2Name) ∧ w' = w.
Proof.
  unfold TestLogin. split.
  - intros H. destruct (t_Runs_cons_inv _ _ _ _ H) as (w1 & H1 & H2).
    destruct (t_Runs_cons_inv _ _ _ _ H2) as (w2 & H3 & H4).
    apply TestLogin_user_pass in H1 as [? ->]. apply TestLogin_user_pass in H3 as [? ->].
    rewrite t_Runs_nil in H4. by injection H4 as <-.
  - intros (H1 & H2 & ->).
    rewrite (t_Runs_cons_ok _ _ _ w); [|by apply TestLogin_user_pass].
    rewrite (t_Runs_cons_ok _ _ _ w); [|by apply TestLogin_user_pass]. done.
Qed.
End Pages.
