(* ===== verification/ScenarioFacts.v ===== *)
(** * ScenarioFacts: the tests of [api_test.go] pass on the model

    For [TestChats] and [TestUsers]: each subtest runs to completion,
    without [t.Fatal], from every world whose chat store is well formed and
    in which the addresses it creates are free; [TestChats] as a whole also
    needs the chat list to be empty when it starts, since its last
    assertion counts every chat of the server.  When a subtest fails,
    the later ones still run ([t_Runs]); they only make HTTP requests, so
    they end ([ends]), and the test fails with the first message. *)

From S2P Require Import Prelude Wire Persister Registry Broadcaster Router Chats Lifecycle LifecycleFacts Harness Scenarios.
Local Open Scope string_scope.

(** Run a test computation symbolically: unfold the client and the monad,
    and leave the chat store operations to the lemmas of [Chats]. *)
Ltac run_test :=
  repeat (unfold mbind, test_bind, mret, test_ret, HttpPostChat, HttpGetChat,
            HttpGetChatByAddress, HttpDeleteChat, HttpListChats, http_ok, expect_ok,
            expect, server in *);
  cbn -[CreateChat LookupChat LookupChatByAddress DeleteChat same_chat http_error_text
        filter list_find].

Section ChatTests.
Context {pol : RoomPolicy}.
Variables TestUser TestUser2 : Z.
Implicit Types (w : World).

Definition chats_of w : ChatStore := sys_chats (w_sys w).

Lemma same_chat_mk id name addr u : same_chat (Chat.mk id addr name u) name addr = true.
Proof. unfold same_chat. by rewrite bool_decide_eq_true_2. Qed.

Lemma free_app (l : list Chat.t) c addr :
  (∀ c', c' ∈ l → Chat.Address c' ≠ addr) → Chat.Address c ≠ addr →
  ∀ c', c' ∈ (l ++ [c])%list → Chat.Address c' ≠ addr.
Proof.
  intros Hl Hc c' Hin. apply elem_of_app in Hin as [Hin|Hin]; [auto|].
  by apply list_elem_of_singleton in Hin as ->.
Qed.

Lemma TestChats_create_and_get_run w :
  chats_wf (chats_of w) → (∀ c, c ∈ cs_chats (chats_of w) → Chat.Address c ≠ "dbtestchat") →
  TestChats_create_and_get TestUser w =
    Ok ((), with_chats (mkChatStore (cs_chats (chats_of w) ++
             [Chat.mk (cs_next (chats_of w)) "dbtestchat" "Test Chat" TestUser])%list
             (cs_next (chats_of w) + 1)) w).
Proof.
  intros Hwf Hfree. unfold TestChats_create_and_get. run_test.
  rewrite create_chat_ok by done. run_test. rewrite same_chat_mk. run_test.
  rewrite (lookup_chat_in _ (Chat.mk (cs_next (chats_of w)) "dbtestchat" "Test Chat" TestUser)).
  - run_test. by rewrite same_chat_mk.
  - by apply create_chat_wf.
  - set_solver.
Qed.

Lemma with_chats_twice cs cs' w : with_chats cs (with_chats cs' w) = with_chats cs w.
Proof. reflexivity. Qed.

Lemma chats_of_with cs w : chats_of (with_chats cs w) = cs.
Proof. reflexivity. Qed.

Lemma TestChats_chat_id_0_run w :
  chats_wf (chats_of w) → (∀ c, c ∈ cs_chats (chats_of w) → Chat.Address c ≠ "chatid0test") →
  TestChats_chat_id_0 TestUser w =
    Ok ((), with_chats (mkChatStore (cs_chats (chats_of w)) (cs_next (chats_of w) + 1)) w).
Proof.
  intros Hwf Hfree. unfold TestChats_chat_id_0. run_test.
  rewrite create_chat_ok by done. run_test.
  pose proof (create_chat_wf TestUser "Temp Chat" "chatid0test" _ Hwf Hfree) as Hwf'.
  rewrite lookup_chat_outside by (done || lia).
  run_test. rewrite bool_decide_eq_true_2 by reflexivity. run_test.
  rewrite create_delete_chat by done. by run_test.
Qed.

(** The subtest passes exactly when the server held one chat before it. *)
Lemma TestChats_delete_run w :
  chats_wf (chats_of w) → (∀ c, c ∈ cs_chats (chats_of w) → Chat.Address c ≠ "deleteme") →
  TestChats_delete TestUser w =
    expect (bool_decide (length (cs_chats (chats_of w)) = 1))
      "Expected 1 test chat to exist after deletion"
      (with_chats (mkChatStore (cs_chats (chats_of w)) (cs_next (chats_of w) + 1)) w).
Proof.
  intros Hwf Hfree. unfold TestChats_delete. run_test.
  rewrite create_chat_ok by done. run_test. rewrite same_chat_mk. run_test.
  rewrite create_delete_chat by done. run_test.
  rewrite lookup_chat_absent; last first.
  { destruct Hwf as (_ & Hlt & _). intros c Hc. rewrite Forall_forall in Hlt.
    specialize (Hlt c Hc). unfold chats_of in Hlt. lia. }
  run_test. unfold ListChats. simpl. done.
Qed.

(** [TestChats] on a server whose chat list is empty when it starts: it
    ends with the one chat ["dbtestchat"] of [TestUser], and three chat
    ids used. *)
Lemma TestChats_run w :
  chats_wf (chats_of w) → cs_chats (chats_of w) = [] →
  TestChats TestUser w =
    Ok ((), with_chats (mkChatStore [Chat.mk (cs_next (chats_of w)) "dbtestchat" "Test Chat" TestUser]
                          (cs_next (chats_of w) + 3)) w).
Proof.
  intros Hwf Hnil. unfold TestChats.
  erewrite t_Runs_cons_ok by (apply TestChats_create_and_get_run; [done|]; rewrite Hnil; set_solver).
  rewrite Hnil. set (ch := Chat.mk _ _ _ _).
  assert (Hwf1 : chats_wf (mkChatStore [ch] (cs_next (chats_of w) + 1))).
  { pose proof (create_chat_wf TestUser "Test Chat" "dbtestchat" _ Hwf) as H.
    rewrite Hnil in H. apply H. set_solver. }
  erewrite t_Runs_cons_ok by (apply TestChats_chat_id_0_run; [done|]; simpl; set_solver).
  rewrite t_Runs_single.
  rewrite TestChats_delete_run; [|by apply (chats_wf_bump (mkChatStore [ch] _))|simpl; set_solver].
  unfold expect. rewrite bool_decide_eq_true_2 by done.
  rewrite !with_chats_twice, !chats_of_with, ret_run. cbn. do 4 f_equal. lia.
Qed.

(** C9: [TestChats] passes on every server whose chat store is well
    formed and empty: it ends with the one chat ["dbtestchat"]. *)
Theorem TestChats_passes w :
  chats_wf (chats_of w) → cs_chats (chats_of w) = [] →
  ∃ w', TestChats TestUser w = Ok ((), w') ∧
    ListChats (chats_of w') = [Chat.mk (cs_next (chats_of w)) "dbtestchat" "Test Chat" TestUser].
Proof. intros Hwf Hnil. eexists. split; [by apply TestChats_run|done]. Qed.

(** The first subtest on a server that holds ["dbtestchat"]. *)
Lemma TestChats_create_and_get_conflict w c :
  c ∈ cs_chats (chats_of w) → Chat.Address c = "dbtestchat" →
  ∃ w1, TestChats_create_and_get TestUser w =
    Err (TFatal "error code 409: Chat already exists with address: dbtestchat" w1).
Proof.
  intros Hc Ha. unfold TestChats_create_and_get. run_test.
  rewrite (create_chat_conflict _ _ _ _ c) by done. cbn. eauto.
Qed.

(** The later subtests of [TestChats] only make HTTP requests: they end. *)
Lemma TestChats_tail_ends :
  Forall ends [TestChats_chat_id_0 TestUser; TestChats_delete TestUser].
Proof.
  repeat constructor; [unfold TestChats_chat_id_0|unfold TestChats_delete]; solve_ends.
Qed.

(** C11: run a second time on the same database, [TestChats] fails at
    its first request: the address ["dbtestchat"] is taken, and the
    server answers 409. *)
Theorem TestChats_rerun_fails w c :
  c ∈ cs_chats (chats_of w) → Chat.Address c = "dbtestchat" →
  ∃ w', TestChats TestUser w =
    Err (TFatal "error code 409: Chat already exists with address: dbtestchat" w').
Proof.
  intros Hc Ha. destruct (TestChats_create_and_get_conflict w c Hc Ha) as (w1 & H1).
  destruct (t_runs_ends [TestChats_chat_id_0 TestUser; TestChats_delete TestUser]) with w1
    as (ss & w2 & H2); [apply TestChats_tail_ends|].
  exists w2. unfold TestChats. exact (t_Runs_cons_fatal _ _ _ _ _ _ _ H1 H2).
Qed.

(** C12: [TestChats] depends on running first: on a well-formed server
    that holds any other chat, its last check fails, since it counts
    every chat of the server. *)
Theorem TestChats_needs_empty_server w :
  chats_wf (chats_of w) → cs_chats (chats_of w) ≠ [] →
  (∀ c, c ∈ cs_chats (chats_of w) → Chat.Address c ∉ ["dbtestchat"; "chatid0test"; "deleteme"]) →
  ∃ w', TestChats TestUser w = Err (TFatal "Expected 1 test chat to exist after deletion" w').
Proof.
  intros Hwf Hne Hfree. unfold TestChats.
  set (ch := Chat.mk (cs_next (chats_of w)) "dbtestchat" "Test Chat" TestUser).
  assert (Hwf1 : chats_wf (mkChatStore (cs_chats (chats_of w) ++ [ch]) (cs_next (chats_of w) + 1))).
  { apply create_chat_wf; [done|]. intros c Hc. specialize (Hfree c Hc). set_solver. }
  erewrite t_Runs_cons_ok by (apply TestChats_create_and_get_run; [done|]; intros c Hc; specialize (Hfree c Hc); set_solver).
  erewrite t_Runs_cons_ok.
  2:{ apply TestChats_chat_id_0_run; [done|]. intros c Hc. simpl in Hc.
      apply elem_of_app in Hc as [Hc|Hc]; [specialize (Hfree c Hc); set_solver|set_solver]. }
  rewrite t_Runs_single, TestChats_delete_run.
  - unfold expect. rewrite bool_decide_eq_false_2; [by eexists|]. simpl. rewrite length_app. simpl.
    destruct (cs_chats (chats_of w)); [done|simpl; lia].
  - by apply (chats_wf_bump (mkChatStore _ _)).
  - intros c Hc. simpl in Hc.
    apply elem_of_app in Hc as [Hc|Hc]; [specialize (Hfree c Hc); set_solver|set_solver].
Qed.
End ChatTests.

Section UserTests.
Context {pol : RoomPolicy}.
Variables TestUser TestUser2 : Z.
Hypothesis Hdistinct : TestUser ≠ TestUser2.
Implicit Types (w : World).

Lemma TestUsers_create_user1_run w :
  chats_wf (chats_of w) → (∀ c, c ∈ cs_chats (chats_of w) → Chat.Address c ≠ "user1chat") →
  TestUsers_create_user1 TestUser w =
    Ok ((), with_chats (mkChatStore (cs_chats (chats_of w) ++
             [Chat.mk (cs_next (chats_of w)) "user1chat" "Test User 1's Chat" TestUser])%list
             (cs_next (chats_of w) + 1)) w).
Proof.
  intros Hwf Hfree. unfold TestUsers_create_user1. run_test.
  rewrite create_chat_ok by done. run_test. rewrite same_chat_mk. run_test.
  by rewrite bool_decide_eq_true_2.
Qed.

Lemma TestUsers_create_delete_user2_run w :
  chats_wf (chats_of w) → (∀ c, c ∈ cs_chats (chats_of w) → Chat.Address c ≠ "user2chat") →
  TestUsers_create_delete_user2 TestUser TestUser2 w =
    Ok ((), with_chats (mkChatStore (cs_chats (chats_of w)) (cs_next (chats_of w) + 1)) w).
Proof.
  intros Hwf Hfree. unfold TestUsers_create_delete_user2. run_test.
  rewrite create_chat_ok by done. run_test. rewrite same_chat_mk. run_test.
  rewrite bool_decide_eq_true_2 by done. run_test.
  set (ch := Chat.mk (cs_next (chats_of w)) "user2chat" "Test User 2's Chat" TestUser2).
  rewrite (delete_chat_forbidden _ _ _ ch);
    [|apply (lookup_address_in _ ch); [by apply create_chat_wf|set_solver]|simpl; congruence].
  run_test. rewrite bool_decide_eq_true_2 by reflexivity. run_test.
  rewrite create_delete_chat by done. by run_test.
Qed.

(** [TestUsers] on any server with a well-formed chat store in which
    ["user1chat"] and ["user2chat"] are free, when the two test users are
    distinct: user 1's chat stays, user 2's chat is refused to user 1
    with a 403 and deleted by user 2. *)
Lemma TestUsers_run w :
  chats_wf (chats_of w) →
  (∀ c, c ∈ cs_chats (chats_of w) → Chat.Address c ≠ "user1chat" ∧ Chat.Address c ≠ "user2chat") →
  TestUsers TestUser TestUser2 w =
    Ok ((), with_chats (mkChatStore (cs_chats (chats_of w) ++
             [Chat.mk (cs_next (chats_of w)) "user1chat" "Test User 1's Chat" TestUser])%list
             (cs_next (chats_of w) + 2)) w).
Proof.
  intros Hwf Hfree. unfold TestUsers.
  erewrite t_Runs_cons_ok by (apply TestUsers_create_user1_run; [done|naive_solver]).
  rewrite t_Runs_single, TestUsers_create_delete_user2_run.
  - rewrite !with_chats_twice, !chats_of_with. cbn. do 4 f_equal. lia.
  - apply create_chat_wf; [done|naive_solver].
  - simpl. apply free_app; [naive_solver|done].
Qed.

(** C10: [TestUsers] passes on every server with a well-formed chat
    store in which its two addresses are free, when the two test users
    are distinct. *)
Theorem TestUsers_passes w :
  chats_wf (chats_of w) →
  (∀ c, c ∈ cs_chats (chats_of w) → Chat.Address c ≠ "user1chat" ∧ Chat.Address c ≠ "user2chat") →
  ∃ w', TestUsers TestUser TestUser2 w = Ok ((), w') ∧
    ListChats (chats_of w') = (cs_chats (chats_of w) ++
      [Chat.mk (cs_next (chats_of w)) "user1chat" "Test User 1's Chat" TestUser])%list.
Proof. intros Hwf Hfree. eexists. split; [by apply TestUsers_run|done]. Qed.
End UserTests.

(** C13: [TestUsers] tells the two users apart: were they the same user,
    the creator would be allowed to delete the chat, and the test fails
    where it expects the 403. *)
Theorem TestUsers_same_user_fails {pol : RoomPolicy} u w :
  chats_wf (chats_of w) →
  (∀ c, c ∈ cs_chats (chats_of w) → Chat.Address c ≠ "user1chat" ∧ Chat.Address c ≠ "user2chat") →
  ∃ w', TestUsers u u w = Err (TFatal "Expected error, got nil" w').
Proof.
  intros Hwf Hfree. unfold TestUsers.
  erewrite t_Runs_cons_ok by (apply TestUsers_create_user1_run; [done|naive_solver]).
  rewrite t_Runs_single.
  set (w1 := with_chats _ w).
  assert (Hwf1 : chats_wf (chats_of w1)) by (apply create_chat_wf; [done|naive_solver]).
  assert (Hfree1 : ∀ c, c ∈ cs_chats (chats_of w1) → Chat.Address c ≠ "user2chat").
  { apply free_app; [naive_solver|done]. }
  unfold TestUsers_create_delete_user2. run_test.
  rewrite create_chat_ok by done. run_test. rewrite same_chat_mk. run_test.
  rewrite bool_decide_eq_true_2 by done. run_test.
  pose proof (create_delete_chat u "Test User 2's Chat" "user2chat" (chats_of w1) Hwf1 Hfree1) as Hd.
  unfold w1 in Hd. rewrite chats_of_with in Hd. cbn [cs_chats cs_next] in Hd. rewrite Hd.
  by eexists.
Qed.

(** ** Witnesses: the fresh server, and servers that already hold a chat *)

Lemma TestChats_passes_witness :
  ∃ w', TestChats (pol := server_may_join) 1 init_world = Ok ((), w') ∧
    ListChats (chats_of w') = [Chat.mk (cs_next (chats_of init_world)) "dbtestchat" "Test Chat" 1].
Proof. exact (TestChats_passes (pol := server_may_join) 1 init_world chats_wf_empty eq_refl). Defined.

Lemma TestUsers_passes_witness :
  ∃ w', TestUsers (pol := server_may_join) 1 2 init_world = Ok ((), w') ∧
    ListChats (chats_of w') = (cs_chats (chats_of init_world) ++
      [Chat.mk (cs_next (chats_of init_world)) "user1chat" "Test User 1's Chat" 1])%list.
Proof.
  exact (TestUsers_passes (pol := server_may_join) 1 2 ltac:(lia) init_world chats_wf_empty
           ltac:(intros c Hc; by apply not_elem_of_nil in Hc)).
Defined.

Lemma TestChats_rerun_fails_witness :
  ∃ w', TestChats (pol := server_may_join) 1 (with_chats (mkChatStore [Chat.mk 1 "dbtestchat" "Test Chat" 1] 2) init_world) =
    Err (TFatal "error code 409: Chat already exists with address: dbtestchat" w').
Proof.
  exact (TestChats_rerun_fails (pol := server_may_join) 1
           (with_chats (mkChatStore [Chat.mk 1 "dbtestchat" "Test Chat" 1] 2) init_world)
           (Chat.mk 1 "dbtestchat" "Test Chat" 1) ltac:(decide_closed) eq_refl).
Defined.

Lemma TestChats_needs_empty_server_witness :
  ∃ w', TestChats (pol := server_may_join) 1 (with_chats (mkChatStore [Chat.mk 1 "other" "Other" 5] 2) init_world) =
    Err (TFatal "Expected 1 test chat to exist after deletion" w').
Proof.
  exact (TestChats_needs_empty_server (pol := server_may_join) 1
           (with_chats (mkChatStore [Chat.mk 1 "other" "Other" 5] 2) init_world)
           (create_chat_wf 5 "Other" "other" empty_chats chats_wf_empty
              ltac:(intros c Hc; by apply not_elem_of_nil in Hc))
           ltac:(vm_compute; congruence)
           ltac:(intros c Hc; apply list_elem_of_singleton in Hc; subst c; decide_closed)).
Defined.

Lemma TestUsers_same_user_fails_witness :
  ∃ w', TestUsers (pol := server_may_join) 1 1 init_world = Err (TFatal "Expected error, got nil" w').
Proof.
  exact (TestUsers_same_user_fails (pol := server_may_join) 1 init_world chats_wf_empty
           ltac:(intros c Hc; by apply not_elem_of_nil in Hc)).
Defined.
