(* ===== verification/WsScenarioFacts.v ===== *)
(** * WsScenarioFacts: [TestWebsockets] on the model

    [TestWebsockets] and its subtest [connect to websocket]
    ([TestWebsockets_connect]) are defined here, on the four subtests of
    [Scenarios].
    Each websocket subtest runs to completion from every world whose relay
    state satisfies [sys_inv], in which the room it uses exists and in
    which the uuids it draws are new to the message store; it stores its
    messages in order with consecutive ids and leaves every connection it
    opened closed.  These lemmas hold for every room policy that admits
    the two test users.  Under a policy that refuses one of them the
    room, each subtest that dials that user fails there, after the
    deferred close of any connection it opened, and the next subtest
    runs; when both are refused no message is stored and the like
    subtest panics on the empty page.  A uuid collision blocks. *)

From S2P Require Import Prelude Wire Likes Persister Registry Broadcaster Router Chats Lifecycle LifecycleFacts Harness HarnessFacts Scenarios.

(** The message a subtest sends, as [message_frame] embeds it. *)
Definition ws_msg (r : Z) (chat user : Z) (text : string) : Message :=
  mkMessage (Itoa r) (Some chat) (Some user) (Some text) 0.

(** The four messages [TestWebsockets] sends to room [k], with the ids the
    store gives them from [n] on. *)
Definition ws_messages (TestUser TestUser2 r1 r2 r3 r4 n k : Z) : list Message :=
  [with_id n (ws_msg r1 k TestUser henlo_text);
   with_id (n + 1) (ws_msg r2 k TestUser lorem_text);
   with_id (n + 2) (ws_msg r3 k TestUser2 smile_text);
   with_id (n + 3) (ws_msg r4 k TestUser eiusmod_text)].

(** A room policy that lets only [creator] join: the group check the
    test file leaves as a TODO, for rooms created by one user. *)
Definition creator_only (creator : Z) : RoomPolicy := λ user _, bool_decide (user = creator).

(** The uuids of a store's messages. *)
Definition uuids (db : MemDB) : list string := map UUID (db_messages db).

Section Websockets.
Context {pol : RoomPolicy}.
Variables TestUser TestUser2 r1 r2 r3 r4 : Z.

(** [t.Run("connect to websocket", ...)]: look the chat up by its
    address, then the four subtests in order on its id. *)
Definition TestWebsockets_connect : Test () :=
  r ← HttpGetChatByAddress "wstestchat";
  respChat ← http_ok r;
  t_Runs [TestWebsockets_send_couple TestUser r1 r2 (Chat.Chatid respChat);
          TestWebsockets_second_user TestUser2 r3 (Chat.Chatid respChat);
          TestWebsockets_verify_all TestUser TestUser2 r4 (Chat.Chatid respChat);
          TestWebsockets_like TestUser TestUser2 (Chat.Chatid respChat)].

(** [TestWebsockets]: create the chat ["wstestchat"], then the subtest
    [connect to websocket]. *)
Definition TestWebsockets : Test () :=
  r ← HttpPostChat TestUser "Test Chat" "wstestchat";
  _ ← http_ok r;
  t_Runs [TestWebsockets_connect].
End Websockets.

Lemma message_frame_msg r chat user text :
  message_frame (Itoa r) chat user text = event_frame (EvMessage (ws_msg r chat user text)).
Proof. reflexivity. Qed.


(** A uuid drawn from another random number than the ones of the new
    messages stays new. *)
Lemma fresh_uuid_app (db db' : MemDB) (new : list Message) r :
  db_messages db' = db_messages db ++ new → Itoa r ∉ uuids db →
  Forall (λ m, UUID m ≠ Itoa r) new → Itoa r ∉ uuids db'.
Proof.
  unfold uuids. intros -> Hr Hnew. rewrite map_app, elem_of_app. intros [|Hin]; [done|].
  apply list_elem_of_fmap in Hin as (m & Heq & Hm). rewrite Forall_forall in Hnew.
  by apply (Hnew m).
Qed.

Lemma ws_msg_uuid_ne id r r' chat user text :
  r ≠ r' → UUID (with_id id (ws_msg r' chat user text)) ≠ Itoa r.
Proof. intros Hne Heq. by apply Hne, Itoa_inj. Qed.

(** A message of room [k] is on the room's message page. *)
Lemma filter_page_nonempty k (l : list Message) m :
  m ∈ l → Chatid m = Some k → ∃ m0 rest, filter (λ m, Chatid m = Some k) l = m0 :: rest.
Proof.
  intros Hm Hk. destruct (filter _ l) as [|m0 rest] eqn:E; [|eauto].
  assert (Hin : m ∈ filter (λ m, Chatid m = Some k) l) by (by apply list_elem_of_filter).
  rewrite E in Hin. set_solver.
Qed.



(** One step of a test: the operation ran as the lemma says; go on with
    the rest of the test. *)
Ltac run_step H := repeat rewrite bind_assoc_run; rewrite (bind_run _ _ _ _ _ H); cbv beta.

Section Setup.
Context {pol : RoomPolicy}.
Variables TestUser TestUser2 r1 r2 r3 r4 : Z.

(** The setup of [TestWebsockets]: the chat ["wstestchat"] is created
    with the next chat id [k], and the subtest [connect to websocket]
    looks it up by its address; its four subtests then run on [k] in a
    world that differs only by the new chat. *)
Lemma TestWebsockets_setup_run w :
  sys_inv (w_sys w) →
  (∀ c, c ∈ cs_chats (sys_chats (w_sys w)) → Chat.Address c ≠ "wstestchat") →
  let k := cs_next (sys_chats (w_sys w)) in
  let ch := Chat.mk k "wstestchat" "Test Chat" TestUser in
  let w1 := with_chats (mkChatStore (cs_chats (sys_chats (w_sys w)) ++ [ch]) (k + 1)) w in
  TestWebsockets TestUser TestUser2 r1 r2 r3 r4 w =
    t_Runs [TestWebsockets_send_couple TestUser r1 r2 k; TestWebsockets_second_user TestUser2 r3 k;
            TestWebsockets_verify_all TestUser TestUser2 r4 k; TestWebsockets_like TestUser TestUser2 k] w1 ∧
  sys_inv (w_sys w1) ∧ LookupChat k (sys_chats (w_sys w1)) = Ok ch.
Proof.
  intros Hinv Hfree k ch w1.
  set (cs' := mkChatStore (cs_chats (sys_chats (w_sys w)) ++ [ch]) (k + 1)).
  assert (Hwf' : chats_wf cs') by (apply create_chat_wf; [apply Hinv|done]).
  assert (Hk : LookupChat k (sys_chats (w_sys w1)) = Ok ch)
    by (apply (lookup_chat_in cs' ch); [done|set_solver]).
  split_and!; [|by apply with_chats_inv|done].
  unfold TestWebsockets.
  run_step (post_chat_run _ _ _ w ch cs' (create_chat_ok _ _ _ _ Hfree)).
  run_step (http_ok_run ch w1).
  rewrite t_Runs_single. unfold TestWebsockets_connect.
  run_step (get_chat_by_address_run "wstestchat" w1).
  assert (Ha : LookupChatByAddress "wstestchat" (sys_chats (w_sys w1)) = Ok ch)
    by (apply (lookup_address_in cs' ch); [done|set_solver]).
  rewrite Ha. run_step (http_ok_run ch w1). done.
Qed.
End Setup.

Section Subtests.
Context {pol : RoomPolicy}.
Variables TestUser TestUser2 r1 r2 r3 r4 : Z.
Implicit Types (w : World).

Lemma TestWebsockets_send_couple_run k ch w :
  room_policy TestUser k = true → sys_inv (w_sys w) → LookupChat k (sys_chats (w_sys w)) = Ok ch →
  Itoa r1 ∉ uuids (db_of w) → Itoa r2 ∉ uuids (db_of w) → r1 ≠ r2 →
  ∃ w', TestWebsockets_send_couple TestUser r1 r2 k w = Ok ((), w') ∧ sys_inv (w_sys w') ∧
    (all_closed w → all_closed w') ∧
    sys_chats (w_sys w') = sys_chats (w_sys w) ∧
    db_of w' = mkMemDB (db_messages (db_of w) ++
                 [with_id (db_next (db_of w)) (ws_msg r1 k TestUser henlo_text);
                  with_id (db_next (db_of w) + 1) (ws_msg r2 k TestUser lorem_text)])
               (db_next (db_of w) + 2) (db_likes (db_of w)).
Proof.
  intros Hp1 Hinv Hk Hf1 Hf2 Hne. unfold TestWebsockets_send_couple.
  destruct (dial_run TestUser k ch w Hinv Hk Hp1)
    as (w1 & Hd & Hinv1 & Hcn1 & Ho1 & Hup1 & _ & _ & _ & Hch1 & Hdb1 & _).
  destruct (send_verify_run _ TestUser k (ws_msg r1 k TestUser henlo_text) w1 Hinv1 Ho1 Hup1)
    as (w2 & Hs2 & Hinv2 & Hcn2 & Hup2 & Hch2 & _ & Hdb2 & Hopen2 & _); try done.
  { by rewrite Hdb1. }
  destruct (send_verify_run _ TestUser k (ws_msg r2 k TestUser lorem_text) w2 Hinv2
              (Hopen2 _ _ _ Ho1) Hup2)
    as (w3 & Hs3 & Hinv3 & Hcn3 & _ & Hch3 & _ & Hdb3 & Hopen3 & _); try done.
  { change (Itoa r2 ∉ uuids (db_of w2)). eapply fresh_uuid_app; [by rewrite Hdb2, Hdb1|done|].
    repeat constructor. by apply ws_msg_uuid_ne. }
  destruct (close_run _ TestUser k w3 Hinv3 (Hopen3 _ _ _ (Hopen2 _ _ _ Ho1)))
    as (w4 & Hc4 & Hinv4 & Hcn4 & _ & Hch4 & _ & Hdb4 & _).
  exists w4. split_and!; [|done| |congruence|].
  - run_step Hd. run_step (ws_ok_run (sys_next (w_sys w)) w1).
    apply (defer_ok _ _ _ () w3); [|exact Hc4].
    rewrite !message_frame_msg. run_step Hs2. run_step Hs3. done.
  - intros Hcl. unfold all_closed. rewrite Hcn4, Hcn3, Hcn2, Hcn1. by apply closed_reopen1.
  - rewrite Hdb4, Hdb3, Hdb2, Hdb1. simpl. rewrite <-app_assoc. f_equal. lia.
Qed.

Lemma TestWebsockets_second_user_run k ch w :
  room_policy TestUser2 k = true → sys_inv (w_sys w) → LookupChat k (sys_chats (w_sys w)) = Ok ch → Itoa r3 ∉ uuids (db_of w) →
  ∃ w', TestWebsockets_second_user TestUser2 r3 k w = Ok ((), w') ∧ sys_inv (w_sys w') ∧
    (all_closed w → all_closed w') ∧
    sys_chats (w_sys w') = sys_chats (w_sys w) ∧
    db_of w' = mkMemDB (db_messages (db_of w) ++
                 [with_id (db_next (db_of w)) (ws_msg r3 k TestUser2 smile_text)])
               (db_next (db_of w) + 1) (db_likes (db_of w)).
Proof.
  intros Hp2 Hinv Hk Hf3. unfold TestWebsockets_second_user.
  destruct (dial_run TestUser2 k ch w Hinv Hk Hp2)
    as (w1 & Hd & Hinv1 & Hcn1 & Ho1 & Hup1 & _ & _ & _ & Hch1 & Hdb1 & _).
  destruct (send_verify_run _ TestUser2 k (ws_msg r3 k TestUser2 smile_text) w1 Hinv1 Ho1 Hup1)
    as (w2 & Hs2 & Hinv2 & Hcn2 & _ & Hch2 & _ & Hdb2 & Hopen2 & _); try done.
  { by rewrite Hdb1. }
  destruct (close_run _ TestUser2 k w2 Hinv2 (Hopen2 _ _ _ Ho1))
    as (w3 & Hc3 & Hinv3 & Hcn3 & _ & Hch3 & _ & Hdb3 & _).
  exists w3. split_and!; [|done| |congruence|].
  - run_step Hd. run_step (ws_ok_run (sys_next (w_sys w)) w1).
    apply (defer_ok _ _ _ () w2); [|exact Hc3].
    rewrite message_frame_msg. run_step Hs2. done.
  - intros Hcl. unfold all_closed. rewrite Hcn3, Hcn2, Hcn1. by apply closed_reopen1.
  - by rewrite Hdb3, Hdb2, Hdb1.
Qed.

Lemma TestWebsockets_verify_all_run k ch w :
  room_policy TestUser k = true → room_policy TestUser2 k = true → sys_inv (w_sys w) → LookupChat k (sys_chats (w_sys w)) = Ok ch → Itoa r4 ∉ uuids (db_of w) →
  ∃ w', TestWebsockets_verify_all TestUser TestUser2 r4 k w = Ok ((), w') ∧ sys_inv (w_sys w') ∧
    (all_closed w → all_closed w') ∧
    sys_chats (w_sys w') = sys_chats (w_sys w) ∧
    db_of w' = mkMemDB (db_messages (db_of w) ++
                 [with_id (db_next (db_of w)) (ws_msg r4 k TestUser eiusmod_text)])
               (db_next (db_of w) + 1) (db_likes (db_of w)).
Proof.
  intros Hp1 Hp2 Hinv Hk Hf4. unfold TestWebsockets_verify_all.
  set (c1 := sys_next (w_sys w)).
  destruct (dial_run TestUser k ch w Hinv Hk Hp1)
    as (w1 & Hd1 & Hinv1 & Hcn1 & Ho1 & Hup1 & Hcur1 & Hout1 & Hnx1 & Hch1 & Hdb1 & _).
  set (c2 := sys_next (w_sys w1)).
  destruct (dial_run TestUser2 k ch w1 Hinv1 ltac:(by rewrite Hch1) Hp2)
    as (w2 & Hd2 & Hinv2 & Hcn2 & Ho2 & Hup2 & Hcur2 & Hout2 & Hnx2 & Hch2 & Hdb2 & Hopen2).
  assert (Hne : c1 ≠ c2) by (unfold c2; rewrite Hnx1; lia).
  destruct (send_verify_run c1 TestUser k (ws_msg r4 k TestUser eiusmod_text) w2 Hinv2
              (Hopen2 _ _ _ Ho1) (caught_up_other w1 w2 c2 c1 Hcur2 Hout2 Hne Hup1))
    as (w3 & Hs3 & Hinv3 & Hcn3 & _ & Hch3 & _ & Hdb3 & Hopen3 & Hcur3 & Hout3); try done.
  { by rewrite Hdb2, Hdb1. }
  set (f := event_frame (EvMessage (with_id (db_next (db_of w2)) (ws_msg r4 k TestUser eiusmod_text)))).
  assert (Hq : out_of (w_sys w3) !!! c2 = [f]).
  { rewrite (Hout3 c2 TestUser2 Ho2), Hout2.
    pose proof (inv_out_fresh _ Hinv1 c2 (le_n _)) as Hq. by rewrite Hq. }
  assert (Hr : w_cursor w3 !!! c2 = 0).
  { rewrite Hcur3 by done. by rewrite Hcur2, lookup_total_insert_eq. }
  set (w4 := mkWorld (w_sys w3) (<[c2:=S (w_cursor w3 !!! c2)]> (w_cursor w3))).
  destruct (close_run c2 TestUser2 k w4 Hinv3 (Hopen3 _ _ _ Ho2))
    as (w5 & Hc5 & Hinv5 & Hcn5 & _ & Hch5 & _ & Hdb5 & _ & Hopen5).
  destruct (close_run c1 TestUser k w5 Hinv5 (Hopen5 _ _ _ Hne (Hopen3 _ _ _ (Hopen2 _ _ _ Ho1))))
    as (w6 & Hc6 & Hinv6 & Hcn6 & _ & Hch6 & _ & Hdb6 & _).
  exists w6. split_and!; [|done| | |].
  - run_step Hd1. run_step (ws_ok_run c1 w1).
    apply (defer_ok _ _ _ () w5); [|exact Hc6].
    run_step Hd2. run_step (ws_ok_run c2 w2).
    apply (defer_ok _ _ _ () w4); [|exact Hc5].
    rewrite (message_frame_msg r4). run_step Hs3.
    run_step (read_run c2 w3 f ltac:(by rewrite Hr, Hq)).
    unfold expect. by rewrite bool_decide_eq_true_2.
  - intros Hcl. unfold all_closed. rewrite Hcn6, Hcn5. change (w_sys w4) with (w_sys w3).
    rewrite Hcn3, Hcn2, Hcn1. by apply closed_reopen2.
  - rewrite Hch6, Hch5. simpl. by rewrite Hch3, Hch2, Hch1.
  - rewrite Hdb6, Hdb5. change (db_of w4) with (db_of w3). by rewrite Hdb3, Hdb2, Hdb1.
Qed.

Lemma TestWebsockets_like_run k ch w m0 rest :
  room_policy TestUser k = true → room_policy TestUser2 k = true → sys_inv (w_sys w) → LookupChat k (sys_chats (w_sys w)) = Ok ch →
  filter (λ m, Chatid m = Some k) (db_messages (db_of w)) = m0 :: rest →
  ∃ w', TestWebsockets_like TestUser TestUser2 k w = Ok ((), w') ∧ sys_inv (w_sys w') ∧
    (all_closed w → all_closed w') ∧
    sys_chats (w_sys w') = sys_chats (w_sys w) ∧
    db_of w' = mkMemDB (db_messages (db_of w)) (db_next (db_of w))
                 (toggle_like (mkDBLike (like_message_id m0) TestUser) (db_likes (db_of w))).
Proof.
  intros Hp1 Hp2 Hinv Hk Hm. unfold TestWebsockets_like.
  set (c1 := sys_next (w_sys w)).
  destruct (dial_run TestUser k ch w Hinv Hk Hp1)
    as (w1 & Hd1 & Hinv1 & Hcn1 & Ho1 & Hup1 & Hcur1 & Hout1 & Hnx1 & Hch1 & Hdb1 & _).
  set (c2 := sys_next (w_sys w1)).
  destruct (dial_run TestUser2 k ch w1 Hinv1 ltac:(by rewrite Hch1) Hp2)
    as (w2 & Hd2 & Hinv2 & Hcn2 & Ho2 & Hup2 & Hcur2 & Hout2 & Hnx2 & Hch2 & Hdb2 & Hopen2).
  assert (Hne : c1 ≠ c2) by (unfold c2; rewrite Hnx1; lia).
  set (lf := like_frame (like_message_id m0)).
  destruct (write_like_run c1 TestUser k (like_message_id m0) w2 Hinv2 (Hopen2 _ _ _ Ho1))
    as (w3 & Hw3 & Hinv3 & Hcn3 & Hcur3 & Hch3 & _ & Hdb3 & Hopen3 & Hout3).
  assert (Hq1 : out_of (w_sys w3) !!! c1 = [lf]).
  { rewrite (Hout3 c1 TestUser (Hopen2 _ _ _ Ho1)), Hout2, Hout1.
    pose proof (inv_out_fresh _ Hinv c1 (le_n _)) as Hq. by rewrite Hq. }
  assert (Hq2 : out_of (w_sys w3) !!! c2 = [lf]).
  { rewrite (Hout3 c2 TestUser2 Ho2), Hout2.
    pose proof (inv_out_fresh _ Hinv1 c2 (le_n _)) as Hq. by rewrite Hq. }
  assert (Hr1 : w_cursor w3 !!! c1 = 0).
  { by rewrite Hcur3, Hcur2, lookup_total_insert_ne, Hcur1, lookup_total_insert_eq. }
  set (w4 := mkWorld (w_sys w3) (<[c1:=S (w_cursor w3 !!! c1)]> (w_cursor w3))).
  assert (Hr2 : w_cursor w4 !!! c2 = 0).
  { unfold w4. cbn [w_cursor]. rewrite lookup_total_insert_ne by done.
    by rewrite Hcur3, Hcur2, lookup_total_insert_eq. }
  set (w5 := mkWorld (w_sys w4) (<[c2:=S (w_cursor w4 !!! c2)]> (w_cursor w4))).
  destruct (close_run c2 TestUser2 k w5 Hinv3 (Hopen3 _ _ _ Ho2))
    as (w6 & Hc6 & Hinv6 & Hcn6 & _ & Hch6 & _ & Hdb6 & _ & Hopen6).
  destruct (close_run c1 TestUser k w6 Hinv6 (Hopen6 _ _ _ Hne (Hopen3 _ _ _ (Hopen2 _ _ _ Ho1))))
    as (w7 & Hc7 & Hinv7 & Hcn7 & _ & Hch7 & _ & Hdb7 & _).
  exists w7. split_and!; [|done| | |].
  - run_step (get_messages_run k w). rewrite Hm. cbv iota.
    run_step Hd1. run_step (ws_ok_run c1 w1).
    apply (defer_ok _ _ _ () w6); [|exact Hc7].
    run_step Hd2. run_step (ws_ok_run c2 w2).
    apply (defer_ok _ _ _ () w5); [|exact Hc6].
    run_step Hw3. run_step (read_run c1 w3 lf ltac:(by rewrite Hr1, Hq1)).
    unfold expect. rewrite bool_decide_eq_true_2 by done.
    run_step (ret_run () w4).
    run_step (read_run c2 w4 lf ltac:(rewrite Hr2; change (w_sys w4) with (w_sys w3); by rewrite Hq2)).
    by rewrite bool_decide_eq_true_2.
  - intros Hcl. unfold all_closed. rewrite Hcn7, Hcn6. change (w_sys w5) with (w_sys w3).
    rewrite Hcn3, Hcn2, Hcn1. by apply closed_reopen2.
  - rewrite Hch7, Hch6. simpl. by rewrite Hch3, Hch2, Hch1.
  - rewrite Hdb7, Hdb6. change (db_of w5) with (db_of w3). by rewrite Hdb3, Hdb2, Hdb1.
Qed.

Lemma TestWebsockets_run w :
  room_policy TestUser (cs_next (sys_chats (w_sys w))) = true →
  room_policy TestUser2 (cs_next (sys_chats (w_sys w))) = true →
  sys_inv (w_sys w) →
  (∀ c, c ∈ cs_chats (sys_chats (w_sys w)) → Chat.Address c ≠ "wstestchat") →
  Forall (λ r, Itoa r ∉ uuids (db_of w)) [r1; r2; r3; r4] → NoDup [r1; r2; r3; r4] →
  ∃ w', TestWebsockets TestUser TestUser2 r1 r2 r3 r4 w = Ok ((), w') ∧ sys_inv (w_sys w') ∧
    (all_closed w → all_closed w') ∧
    sys_chats (w_sys w') =
      mkChatStore (cs_chats (sys_chats (w_sys w)) ++
                   [Chat.mk (cs_next (sys_chats (w_sys w))) "wstestchat" "Test Chat" TestUser])
                  (cs_next (sys_chats (w_sys w)) + 1) ∧
    db_messages (db_of w') =
      db_messages (db_of w) ++ ws_messages TestUser TestUser2 r1 r2 r3 r4 (db_next (db_of w)) (cs_next (sys_chats (w_sys w))) ∧
    db_likes (db_of w') =
      match head (filter (λ m, Chatid m = Some (cs_next (sys_chats (w_sys w))))
                    (db_messages (db_of w') )) with
      | Some m0 => toggle_like (mkDBLike (like_message_id m0) TestUser) (db_likes (db_of w))
      | None => db_likes (db_of w)
      end.
Proof.
  intros Hp1 Hp2 Hinv Hfree Hfresh Hnd.
  rewrite !Forall_cons in Hfresh. destruct Hfresh as (Hf1 & Hf2 & Hf3 & Hf4 & _).
  rewrite !NoDup_cons in Hnd. destruct Hnd as (Hn1 & Hn2 & Hn3 & _).
  destruct (TestWebsockets_setup_run TestUser TestUser2 r1 r2 r3 r4 w Hinv Hfree) as (Hsetup & Hinv1 & Hk).
  set (k := cs_next (sys_chats (w_sys w))) in *.
  set (ch := Chat.mk k "wstestchat" "Test Chat" TestUser) in *.
  set (w1 := with_chats _ w) in *.
  rewrite Hsetup.
  destruct (TestWebsockets_send_couple_run k ch w1 Hp1 Hinv1 Hk Hf1 Hf2 ltac:(set_solver))
    as (w2 & Hr2 & Hinv2 & Hcl2 & Hch2 & Hdb2).
  rewrite (t_Runs_cons_ok _ _ _ _ Hr2).
  destruct (TestWebsockets_second_user_run k ch w2 Hp2 Hinv2 ltac:(by rewrite Hch2))
    as (w3 & Hr3 & Hinv3 & Hcl3 & Hch3 & Hdb3).
  { eapply fresh_uuid_app; [by rewrite Hdb2|done|].
    repeat constructor; apply ws_msg_uuid_ne; set_solver. }
  rewrite (t_Runs_cons_ok _ _ _ _ Hr3).
  destruct (TestWebsockets_verify_all_run k ch w3 Hp1 Hp2 Hinv3 ltac:(by rewrite Hch3, Hch2))
    as (w4 & Hr4 & Hinv4 & Hcl4 & Hch4 & Hdb4).
  { eapply fresh_uuid_app; [by rewrite Hdb3, Hdb2; simpl; rewrite <-app_assoc|done|].
    repeat constructor; apply ws_msg_uuid_ne; set_solver. }
  rewrite (t_Runs_cons_ok _ _ _ _ Hr4).
  destruct (filter_page_nonempty k (db_messages (db_of w4))
              (with_id (db_next (db_of w)) (ws_msg r1 k TestUser henlo_text)))
    as (m0 & rest & Hpage); [|done|].
  { rewrite Hdb4, Hdb3, Hdb2. simpl. set_solver. }
  destruct (TestWebsockets_like_run k ch w4 m0 rest Hp1 Hp2 Hinv4 ltac:(by rewrite Hch4, Hch3, Hch2) Hpage)
    as (w5 & Hr5 & Hinv5 & Hcl5 & Hch5 & Hdb5).
  exists w5. split_and!; [by rewrite t_Runs_single|done| |by rewrite Hch5, Hch4, Hch3, Hch2| |].
  - intros Hcl. by apply Hcl5, Hcl4, Hcl3, Hcl2.
  - rewrite Hdb5, Hdb4, Hdb3, Hdb2. simpl. rewrite <-!app_assoc. unfold ws_messages.
    change (db_of w1) with (db_of w). f_equal. simpl.
    by replace (db_next (db_of w) + 2 + 1)%Z with (db_next (db_of w) + 3)%Z by lia.
  - rewrite Hdb5. cbn [db_messages db_likes]. fold k. rewrite Hpage. simpl.
    rewrite Hdb4, Hdb3, Hdb2. done.
Qed.

(** C2: [TestWebsockets] passes on every state the server can reach from
    a well-formed start, under any room policy that admits the two test
    users, whatever other clients did before (any
    interleaving of connections, frames, closes, broken transports and
    chat requests), provided the address ["wstestchat"] is free and the
    four random uuids are distinct and new: its four messages are stored
    in the order they were sent, with consecutive ids. *)
Theorem TestWebsockets_passes (cs0 : ChatStore) (db0 : MemDB) w :
  room_policy TestUser (cs_next (sys_chats (w_sys w))) = true →
  room_policy TestUser2 (cs_next (sys_chats (w_sys w))) = true →
  memdb_wf db0 → chats_wf cs0 → reachable room_policy (init_sys cs0 db0) (w_sys w) →
  (∀ c, c ∈ cs_chats (sys_chats (w_sys w)) → Chat.Address c ≠ "wstestchat") →
  Forall (λ r, Itoa r ∉ uuids (db_of w)) [r1; r2; r3; r4] → NoDup [r1; r2; r3; r4] →
  ∃ w', TestWebsockets TestUser TestUser2 r1 r2 r3 r4 w = Ok ((), w') ∧
    db_messages (db_of w') =
      db_messages (db_of w) ++ ws_messages TestUser TestUser2 r1 r2 r3 r4 (db_next (db_of w)) (cs_next (sys_chats (w_sys w))).
Proof.
  intros Hp1 Hp2 Hdb Hcs Hr Hfree Hfresh Hnd.
  destruct (TestWebsockets_run w Hp1 Hp2) as (w' & Hrun & _ & _ & _ & Hmsgs & _); try done.
  - by eapply (reachable_inv room_policy cs0 db0).
  - by exists w'.
Qed.
End Subtests.

Section Policies.
Context {pol : RoomPolicy}.
Variables TestUser TestUser2 r1 r2 r3 r4 : Z.
Implicit Types (w : World).

(** What a subtest leaves for the next ones when it changes no row:
    the invariant, no connection left open, the same chats and store. *)
Definition unchanged_after (w w' : World) : Prop :=
  sys_inv (w_sys w') ∧ (all_closed w → all_closed w') ∧
  sys_chats (w_sys w') = sys_chats (w_sys w) ∧ db_of w' = db_of w.

Lemma same_view_unchanged w w' : sys_inv (w_sys w') → same_view w w' → unchanged_after w w'.
Proof.
  intros Hinv Hv. split_and!; [done|by apply same_view_closed|by destruct Hv|by apply same_view_db].
Qed.

(** A subtest whose first dial the policy refuses stops there with the
    handshake error, before any [defer]: nothing is left open. *)
Lemma refused_first_dial {A} u k ch w (body : ConnId → Test A) :
  room_policy u k = false → sys_inv (w_sys w) → LookupChat k (sys_chats (w_sys w)) = Ok ch →
  ∃ w', (r ← Dial u u k; conn ← ws_ok r; body conn) w = Err (TFatal "websocket: bad handshake" w') ∧
    unchanged_after w w'.
Proof.
  intros Hp Hinv Hk. destruct (dial_refused u k ch w Hinv Hk Hp) as (w' & Hd & Hinv' & Hv).
  exists w'. split; [|by apply same_view_unchanged]. run_step Hd. done.
Qed.

(** A subtest whose first dial succeeds and whose second dial the policy
    refuses: the deferred close of the first connection runs. *)
Lemma refused_second_dial u u2 k ch w (body : ConnId → ConnId → Test ()) :
  room_policy u k = true → room_policy u2 k = false → sys_inv (w_sys w) →
  LookupChat k (sys_chats (w_sys w)) = Ok ch →
  ∃ w', (r ← Dial u u k; conn ← ws_ok r;
         defer (CloseConn conn) (r ← Dial u2 u2 k; conn2 ← ws_ok r; body conn conn2)) w =
          Err (TFatal "websocket: bad handshake" w') ∧ unchanged_after w w'.
Proof.
  intros Hp1 Hp2 Hinv Hk.
  destruct (dial_run u k ch w Hinv Hk Hp1) as (w1 & Hd1 & Hinv1 & Hcn1 & Ho1 & _ & _ & _ & _ & Hch1 & Hdb1 & _).
  destruct (dial_refused u2 k ch w1 Hinv1 ltac:(by rewrite Hch1) Hp2) as (w2 & Hd2 & Hinv2 & Hv2).
  destruct (close_run _ u k w2 Hinv2 (same_view_open _ _ _ _ _ Hv2 Ho1))
    as (w3 & Hc3 & Hinv3 & Hcn3 & _ & Hch3 & _ & Hdb3 & _).
  destruct Hv2 as (Hch2 & Hsrv2 & Hcn2 & _).
  exists w3. unfold unchanged_after. split_and!.
  - run_step Hd1. run_step (ws_ok_run (sys_next (w_sys w)) w1). apply (defer_fatal _ _ _ _ w2); [|exact Hc3].
    run_step Hd2. done.
  - done.
  - intros Hcl. unfold all_closed. rewrite Hcn3, Hcn2, Hcn1. by apply closed_reopen1.
  - by rewrite Hch3, Hch2, Hch1.
  - rewrite Hdb3. unfold db_of in *. by rewrite Hsrv2.
Qed.

(** The like subtest on a room whose message page is empty: indexing
    [Messages[0]] panics before anything else happens. *)
Lemma TestWebsockets_like_empty k w :
  filter (λ m, Chatid m = Some k) (db_messages (db_of w)) = [] →
  TestWebsockets_like TestUser TestUser2 k w = Err (TPanic "index out of range").
Proof. intros Hm. unfold TestWebsockets_like. run_step (get_messages_run k w). by rewrite Hm. Qed.

Lemma TestWebsockets_like_refused1 k ch w m0 rest :
  room_policy TestUser k = false → sys_inv (w_sys w) → LookupChat k (sys_chats (w_sys w)) = Ok ch →
  filter (λ m, Chatid m = Some k) (db_messages (db_of w)) = m0 :: rest →
  ∃ w', TestWebsockets_like TestUser TestUser2 k w = Err (TFatal "websocket: bad handshake" w') ∧
    unchanged_after w w'.
Proof.
  intros Hp Hinv Hk Hm. unfold TestWebsockets_like. run_step (get_messages_run k w). rewrite Hm.
  by apply (refused_first_dial TestUser k ch w).
Qed.

Lemma TestWebsockets_like_refused2 k ch w m0 rest :
  room_policy TestUser k = true → room_policy TestUser2 k = false → sys_inv (w_sys w) →
  LookupChat k (sys_chats (w_sys w)) = Ok ch →
  filter (λ m, Chatid m = Some k) (db_messages (db_of w)) = m0 :: rest →
  ∃ w', TestWebsockets_like TestUser TestUser2 k w = Err (TFatal "websocket: bad handshake" w') ∧
    unchanged_after w w'.
Proof.
  intros Hp1 Hp2 Hinv Hk Hm. unfold TestWebsockets_like. run_step (get_messages_run k w). rewrite Hm.
  by apply (refused_second_dial TestUser TestUser2 k ch w).
Qed.

Lemma TestWebsockets_send_couple_refused k ch w :
  room_policy TestUser k = false → sys_inv (w_sys w) → LookupChat k (sys_chats (w_sys w)) = Ok ch →
  ∃ w', TestWebsockets_send_couple TestUser r1 r2 k w = Err (TFatal "websocket: bad handshake" w') ∧
    unchanged_after w w'.
Proof. intros. unfold TestWebsockets_send_couple. by apply (refused_first_dial TestUser k ch w). Qed.

Lemma TestWebsockets_second_user_refused k ch w :
  room_policy TestUser2 k = false → sys_inv (w_sys w) → LookupChat k (sys_chats (w_sys w)) = Ok ch →
  ∃ w', TestWebsockets_second_user TestUser2 r3 k w = Err (TFatal "websocket: bad handshake" w') ∧
    unchanged_after w w'.
Proof. intros. unfold TestWebsockets_second_user. by apply (refused_first_dial TestUser2 k ch w). Qed.

Lemma TestWebsockets_verify_all_refused1 k ch w :
  room_policy TestUser k = false → sys_inv (w_sys w) → LookupChat k (sys_chats (w_sys w)) = Ok ch →
  ∃ w', TestWebsockets_verify_all TestUser TestUser2 r4 k w = Err (TFatal "websocket: bad handshake" w') ∧
    unchanged_after w w'.
Proof. intros. unfold TestWebsockets_verify_all. by apply (refused_first_dial TestUser k ch w). Qed.

Lemma TestWebsockets_verify_all_refused2 k ch w :
  room_policy TestUser k = true → room_policy TestUser2 k = false → sys_inv (w_sys w) →
  LookupChat k (sys_chats (w_sys w)) = Ok ch →
  ∃ w', TestWebsockets_verify_all TestUser TestUser2 r4 k w = Err (TFatal "websocket: bad handshake" w') ∧
    unchanged_after w w'.
Proof. intros. unfold TestWebsockets_verify_all. by apply (refused_second_dial TestUser TestUser2 k ch w). Qed.

(** The first subtest when its two messages carry the same uuid: the
    store refuses the second, the server sends nothing back, and the
    client waits for its echo for ever. *)
Lemma TestWebsockets_send_couple_collision k ch w :
  room_policy TestUser k = true → sys_inv (w_sys w) → LookupChat k (sys_chats (w_sys w)) = Ok ch →
  Itoa r1 ∉ uuids (db_of w) →
  TestWebsockets_send_couple TestUser r1 r1 k w = Err (TBlocked (sys_next (w_sys w))).
Proof.
  intros Hp Hinv Hk Hf. unfold TestWebsockets_send_couple.
  destruct (dial_run TestUser k ch w Hinv Hk Hp)
    as (w1 & Hd & Hinv1 & _ & Ho1 & Hup1 & _ & _ & _ & _ & Hdb1 & _).
  run_step Hd. run_step (ws_ok_run (sys_next (w_sys w)) w1). apply defer_blocked.
  rewrite (message_frame_msg r1).
  destruct (send_verify_run _ TestUser k (ws_msg r1 k TestUser henlo_text) w1 Hinv1 Ho1 Hup1)
    as (w2 & Hs2 & _ & _ & Hup2 & _ & _ & Hdb2 & Hopen2 & _); try done.
  { by rewrite Hdb1. }
  run_step Hs2. apply bind_err. unfold WSSendAndVerify.
  rewrite (bind_run _ _ _ () w2).
  - apply bind_err, read_blocked, Hup2.
  - eapply write_rejected_run; [exact (Hopen2 _ _ _ Ho1)|]. apply handle_dup_uuid; [done|done|].
    change (Itoa r1 ∈ uuids (db_of w2)). unfold uuids. rewrite Hdb2. simpl.
    rewrite fmap_app. set_solver.
Qed.

(** The three outcomes of [TestWebsockets] when the policy refuses a
    test user the new room; each subtest that fails still runs its
    deferred closes, and the later subtests run. *)
Lemma TestWebsockets_refused_user2_run w :
  room_policy TestUser (cs_next (sys_chats (w_sys w))) = true → sys_inv (w_sys w) →
  (∀ c, c ∈ cs_chats (sys_chats (w_sys w)) → Chat.Address c ≠ "wstestchat") →
  Itoa r1 ∉ uuids (db_of w) → Itoa r2 ∉ uuids (db_of w) → r1 ≠ r2 →
  room_policy TestUser2 (cs_next (sys_chats (w_sys w))) = false →
  ∃ w', TestWebsockets TestUser TestUser2 r1 r2 r3 r4 w = Err (TFatal "websocket: bad handshake" w') ∧
    sys_inv (w_sys w') ∧ (all_closed w → all_closed w') ∧
    db_messages (db_of w') = db_messages (db_of w) ++
      [with_id (db_next (db_of w)) (ws_msg r1 (cs_next (sys_chats (w_sys w))) TestUser henlo_text);
       with_id (db_next (db_of w) + 1) (ws_msg r2 (cs_next (sys_chats (w_sys w))) TestUser lorem_text)] ∧
    db_likes (db_of w') = db_likes (db_of w).
Proof.
  intros Hp1 Hinv Hfree Hf1 Hf2 Hne Hp2.
  destruct (TestWebsockets_setup_run TestUser TestUser2 r1 r2 r3 r4 w Hinv Hfree) as (-> & Hinv1 & Hk).
  set (k := cs_next (sys_chats (w_sys w))) in *.
  destruct (TestWebsockets_send_couple_run TestUser r1 r2 _ _ _ Hp1 Hinv1 Hk Hf1 Hf2 Hne)
    as (w2 & Hr2 & Hinv2 & Hcl2 & Hch2 & Hdb2).
  destruct (TestWebsockets_second_user_refused _ _ w2 Hp2 Hinv2 ltac:(by rewrite Hch2))
    as (w3 & Hr3 & Hinv3 & Hcl3 & Hch3 & Hdb3).
  destruct (TestWebsockets_verify_all_refused2 _ _ w3 Hp1 Hp2 Hinv3 ltac:(by rewrite Hch3, Hch2))
    as (w4 & Hr4 & Hinv4 & Hcl4 & Hch4 & Hdb4).
  destruct (filter_page_nonempty k (db_messages (db_of w4))
              (with_id (db_next (db_of w)) (ws_msg r1 k TestUser henlo_text)))
    as (m0 & rest & Hpage); [|done|].
  { rewrite Hdb4, Hdb3, Hdb2. simpl. set_solver. }
  destruct (TestWebsockets_like_refused2 _ _ w4 m0 rest Hp1 Hp2 Hinv4 ltac:(by rewrite Hch4, Hch3, Hch2) Hpage)
    as (w5 & Hr5 & Hinv5 & Hcl5 & _ & Hdb5).
  exists w5. split_and!.
  - rewrite (t_Runs_cons_ok _ _ _ _ Hr2). eapply (t_Runs_cons_fatal _ _ _ _ _ _ _ Hr3).
    eapply (t_runs_cons_fatal _ _ _ _ _ _ _ Hr4). by eapply (t_runs_cons_fatal _ _ _ _ _ _ _ Hr5).
  - done.
  - intros Hcl. by apply Hcl5, Hcl4, Hcl3, Hcl2.
  - by rewrite Hdb5, Hdb4, Hdb3, Hdb2.
  - by rewrite Hdb5, Hdb4, Hdb3, Hdb2.
Qed.

Lemma TestWebsockets_refused_user1_run w :
  room_policy TestUser (cs_next (sys_chats (w_sys w))) = false →
  room_policy TestUser2 (cs_next (sys_chats (w_sys w))) = true → sys_inv (w_sys w) →
  (∀ c, c ∈ cs_chats (sys_chats (w_sys w)) → Chat.Address c ≠ "wstestchat") →
  Itoa r3 ∉ uuids (db_of w) →
  ∃ w', TestWebsockets TestUser TestUser2 r1 r2 r3 r4 w = Err (TFatal "websocket: bad handshake" w').
Proof.
  intros Hp1 Hp2 Hinv Hfree Hf3.
  destruct (TestWebsockets_setup_run TestUser TestUser2 r1 r2 r3 r4 w Hinv Hfree) as (-> & Hinv1 & Hk).
  set (k := cs_next (sys_chats (w_sys w))) in *.
  destruct (TestWebsockets_send_couple_refused _ _ _ Hp1 Hinv1 Hk)
    as (w2 & Hr2 & Hinv2 & _ & Hch2 & Hdb2).
  destruct (TestWebsockets_second_user_run TestUser2 r3 _ _ w2 Hp2 Hinv2 ltac:(by rewrite Hch2))
    as (w3 & Hr3 & Hinv3 & _ & Hch3 & Hdb3).
  { by rewrite Hdb2. }
  destruct (TestWebsockets_verify_all_refused1 _ _ w3 Hp1 Hinv3 ltac:(by rewrite Hch3, Hch2))
    as (w4 & Hr4 & Hinv4 & _ & Hch4 & Hdb4).
  destruct (filter_page_nonempty k (db_messages (db_of w4))
              (with_id (db_next (db_of w2)) (ws_msg r3 k TestUser2 smile_text)))
    as (m0 & rest & Hpage); [|done|].
  { rewrite Hdb4, Hdb3. simpl. set_solver. }
  destruct (TestWebsockets_like_refused1 _ _ w4 m0 rest Hp1 Hinv4 ltac:(by rewrite Hch4, Hch3, Hch2) Hpage)
    as (w5 & Hr5 & _).
  exists w5. eapply (t_Runs_cons_fatal _ _ _ _ _ _ _ Hr2).
  rewrite (t_runs_cons_ok _ _ _ _ Hr3). eapply (t_runs_cons_fatal _ _ _ _ _ _ _ Hr4).
  by eapply (t_runs_cons_fatal _ _ _ _ _ _ _ Hr5).
Qed.

Lemma TestWebsockets_refused_both_run w :
  room_policy TestUser (cs_next (sys_chats (w_sys w))) = false →
  room_policy TestUser2 (cs_next (sys_chats (w_sys w))) = false → sys_inv (w_sys w) →
  (∀ c, c ∈ cs_chats (sys_chats (w_sys w)) → Chat.Address c ≠ "wstestchat") →
  match filter (λ m, Chatid m = Some (cs_next (sys_chats (w_sys w)))) (db_messages (db_of w)) with
  | [] => TestWebsockets TestUser TestUser2 r1 r2 r3 r4 w = Err (TPanic "index out of range")
  | _ :: _ => ∃ w', TestWebsockets TestUser TestUser2 r1 r2 r3 r4 w = Err (TFatal "websocket: bad handshake" w')
  end.
Proof.
  intros Hp1 Hp2 Hinv Hfree.
  destruct (TestWebsockets_setup_run TestUser TestUser2 r1 r2 r3 r4 w Hinv Hfree) as (-> & Hinv1 & Hk).
  set (k := cs_next (sys_chats (w_sys w))) in *.
  destruct (TestWebsockets_send_couple_refused _ _ _ Hp1 Hinv1 Hk)
    as (w2 & Hr2 & Hinv2 & _ & Hch2 & Hdb2).
  destruct (TestWebsockets_second_user_refused _ _ w2 Hp2 Hinv2 ltac:(by rewrite Hch2))
    as (w3 & Hr3 & Hinv3 & _ & Hch3 & Hdb3).
  destruct (TestWebsockets_verify_all_refused1 _ _ w3 Hp1 Hinv3 ltac:(by rewrite Hch3, Hch2))
    as (w4 & Hr4 & Hinv4 & _ & Hch4 & Hdb4).
  assert (Hdb : db_of w4 = db_of w) by (by rewrite Hdb4, Hdb3, Hdb2).
  destruct (filter _ (db_messages (db_of w))) as [|m0 rest] eqn:Hpage.
  - apply t_Runs_stuck. apply (t_runs_cons_fatal_stuck _ _ _ _ _ _ Hr2).
    apply (t_runs_cons_fatal_stuck _ _ _ _ _ _ Hr3). apply (t_runs_cons_fatal_stuck _ _ _ _ _ _ Hr4).
    apply t_runs_cons_stuck; [|done]. apply TestWebsockets_like_empty. by rewrite Hdb.
  - destruct (TestWebsockets_like_refused1 _ _ w4 m0 rest Hp1 Hinv4 ltac:(by rewrite Hch4, Hch3, Hch2)
                ltac:(by rewrite Hdb)) as (w5 & Hr5 & _).
    exists w5. eapply (t_Runs_cons_fatal _ _ _ _ _ _ _ Hr2).
    eapply (t_runs_cons_fatal _ _ _ _ _ _ _ Hr3). eapply (t_runs_cons_fatal _ _ _ _ _ _ _ Hr4).
    by eapply (t_runs_cons_fatal _ _ _ _ _ _ _ Hr5).
Qed.


(** C27: [TestWebsockets] relies on the missing group check: under a room
    policy that admits [TestUser] but refuses [TestUser2] the room
    ["wstestchat"] that [TestUser] created (for instance a policy that
    admits only a room's creator), the first subtest passes and stores
    its two messages, every later subtest fails at [TestUser2]'s dial,
    the deferred closes of the connections they did open run, and the
    test fails with the handshake error: no connection is left open and
    no like is toggled. *)
Theorem TestWebsockets_refused_user2 w :
  room_policy TestUser (cs_next (sys_chats (w_sys w))) = true → sys_inv (w_sys w) →
  (∀ c, c ∈ cs_chats (sys_chats (w_sys w)) → Chat.Address c ≠ "wstestchat") →
  Itoa r1 ∉ uuids (db_of w) → Itoa r2 ∉ uuids (db_of w) → r1 ≠ r2 →
  room_policy TestUser2 (cs_next (sys_chats (w_sys w))) = false →
  ∃ w', TestWebsockets TestUser TestUser2 r1 r2 r3 r4 w = Err (TFatal "websocket: bad handshake" w') ∧
    sys_inv (w_sys w') ∧ (all_closed w → all_closed w') ∧
    db_messages (db_of w') = db_messages (db_of w) ++
      [with_id (db_next (db_of w)) (ws_msg r1 (cs_next (sys_chats (w_sys w))) TestUser henlo_text);
       with_id (db_next (db_of w) + 1) (ws_msg r2 (cs_next (sys_chats (w_sys w))) TestUser lorem_text)] ∧
    db_likes (db_of w') = db_likes (db_of w).
Proof. apply TestWebsockets_refused_user2_run. Qed.

(** C28: [TestWebsockets] always terminates, whatever the room policy:
    on a server state that satisfies the invariant, with ["wstestchat"]
    free and four distinct new uuids, it passes when the policy admits
    both test users to the new room, and otherwise fails with the
    handshake error or panics on an empty message page; no [ReadJSON] of
    it ever waits for ever. *)
Theorem TestWebsockets_terminates w :
  sys_inv (w_sys w) →
  (∀ c, c ∈ cs_chats (sys_chats (w_sys w)) → Chat.Address c ≠ "wstestchat") →
  Forall (λ r, Itoa r ∉ uuids (db_of w)) [r1; r2; r3; r4] → NoDup [r1; r2; r3; r4] →
  (room_policy TestUser (cs_next (sys_chats (w_sys w))) = true ∧
   room_policy TestUser2 (cs_next (sys_chats (w_sys w))) = true ∧
   ∃ w', TestWebsockets TestUser TestUser2 r1 r2 r3 r4 w = Ok ((), w')) ∨
  ((room_policy TestUser (cs_next (sys_chats (w_sys w))) = false ∨
    room_policy TestUser2 (cs_next (sys_chats (w_sys w))) = false) ∧
   ((∃ w', TestWebsockets TestUser TestUser2 r1 r2 r3 r4 w = Err (TFatal "websocket: bad handshake" w')) ∨
    TestWebsockets TestUser TestUser2 r1 r2 r3 r4 w = Err (TPanic "index out of range"))).
Proof.
  intros Hinv Hfree Hfresh Hnd.
  pose proof Hfresh as Hfr. rewrite !Forall_cons in Hfr. destruct Hfr as (Hf1 & Hf2 & Hf3 & _).
  pose proof Hnd as Hn. rewrite !NoDup_cons in Hn. destruct Hn as (Hn1 & _).
  destruct (room_policy TestUser _) eqn:H1; destruct (room_policy TestUser2 _) eqn:H2.
  - left. split_and!; [done|done|].
    destruct (TestWebsockets_run TestUser TestUser2 r1 r2 r3 r4 w H1 H2 Hinv Hfree Hfresh Hnd)
      as (w' & Hr & _). eauto.
  - right. split; [by right|]. left.
    destruct (TestWebsockets_refused_user2_run w) as (w' & Hr & _); try done; [set_solver|eauto].
  - right. split; [by left|]. left. by apply TestWebsockets_refused_user1_run.
  - right. split; [by left|].
    pose proof (TestWebsockets_refused_both_run w H1 H2 Hinv Hfree) as H. case_match; [by right|by left].
Qed.

(** C29: the test hangs when two of its random uuids collide: if the two
    messages of ["send a couple messages"] draw the same number, the
    store refuses the second, the router only logs the error, and
    [WSSendAndVerify] waits for ever for its echo on the first
    connection the test opened. *)
Theorem TestWebsockets_uuid_collision_blocks w :
  room_policy TestUser (cs_next (sys_chats (w_sys w))) = true → sys_inv (w_sys w) →
  (∀ c, c ∈ cs_chats (sys_chats (w_sys w)) → Chat.Address c ≠ "wstestchat") →
  Itoa r1 ∉ uuids (db_of w) →
  TestWebsockets TestUser TestUser2 r1 r1 r3 r4 w = Err (TBlocked (sys_next (w_sys w))).
Proof.
  intros Hp Hinv Hfree Hf.
  destruct (TestWebsockets_setup_run TestUser TestUser2 r1 r1 r3 r4 w Hinv Hfree) as (-> & Hinv1 & Hk).
  apply t_Runs_cons_stuck; [|done].
  by apply (TestWebsockets_send_couple_collision _ _ _ Hp Hinv1 Hk).
Qed.

(** C31: under a room policy that refuses both test users the new room
    (a group check with no [Join Group] yet), no subtest can store a
    message, so ["like a message"] indexes [Messages[0]] of an empty
    page: [TestWebsockets] panics, which stops the whole test binary,
    instead of failing with [t.Fatal]. *)
Theorem TestWebsockets_refused_both_panics w :
  room_policy TestUser (cs_next (sys_chats (w_sys w))) = false →
  room_policy TestUser2 (cs_next (sys_chats (w_sys w))) = false → sys_inv (w_sys w) →
  (∀ c, c ∈ cs_chats (sys_chats (w_sys w)) → Chat.Address c ≠ "wstestchat") →
  filter (λ m, Chatid m = Some (cs_next (sys_chats (w_sys w)))) (db_messages (db_of w)) = [] →
  TestWebsockets TestUser TestUser2 r1 r2 r3 r4 w = Err (TPanic "index out of range").
Proof.
  intros Hp1 Hp2 Hinv Hfree Hpage.
  pose proof (TestWebsockets_refused_both_run w Hp1 Hp2 Hinv Hfree) as H. by rewrite Hpage in H.
Qed.
End Policies.

(** ** Witness: the fresh server *)

Lemma TestWebsockets_passes_witness :
  ∃ w', TestWebsockets (pol := server_may_join) 1 2 11 12 13 14 init_world = Ok ((), w') ∧
    db_messages (db_of w') =
      db_messages (db_of init_world) ++
      ws_messages 1 2 11 12 13 14 (db_next (db_of init_world)) (cs_next (sys_chats (w_sys init_world))).
Proof.
  exact (TestWebsockets_passes (pol := server_may_join) 1 2 11 12 13 14 empty_chats empty_db init_world eq_refl eq_refl
           memdb_wf_empty chats_wf_empty (reach_init _ _)
           ltac:(intros c Hc; by apply not_elem_of_nil in Hc)
           ltac:(repeat constructor; apply not_elem_of_nil)
           ltac:(decide_closed)).
Defined.

Lemma TestWebsockets_refused_user2_witness :
  ∃ w', TestWebsockets (pol := creator_only 1) 1 2 11 12 13 14 init_world =
          Err (TFatal "websocket: bad handshake" w') ∧
    sys_inv (w_sys w') ∧ (all_closed init_world → all_closed w') ∧
    db_messages (db_of w') = db_messages (db_of init_world) ++
      [with_id (db_next (db_of init_world)) (ws_msg 11 (cs_next (sys_chats (w_sys init_world))) 1 henlo_text);
       with_id (db_next (db_of init_world) + 1) (ws_msg 12 (cs_next (sys_chats (w_sys init_world))) 1 lorem_text)] ∧
    db_likes (db_of w') = db_likes (db_of init_world).
Proof.
  exact (TestWebsockets_refused_user2 (pol := creator_only 1) 1 2 11 12 13 14 init_world eq_refl
           (init_inv _ _ memdb_wf_empty chats_wf_empty)
           ltac:(intros c Hc; by apply not_elem_of_nil in Hc)
           (not_elem_of_nil _) (not_elem_of_nil _) ltac:(lia) eq_refl).
Defined.

Lemma TestWebsockets_terminates_witness :
  (room_policy (RoomPolicy := creator_only 1) 1 1 = true ∧ room_policy (RoomPolicy := creator_only 1) 2 1 = true ∧
   ∃ w', TestWebsockets (pol := creator_only 1) 1 2 11 12 13 14 init_world = Ok ((), w')) ∨
  ((room_policy (RoomPolicy := creator_only 1) 1 1 = false ∨ room_policy (RoomPolicy := creator_only 1) 2 1 = false) ∧
   ((∃ w', TestWebsockets (pol := creator_only 1) 1 2 11 12 13 14 init_world =
             Err (TFatal "websocket: bad handshake" w')) ∨
    TestWebsockets (pol := creator_only 1) 1 2 11 12 13 14 init_world = Err (TPanic "index out of range"))).
Proof.
  exact (TestWebsockets_terminates (pol := creator_only 1) 1 2 11 12 13 14 init_world
           (init_inv _ _ memdb_wf_empty chats_wf_empty)
           ltac:(intros c Hc; by apply not_elem_of_nil in Hc)
           ltac:(repeat constructor; apply not_elem_of_nil) ltac:(decide_closed)).
Defined.

Lemma TestWebsockets_uuid_collision_blocks_witness :
  TestWebsockets (pol := server_may_join) 1 2 11 11 13 14 init_world = Err (TBlocked 0).
Proof.
  exact (TestWebsockets_uuid_collision_blocks (pol := server_may_join) 1 2 11 13 14 init_world eq_refl
           (init_inv _ _ memdb_wf_empty chats_wf_empty)
           ltac:(intros c Hc; by apply not_elem_of_nil in Hc) (not_elem_of_nil _)).
Defined.

Lemma TestWebsockets_refused_both_panics_witness :
  TestWebsockets (pol := creator_only 7) 1 2 11 12 13 14 init_world = Err (TPanic "index out of range").
Proof.
  exact (TestWebsockets_refused_both_panics (pol := creator_only 7) 1 2 11 12 13 14 init_world
           eq_refl eq_refl (init_inv _ _ memdb_wf_empty chats_wf_empty)
           ltac:(intros c Hc; by apply not_elem_of_nil in Hc) eq_refl).
Defined.
