(* ===== verification/Suite.v ===== *)
(** * Suite: [TestMain] on a fresh server

    [go test] in [src/server/tests] runs [TestMain]: the server starts with
    no chat, no message and no connection ([init_world]), and the tests of
    [api_test.go] run in order on it.  [TestMain_passes] shows that every
    one of them passes, for any two distinct test users and any four
    distinct random uuids, when the server's greeting and login pages
    answer as [TestHelloWorld] and [TestLogin] expect; the other theorems
    say what the server holds afterwards, and [TestMain_verdict] that the
    suite passes only if those pages answer so.  [m.Run()] runs every
    test even after one fails: with a wrong greeting the other four tests
    still run and pass ([TestMain_greeting_fails_rest_runs]). *)

From S2P Require Import Prelude Wire Likes Persister Registry Broadcaster Router Chats Lifecycle LifecycleFacts Harness HarnessFacts Scenarios Pages ScenarioFacts WsScenarioFacts.
Local Open Scope string_scope.

(** The server the suite runs against admits every user to every room. *)
#[local] Instance server_policy : RoomPolicy := server_may_join.

(** [TestMain]: [m.Run()] runs the tests of the file in the order they
    are written, on one server: [TestHelloWorld], [TestLogin],
    [TestChats], [TestUsers], [TestWebsockets]; a test that fails does not
    stop the next ones.  [get] is what the server answers for its pages,
    [n1] and [n2] the test users' names. *)
Definition TestMain (get : Pages) (n1 n2 : string) (TestUser TestUser2 r1 r2 r3 r4 : Z) : Test () :=
  t_Runs [TestHelloWorld get; TestLogin get n1 n2;
          TestChats TestUser; TestUsers TestUser TestUser2; TestWebsockets TestUser TestUser2 r1 r2 r3 r4].

(** The chats the suite leaves: ids 2, 3 and 5 were given to the chats the
    tests deleted. *)
Definition final_chats (TestUser : Z) : list Chat.t :=
  [Chat.mk 1 "dbtestchat" "Test Chat" TestUser;
   Chat.mk 4 "user1chat" "Test User 1's Chat" TestUser;
   Chat.mk 6 "wstestchat" "Test Chat" TestUser].

Lemma init_world_inv : sys_inv (w_sys init_world).
Proof. apply init_inv; [apply memdb_wf_empty|apply chats_wf_empty]. Qed.

Section Main.
Variable get : Pages.
Variables n1 n2 : string.
Variables TestUser TestUser2 r1 r2 r3 r4 : Z.
Hypothesis Hdistinct : TestUser ≠ TestUser2.
Hypothesis Huuids : NoDup [r1; r2; r3; r4].

(** The tests after [TestHelloWorld], from the fresh server, when the
    login pages answer as expected: each passes, and the server ends with
    the chats, messages and like of a whole run. *)
Lemma TestMain_tail_run :
  get login_url = Ok (welcome n1) → get login2_url = Ok (welcome n2) →
  ∃ w', t_runs [TestLogin get n1 n2; TestChats TestUser; TestUsers TestUser TestUser2;
                TestWebsockets TestUser TestUser2 r1 r2 r3 r4] init_world = Ok ([], w') ∧
    sys_chats (w_sys w') = mkChatStore (final_chats TestUser) 7 ∧
    db_messages (db_of w') = ws_messages TestUser TestUser2 r1 r2 r3 r4 1 6 ∧
    db_likes (db_of w') = [mkDBLike "1" TestUser] ∧
    sys_inv (w_sys w') ∧ all_closed w'.
Proof.
  intros H2 H3.
  rewrite (t_runs_cons_ok _ _ _ init_world) by (apply TestLogin_pass; done).
  set (ch1 := Chat.mk 1 "dbtestchat" "Test Chat" TestUser).
  set (w1 := with_chats (mkChatStore [ch1] 4) init_world).
  rewrite (t_runs_cons_ok _ _ _ w1) by (apply (TestChats_run TestUser init_world chats_wf_empty eq_refl)).
  set (ch2 := Chat.mk 4 "user1chat" "Test User 1's Chat" TestUser).
  assert (Hwf1 : chats_wf (mkChatStore [ch1] 4)).
  { exact (chats_wf_bump _ (chats_wf_bump _ (create_chat_wf TestUser "Test Chat" "dbtestchat"
             empty_chats chats_wf_empty ltac:(set_solver)))). }
  set (w2 := with_chats (mkChatStore [ch1; ch2] 6) w1).
  rewrite (t_runs_cons_ok _ _ _ w2)
    by (apply (TestUsers_run TestUser TestUser2 Hdistinct w1 Hwf1
                 ltac:(simpl; intros c ?%list_elem_of_singleton; subst; done))).
  assert (Hwf2 : chats_wf (mkChatStore [ch1; ch2] 6)).
  { exact (chats_wf_bump _ (create_chat_wf TestUser "Test User 1's Chat" "user1chat"
             _ Hwf1 ltac:(simpl; set_solver))). }
  assert (Hinv2 : sys_inv (w_sys w2)) by (apply with_chats_inv; [apply with_chats_inv; [apply init_world_inv|]|]; done).
  destruct (TestWebsockets_run TestUser TestUser2 r1 r2 r3 r4 w2 eq_refl eq_refl Hinv2) as
    (w3 & Hr3 & Hinv3 & Hcl3 & Hch3 & Hdb3 & Hlk3); [set_solver|apply Forall_forall; intros r _; apply not_elem_of_nil|done|].
  exists w3. split; [by rewrite (t_runs_cons_ok _ _ _ _ Hr3)|]. split_and!.
  - rewrite Hch3. done.
  - rewrite Hdb3. done.
  - rewrite Hlk3, Hdb3. done.
  - done.
  - apply Hcl3. apply map_Forall_empty.
Qed.

Lemma TestMain_run :
  pages_ok get n1 n2 →
  ∃ w', TestMain get n1 n2 TestUser TestUser2 r1 r2 r3 r4 init_world = Ok ((), w') ∧
    sys_chats (w_sys w') = mkChatStore (final_chats TestUser) 7 ∧
    db_messages (db_of w') = ws_messages TestUser TestUser2 r1 r2 r3 r4 1 6 ∧
    db_likes (db_of w') = [mkDBLike "1" TestUser] ∧
    sys_inv (w_sys w') ∧ all_closed w'.
Proof.
  intros (H1 & H2 & H3). destruct (TestMain_tail_run H2 H3) as (w' & Hr & Hrest).
  exists w'. split; [|done]. unfold TestMain.
  rewrite (t_Runs_cons_ok _ _ _ init_world) by (by apply TestHelloWorld_pass).
  unfold t_Runs. by rewrite (bind_run _ _ _ _ _ Hr).
Qed.

(** C1: [go test] passes: on a fresh server whose greeting and login
    pages answer as expected, the five tests run in order to the end
    without [t.Fatal], for any two distinct test users and any four
    distinct random uuids, and the server is left with the three chats the
    tests do not delete. *)
Theorem TestMain_passes :
  pages_ok get n1 n2 →
  ∃ w', TestMain get n1 n2 TestUser TestUser2 r1 r2 r3 r4 init_world = Ok ((), w') ∧
    ListChats (sys_chats (w_sys w')) = final_chats TestUser.
Proof.
  intros (H1 & H2 & H3). destruct (TestMain_tail_run H2 H3) as (w' & Hr & Hch & _).
  exists w'. split; [|by rewrite Hch]. unfold TestMain.
  rewrite (t_Runs_cons_ok _ _ _ init_world) by (by apply TestHelloWorld_pass).
  unfold t_Runs. by rewrite (bind_run _ _ _ _ _ Hr).
Qed.

(** C6: after the suite, the message page of ["wstestchat"] (chat 6)
    lists the four messages of [TestWebsockets] in the order they were
    sent, with the ids 1 to 4 and the text and user each subtest gave. *)
Theorem TestMain_messages :
  pages_ok get n1 n2 →
  ∃ w', TestMain get n1 n2 TestUser TestUser2 r1 r2 r3 r4 init_world = Ok ((), w') ∧
    HttpGetMessages 6 w' = Ok (ws_messages TestUser TestUser2 r1 r2 r3 r4 1 6, w').
Proof.
  intros Hp. destruct (TestMain_run Hp) as (w' & Hrun & _ & Hmsgs & _). exists w'. split; [done|].
  rewrite get_messages_run, Hmsgs. unfold ws_messages. cbn. by rewrite !decide_True.
Qed.

(** C7: after the suite, the [likes] table holds exactly one row: user 1
    likes message ["1"], the first message of the chat, which
    [like a message] liked once. *)
Theorem TestMain_likes :
  pages_ok get n1 n2 →
  ∃ w', TestMain get n1 n2 TestUser TestUser2 r1 r2 r3 r4 init_world = Ok ((), w') ∧
    db_likes (db_of w') = [mkDBLike "1" TestUser].
Proof.
  intros Hp. destruct (TestMain_run Hp) as (w' & Hrun & _ & _ & Hlk & _). by exists w'.
Qed.

(** C8: after the suite no connection is left open: every websocket the
    tests dialed has been closed by its deferred close, and no room of
    the registry has a member left. *)
Theorem TestMain_closes_all :
  pages_ok get n1 n2 →
  ∃ w', TestMain get n1 n2 TestUser TestUser2 r1 r2 r3 r4 init_world = Ok ((), w') ∧
    (∀ c ci, sys_conns (w_sys w') !! c = Some ci → ci_state ci = Closed) ∧
    ∀ k, Members k (reg_of (w_sys w')) = [].
Proof.
  intros Hp. destruct (TestMain_run Hp) as (w' & Hrun & _ & _ & _ & Hinv & Hcl). exists w'.
  split_and!; [done|done|]. intros k. by apply all_closed_no_members.
Qed.

(** C23: the suite's verdict depends on nothing but the relay model and
    the server's pages: for any two distinct test users and four distinct
    uuids, [TestMain] passes on a fresh server exactly when the greeting
    and login pages answer as [TestHelloWorld] and [TestLogin] expect. *)
Theorem TestMain_verdict :
  (∃ w', TestMain get n1 n2 TestUser TestUser2 r1 r2 r3 r4 init_world = Ok ((), w')) ↔
    pages_ok get n1 n2.
Proof.
  split.
  - intros (w' & H). unfold TestMain in H.
    destruct (t_Runs_cons_inv _ _ _ _ H) as (w1 & Hh & H').
    destruct (t_Runs_cons_inv _ _ _ _ H') as (w2 & Hl & _).
    apply TestHelloWorld_pass in Hh as [? ->]. apply TestLogin_pass in Hl as (? & ? & _).
    by split_and!.
  - intros Hp. destruct (TestMain_run Hp) as (w' & ? & _). eauto.
Qed.
(** C32: a failing test does not stop the suite: when the greeting page
    answers anything but the expected text (and the login pages answer
    as expected), [TestHelloWorld] fails, yet [TestLogin], [TestChats],
    [TestUsers] and [TestWebsockets] all run and pass, leaving the chats,
    messages and like of a passing run; the suite then fails with the
    greeting's message. *)
Theorem TestMain_greeting_fails_rest_runs (output : string) :
  get hello_url = Ok output → output ≠ hello_expected →
  get login_url = Ok (welcome n1) → get login2_url = Ok (welcome n2) →
  ∃ w', TestMain get n1 n2 TestUser TestUser2 r1 r2 r3 r4 init_world = Err (TFatal "Expected greeting" w') ∧
    ListChats (sys_chats (w_sys w')) = final_chats TestUser ∧
    db_messages (db_of w') = ws_messages TestUser TestUser2 r1 r2 r3 r4 1 6 ∧
    db_likes (db_of w') = [mkDBLike "1" TestUser] ∧ all_closed w'.
Proof.
  intros H1 Hne H2 H3. destruct (TestMain_tail_run H2 H3) as (w' & Hr & Hch & Hm & Hl & _ & Hcl).
  exists w'. split; [|by rewrite Hch]. unfold TestMain.
  apply (t_Runs_cons_fatal _ _ _ _ init_world [] w' ); [|done].
  rewrite TestHelloWorld_run, H1. by rewrite bool_decide_eq_false_2.
Qed.
End Main.

(** C33: the tests that only make HTTP requests always end: on every
    server state, whatever the server's pages answer and whoever the
    test users are, [TestHelloWorld], [TestLogin], [TestChats] and
    [TestUsers] run to their end or to a [t.Fatal], and never panic or
    wait.  Only [TestWebsockets] reads from a websocket (C28, C29). *)
Theorem http_tests_end (get : Pages) (n1 n2 : string) (TestUser TestUser2 : Z) :
  ends (TestHelloWorld get) ∧ ends (TestLogin get n1 n2) ∧
  ends (TestChats TestUser) ∧ ends (TestUsers TestUser TestUser2).
Proof.
  split_and!.
  - unfold TestHelloWorld, HttpGetPage. solve_ends.
  - apply ends_t_Runs. repeat constructor; unfold TestLogin_user, HttpGetPage; solve_ends.
  - apply ends_t_Runs. repeat constructor;
      [unfold TestChats_create_and_get|unfold TestChats_chat_id_0|unfold TestChats_delete]; solve_ends.
  - apply ends_t_Runs. repeat constructor;
      [unfold TestUsers_create_user1|unfold TestUsers_create_delete_user2]; solve_ends.
Qed.

(** ** Witnesses: two users and four uuids *)

Lemma TestMain_passes_witness :
  ∃ w', TestMain (test_pages "Alice" "Bob") "Alice" "Bob" 1 2 11 12 13 14 init_world = Ok ((), w') ∧
    ListChats (sys_chats (w_sys w')) = final_chats 1.
Proof. exact (TestMain_passes (test_pages "Alice" "Bob") "Alice" "Bob" 1 2 11 12 13 14 ltac:(lia) ltac:(decide_closed)
           (conj eq_refl (conj eq_refl eq_refl))). Defined.

Lemma TestMain_messages_witness :
  ∃ w', TestMain (test_pages "Alice" "Bob") "Alice" "Bob" 1 2 11 12 13 14 init_world = Ok ((), w') ∧
    HttpGetMessages 6 w' = Ok (ws_messages 1 2 11 12 13 14 1 6, w').
Proof. exact (TestMain_messages (test_pages "Alice" "Bob") "Alice" "Bob" 1 2 11 12 13 14 ltac:(lia) ltac:(decide_closed)
           (conj eq_refl (conj eq_refl eq_refl))). Defined.

Lemma TestMain_likes_witness :
  ∃ w', TestMain (test_pages "Alice" "Bob") "Alice" "Bob" 1 2 11 12 13 14 init_world = Ok ((), w') ∧
    db_likes (db_of w') = [mkDBLike "1" 1].
Proof. exact (TestMain_likes (test_pages "Alice" "Bob") "Alice" "Bob" 1 2 11 12 13 14 ltac:(lia) ltac:(decide_closed)
           (conj eq_refl (conj eq_refl eq_refl))). Defined.

Lemma TestMain_closes_all_witness :
  ∃ w', TestMain (test_pages "Alice" "Bob") "Alice" "Bob" 1 2 11 12 13 14 init_world = Ok ((), w') ∧
    (∀ c ci, sys_conns (w_sys w') !! c = Some ci → ci_state ci = Closed) ∧
    ∀ k, Members k (reg_of (w_sys w')) = [].
Proof. exact (TestMain_closes_all (test_pages "Alice" "Bob") "Alice" "Bob" 1 2 11 12 13 14 ltac:(lia) ltac:(decide_closed)
           (conj eq_refl (conj eq_refl eq_refl))). Defined.

Lemma TestMain_greeting_fails_rest_runs_witness :
  ∃ w', TestMain (λ url, if bool_decide (url = hello_url) then Ok "Hello" else test_pages "Alice" "Bob" url)
          "Alice" "Bob" 1 2 11 12 13 14 init_world = Err (TFatal "Expected greeting" w') ∧
    ListChats (sys_chats (w_sys w')) = final_chats 1 ∧
    db_messages (db_of w') = ws_messages 1 2 11 12 13 14 1 6 ∧
    db_likes (db_of w') = [mkDBLike "1" 1] ∧ all_closed w'.
Proof.
  exact (TestMain_greeting_fails_rest_runs
           (λ url, if bool_decide (url = hello_url) then Ok "Hello" else test_pages "Alice" "Bob" url)
           "Alice" "Bob" 1 2 11 12 13 14 ltac:(lia) ltac:(decide_closed) "Hello"
           eq_refl ltac:(decide_closed) eq_refl eq_refl).
Defined.

Lemma TestMain_verdict_witness :
  (∃ w', TestMain (λ _, Err (mkHttpError 502 "Bad Gateway")) "Alice" "Bob" 1 2 11 12 13 14 init_world =
           Ok ((), w')) ↔
    pages_ok (λ _, Err (mkHttpError 502 "Bad Gateway")) "Alice" "Bob".
Proof. exact (TestMain_verdict (λ _, Err (mkHttpError 502 "Bad Gateway")) "Alice" "Bob" 1 2 11 12 13 14
                ltac:(lia) ltac:(decide_closed)). Defined.
